(** * Session layer of the buddycloud HTTP API: a shallow embedding

    This development follows [src/util/session.js].  A [Session] owns one
    XMPP connection, a reply-handler cache that correlates queries with
    replies, the table of subscriptions and the presence reference counts.
    JavaScript callbacks are first-order data here: a user callback is a
    number (its identity), the closure that [subscribe] hands to
    [sendQuery] is the constructor [HSubscribe] with the variables it
    captures.  Calling a user callback is an observable effect recorded in
    a log, together with the session as it is at the moment of the call;
    user callbacks are taken not to call back into the session. *)

From Stdlib Require Import ZArith Lia Ascii String.
From stdpp Require Import gmap strings list pretty.

Local Open Scope Z_scope.

(** ** JavaScript values, as far as the code inspects them *)

Inductive JsVal :=
| JUndefined
| JNull
| JNum (z : Z)
| JStr (s : string)
| JObj (prim : string).   (* an object; [prim] is what ToPrimitive gives *)

(** Truthiness, as tested by [if (v)] and [!v]. *)
Definition truthy (v : JsVal) : bool :=
  match v with
  | JUndefined | JNull => false
  | JNum z => negb (Z.eqb z 0)
  | JStr s => negb (String.eqb s "")
  | JObj _ => true
  end.

(** [a || b] *)
Definition js_or (a b : JsVal) : JsVal := if truthy a then a else b.

(** String conversion, as done by ['...' + v]. *)
Definition js_to_string (v : JsVal) : string :=
  match v with
  | JUndefined => "undefined"
  | JNull => "null"
  | JNum z => pretty z
  | JStr s => s
  | JObj p => p
  end.

(** Strings.  A position in a string counts the characters of the Rocq
    string, one byte each, where JavaScript counts UTF-16 code units: the
    two agree on strings of ASCII characters.  On other strings a position
    that [indexOf] finds for an ASCII pattern still marks the same place in
    both, so that [substring] cuts there alike; a fixed position does so
    only when the characters before it are ASCII. *)

(** [s.indexOf(t)]: position of the first occurrence, -1 when there is none. *)
Definition indexOf (s t : string) : Z :=
  match String.index 0 t s with
  | Some n => Z.of_nat n
  | None => -1
  end.

Definition clamp_index (z : Z) (s : string) : nat :=
  Z.to_nat (Z.min (Z.max z 0) (Z.of_nat (String.length s))).

(** [s.substring(start)] *)
Definition substring_from (s : string) (start : Z) : string :=
  let a := clamp_index start s in
  String.substring a (String.length s - a) s.

(** [s.substring(start, stop)]: both ends clamped, swapped when out of order. *)
Definition substring_between (s : string) (start stop : Z) : string :=
  let a := clamp_index start s in
  let b := clamp_index stop s in
  String.substring (Nat.min a b) (Nat.max a b - Nat.min a b) s.

Fixpoint replace_slashes (s : string) : string :=
  match s with
  | EmptyString => EmptyString
  | String c r =>
      String (if Ascii.eqb c "/"%char then "."%char else c) (replace_slashes r)
  end.

(** [makeChannelName(s)]: [s.replace(/\//g, ".")] *)
Definition makeChannelName (s : string) : string := replace_slashes s.

(** ** Configuration ([require('./config')]) *)

Record Config := {
  channelDomain : string;
  fanoutRealm : JsVal;
  requestExpirationTime : nat;
  sessionExpirationTime : nat;
  xmppHost : JsVal;
  xmppPort : JsVal;
  xmppDomain : JsVal;
  xmppAnonymousDomain : JsVal;
  xmppAnonymousHost : JsVal;
  xmppAnonymousPort : JsVal
}.

(** ** Stanzas *)

(** An Atom entry of a publish event.  [entry_updated] is
    [iso8601.toDate(text of a:updated).getTime()], milliseconds since the
    epoch.  Entries are taken to carry both [a:id] and [a:updated]. *)
Record Entry := {
  entry_id : string;
  entry_updated : Z;
  entry_content : string
}.

(** The [/message/event/items] element of a publish event. *)
Record EventItems := {
  items_node : string;
  items_entries : list Entry
}.

(** The [error] child of an error iq. *)
Record StanzaError := {
  error_type : string;
  error_condition : string
}.

(** An inbound stanza: element name, attributes, and the two kinds of
    children the session looks at. *)
Record Stanza := {
  st_name : string;
  st_attrs : gmap string string;
  st_items : option EventItems;
  st_error : option StanzaError
}.

(** [stanza.attr(name)] *)
Definition stanza_attr (st : Stanza) (name : string) : JsVal :=
  match st_attrs st !! name with
  | Some v => JStr v
  | None => JUndefined
  end.

(** What [pubsub.subscribeIq] and the callers of [sendQuery] build. *)
Inductive Payload :=
| PSubscribe (nodeId jid : string) (ephemeral : bool)
| PUser (body : string).

(** Stanzas written to the connection. *)
Inductive OutStanza :=
| OPresence (from to : string)
| OIq (p : Payload) (from to id : string).

(** ** Callbacks and subscriptions *)

(** Addresses of objects in the store. *)
Abbreviation loc := nat.

(** The functions stored in the reply-handler cache. *)
Inductive Handler :=
| HUser (cb : nat)
| HSubscribe (sub : loc) (subkey : string).

Global Instance Handler_eq_dec : EqDecision Handler.
Proof. solve_decision. Defined.

(** An observer registered with [onStanza]: its identity and what it
    returns on a stanza (truthy or not). *)
Record StanzaHandler := {
  sh_id : nat;
  sh_done : Stanza -> bool
}.

(** The listeners of the connection's ['stanza'] event. *)
Inductive Listener :=
| LMain
| LOnStanza (h : StanzaHandler).

Record Pending := {
  onsub : nat;
  onerror : nat
}.

Record ItemId := {
  id_id : string;
  id_time : Z
}.

Record Item := {
  item_id : ItemId;
  item_entry : Entry
}.

(** The [userData] object of a subscription.  [ud_items = None] is
    [items === undefined]. *)
Record UserData := {
  ud_items : option (list Item);
  ud_from : JsVal;
  ud_prevId : JsVal;
  ud_lastPublishedId : JsVal
}.

(** [sub.state] only ever holds one of these two strings. *)
Inductive SubState := subscribing | subscribed.

Global Instance SubState_eq_dec : EqDecision SubState.
Proof. solve_decision. Defined.

(** A subscription object; [sub_userData] is the address of its
    [userData] object. *)
Record Sub := {
  sub_state : SubState;
  sub_pending : list Pending;
  sub_userData : loc
}.

(** ** The TTL cache *)

Inductive ExpiredCallback :=
| OnReplyExpired      (* set by Session.prototype._setupExpirationHandler *)
| OnSessionExpired.   (* sessionCache.onexpired: session.end() *)

(** Modelled from the spec: [src/util/cache.js] ([cache.Cache]) is not among
    the sources.  An entry is [(key, value, insertedAt)]; the time-to-live
    is given at construction; [onexpired] is optional. *)
Record Cache (V : Type) := {
  cache_ttl : nat;
  cache_data : gmap string (V * nat);
  cache_onexpired : option ExpiredCallback
}.
Arguments cache_ttl {V} _.
Arguments cache_data {V} _.
Arguments cache_onexpired {V} _.

(** Modelled from the spec: [new cache.Cache(ttl)]. *)
Definition Cache_new {V} (ttl : nat) : Cache V :=
  {| cache_ttl := ttl; cache_data := ∅; cache_onexpired := None |}.

(** Modelled from the spec: [put(key, value)] stores or refreshes an entry
    and resets its expiration window. *)
Definition Cache_put {V} (k : string) (v : V) (now : nat) (c : Cache V) : Cache V :=
  {| cache_ttl := cache_ttl c;
     cache_data := <[k := (v, now)]> (cache_data c);
     cache_onexpired := cache_onexpired c |}.

(** Modelled from the spec: whether the entry inserted at [t] has outlived
    the time-to-live at time [now]. *)
Definition Cache_is_expired {V} (c : Cache V) (t now : nat) : bool :=
  (t + cache_ttl c <=? now)%nat.

(** Modelled from the spec: [get(key)] returns the value if present and not
    expired, else not-found; it does not extend the TTL. *)
Definition Cache_get {V} (k : string) (now : nat) (c : Cache V) : option V :=
  match cache_data c !! k with
  | Some (v, t) => if Cache_is_expired c t now then None else Some v
  | None => None
  end.

(** Modelled from the spec: [remove(key)] deletes unconditionally, without
    calling [onexpired]. *)
Definition Cache_remove {V} (k : string) (c : Cache V) : Cache V :=
  {| cache_ttl := cache_ttl c;
     cache_data := delete k (cache_data c);
     cache_onexpired := cache_onexpired c |}.

(** Modelled from the spec: [generateKey()] returns an identifier not
    currently present in the cache.  The identifier is random; [k] is a
    possible result when this holds. *)
Definition Cache_generateKey {V} (c : Cache V) (k : string) : Prop :=
  cache_data c !! k = None.

(** Modelled from the spec: the entry that the expiry of [k] evicts at time
    [now], if [k] is present and has outlived the TTL. *)
Definition Cache_due {V} (k : string) (now : nat) (c : Cache V) : option V :=
  match cache_data c !! k with
  | Some (v, t) => if Cache_is_expired c t now then Some v else None
  | None => None
  end.

(** Modelled from the spec: [cache.onexpired = cb], the optional callback
    [onexpired(key, value)] that an eviction by timeout calls. *)
Definition Cache_set_onexpired {V} (cb : ExpiredCallback) (c : Cache V) : Cache V :=
  {| cache_ttl := cache_ttl c;
     cache_data := cache_data c;
     cache_onexpired := Some cb |}.

(** ** The session object *)

(** [_subs] is a [cache.Cache] on which the code sets, reads and deletes
    plain properties: [s_subs] is the cache itself, [s_subs_props] the
    properties.  The keys are [channelDomain + "_" + nodeId]; they are taken
    not to collide with the names of the cache's own members.
    [s_subObjs] and [s_userDatas] are the store: the subscription objects
    and their [userData] objects, by address.  [s_now] is the clock. *)
Record Session := {
  s_id : JsVal;
  s_jid : string;
  s_replyHandlers : Cache Handler;
  s_subs : Cache loc;
  s_subs_props : gmap string loc;
  s_subsPresences : gmap string Z;
  s_subObjs : gmap loc Sub;
  s_userDatas : gmap loc UserData;
  s_next : loc;
  s_listeners : list Listener;
  s_now : nat
}.

(** The body of a fan-out item: the feed that
    [api.generateNodeFeedFromEntries(channel, node, from, entries)] builds,
    serialised as Atom or, through [atom.toJSON], as JSON. *)
Record Feed := {
  feed_channel : string;
  feed_node : string;
  feed_from : JsVal;
  feed_entries : list Entry
}.

Inductive Body :=
| AtomXml (f : Feed)
| AtomJson (f : Feed).

Record HrItem := {
  hr_content_type : string;
  hr_body : Body
}.

Record FanoutItem := {
  fo_id : option JsVal;
  fo_prev_id : option JsVal;
  fo_http_response : HrItem
}.

(** The POST of [fanoutPublish]; the authorization token is left out. *)
Record FanoutRequest := {
  fr_path : string;
  fr_items : list FanoutItem
}.

(** What the session does to the outside. *)
Inductive Effect :=
| Send (st : OutStanza)                       (* this._connection.send *)
| CallHandler (h : Handler) (reply : Stanza)  (* a reply handler is called *)
| CallOnSub (cb : nat) (userData : loc)       (* onsub(sub.userData) *)
| CallOnError (cb : nat) (msg : string)       (* onerror(msg) *)
| CallStanzaHandler (h : nat) (st : Stanza)   (* handler(stanza) of onStanza *)
| HttpPost (r : FanoutRequest).               (* http.request ... req.end() *)

Inductive Exn := TypeError (what : string).

Inductive Outcome (A : Type) :=
| Returned (a : A)
| Thrown (e : Exn).
Arguments Returned {A} _.
Arguments Thrown {A} _.

(** A computation on the session: the session afterwards (also when it
    throws: nothing is rolled back), the effects in order, each with the
    session at that moment, and the outcome. *)
Definition M (A : Type) : Type :=
  Session -> Session * list (Effect * Session) * Outcome A.

Global Instance M_ret : MRet M := fun A a s => (s, [], Returned a).

Global Instance M_bind : MBind M := fun A B f m s =>
  match m s with
  | (s1, l1, Returned a) =>
      match f a s1 with
      | (s2, l2, o) => (s2, l1 ++ l2, o)
      end
  | (s1, l1, Thrown e) => (s1, l1, Thrown e)
  end.

Definition get_session : M Session := fun s => (s, [], Returned s).
Definition modify (f : Session -> Session) : M unit := fun s => (f s, [], Returned tt).
Definition tell (e : Effect) : M unit := fun s => (s, [(e, s)], Returned tt).
Definition throw {A} (e : Exn) : M A := fun s => (s, [], Thrown e).

(** [for (var i = 0; i < xs.length; ++i) f(xs[i])] *)
Fixpoint for_each {A} (f : A -> M unit) (xs : list A) : M unit :=
  match xs with
  | [] => mret tt
  | x :: r => f x ;; for_each f r
  end.

Definition final_state {A} (r : Session * list (Effect * Session) * Outcome A) : Session :=
  r.1.1.
Definition log_of {A} (r : Session * list (Effect * Session) * Outcome A)
  : list (Effect * Session) := r.1.2.
Definition effects_of {A} (r : Session * list (Effect * Session) * Outcome A)
  : list Effect := (r.1.2).*1.
Definition outcome_of {A} (r : Session * list (Effect * Session) * Outcome A)
  : Outcome A := r.2.

(** ** The operations of [Session] *)

Section SessionOps.
Variable config : Config.

(** [new Session(id, connection)], with [connection.jid.toString()] given
    as [jid]; the constructor ends with [_setupExpirationHandler] and
    [_setupStanzaListener]. *)
Definition Session_new (id : JsVal) (jid : string) (now : nat) : Session :=
  {| s_id := id;
     s_jid := jid;
     s_replyHandlers :=
       Cache_set_onexpired OnReplyExpired (Cache_new (requestExpirationTime config));
     s_subs := Cache_new (sessionExpirationTime config);
     s_subs_props := ∅;
     s_subsPresences := ∅;
     s_subObjs := ∅;
     s_userDatas := ∅;
     s_next := 0%nat;
     s_listeners := [LMain];
     s_now := now |}.

Definition set_replyHandlers (c : Cache Handler) (s : Session) : Session :=
  {| s_id := s_id s; s_jid := s_jid s; s_replyHandlers := c;
     s_subs := s_subs s; s_subs_props := s_subs_props s;
     s_subsPresences := s_subsPresences s; s_subObjs := s_subObjs s;
     s_userDatas := s_userDatas s; s_next := s_next s;
     s_listeners := s_listeners s; s_now := s_now s |}.

Definition set_subs (c : Cache loc) (s : Session) : Session :=
  {| s_id := s_id s; s_jid := s_jid s; s_replyHandlers := s_replyHandlers s;
     s_subs := c; s_subs_props := s_subs_props s;
     s_subsPresences := s_subsPresences s; s_subObjs := s_subObjs s;
     s_userDatas := s_userDatas s; s_next := s_next s;
     s_listeners := s_listeners s; s_now := s_now s |}.

Definition set_subs_props (p : gmap string loc) (s : Session) : Session :=
  {| s_id := s_id s; s_jid := s_jid s; s_replyHandlers := s_replyHandlers s;
     s_subs := s_subs s; s_subs_props := p;
     s_subsPresences := s_subsPresences s; s_subObjs := s_subObjs s;
     s_userDatas := s_userDatas s; s_next := s_next s;
     s_listeners := s_listeners s; s_now := s_now s |}.

Definition set_subsPresences (p : gmap string Z) (s : Session) : Session :=
  {| s_id := s_id s; s_jid := s_jid s; s_replyHandlers := s_replyHandlers s;
     s_subs := s_subs s; s_subs_props := s_subs_props s;
     s_subsPresences := p; s_subObjs := s_subObjs s;
     s_userDatas := s_userDatas s; s_next := s_next s;
     s_listeners := s_listeners s; s_now := s_now s |}.

Definition set_subObjs (h : gmap loc Sub) (s : Session) : Session :=
  {| s_id := s_id s; s_jid := s_jid s; s_replyHandlers := s_replyHandlers s;
     s_subs := s_subs s; s_subs_props := s_subs_props s;
     s_subsPresences := s_subsPresences s; s_subObjs := h;
     s_userDatas := s_userDatas s; s_next := s_next s;
     s_listeners := s_listeners s; s_now := s_now s |}.

Definition set_userDatas (h : gmap loc UserData) (s : Session) : Session :=
  {| s_id := s_id s; s_jid := s_jid s; s_replyHandlers := s_replyHandlers s;
     s_subs := s_subs s; s_subs_props := s_subs_props s;
     s_subsPresences := s_subsPresences s; s_subObjs := s_subObjs s;
     s_userDatas := h; s_next := s_next s;
     s_listeners := s_listeners s; s_now := s_now s |}.

Definition set_next (n : loc) (s : Session) : Session :=
  {| s_id := s_id s; s_jid := s_jid s; s_replyHandlers := s_replyHandlers s;
     s_subs := s_subs s; s_subs_props := s_subs_props s;
     s_subsPresences := s_subsPresences s; s_subObjs := s_subObjs s;
     s_userDatas := s_userDatas s; s_next := n;
     s_listeners := s_listeners s; s_now := s_now s |}.

Definition set_listeners (l : list Listener) (s : Session) : Session :=
  {| s_id := s_id s; s_jid := s_jid s; s_replyHandlers := s_replyHandlers s;
     s_subs := s_subs s; s_subs_props := s_subs_props s;
     s_subsPresences := s_subsPresences s; s_subObjs := s_subObjs s;
     s_userDatas := s_userDatas s; s_next := s_next s;
     s_listeners := l; s_now := s_now s |}.

Definition set_now (t : nat) (s : Session) : Session :=
  {| s_id := s_id s; s_jid := s_jid s; s_replyHandlers := s_replyHandlers s;
     s_subs := s_subs s; s_subs_props := s_subs_props s;
     s_subsPresences := s_subsPresences s; s_subObjs := s_subObjs s;
     s_userDatas := s_userDatas s; s_next := s_next s;
     s_listeners := s_listeners s; s_now := t |}.

(** Reading a field of the object at an address; an address that holds
    nothing reads as [undefined], and a property access on it throws. *)
Definition read_sub (a : loc) : M Sub := fun s =>
  match s_subObjs s !! a with
  | Some sub => (s, [], Returned sub)
  | None => (s, [], Thrown (TypeError "sub is undefined"))
  end.

Definition read_userData (u : loc) : M UserData := fun s =>
  match s_userDatas s !! u with
  | Some d => (s, [], Returned d)
  | None => (s, [], Thrown (TypeError "userData is undefined"))
  end.

Definition write_sub (a : loc) (sub : Sub) : M unit :=
  modify (fun s => set_subObjs (<[a := sub]> (s_subObjs s)) s).

Definition write_userData (u : loc) (d : UserData) : M unit :=
  modify (fun s => set_userDatas (<[u := d]> (s_userDatas s)) s).

(** A new object gets the next free address. *)
Definition alloc_userData (d : UserData) : M loc := fun s =>
  let u := s_next s in
  (set_next (S u) (set_userDatas (<[u := d]> (s_userDatas s)) s), [], Returned u).

Definition alloc_sub (sub : Sub) : M loc := fun s =>
  let a := s_next s in
  (set_next (S a) (set_subObjs (<[a := sub]> (s_subObjs s)) s), [], Returned a).

(** [Session.prototype.fanoutPublish] *)
Definition fanoutPublish (channel : string) (id prevId : JsVal) (hrItem : HrItem)
  : M unit :=
  let item :=
    {| fo_id := if truthy id then Some id else None;
       fo_prev_id := if truthy prevId then Some prevId else None;
       fo_http_response := hrItem |} in
  tell (HttpPost
          {| fr_path := "/realm/" +:+ js_to_string (fanoutRealm config)
                        +:+ "/publish/" +:+ channel +:+ "/";
             fr_items := [item] |}).

(** [Session.prototype.sendQuery], with the key that
    [this._replyHandlers.generateKey()] returned. *)
Definition sendQuery (iq : Payload) (onreply : Handler) (queryId : string) : M unit :=
  modify (fun s =>
    set_replyHandlers (Cache_put queryId onreply (s_now s) (s_replyHandlers s)) s) ;;
  s ← get_session ;
  tell (Send (OIq iq (s_jid s) (channelDomain config) queryId)).

(** The closure that [subscribe] passes to [sendQuery]; [a] is the
    subscription object it captured in [sub], [subkey] the key.
    [reply.type] is the [type] attribute of the stanza. *)
Definition subscribe_onreply (a : loc) (subkey : string) (reply : Stanza) : M unit :=
  if decide (st_attrs reply !! "type" = Some "result") then
    sub ← read_sub a ;
    write_sub a {| sub_state := subscribed;
                   sub_pending := sub_pending sub;
                   sub_userData := sub_userData sub |} ;;
    for_each (fun p => tell (CallOnSub (onsub p) (sub_userData sub))) (sub_pending sub)
  else
    sub ← read_sub a ;
    let pending := sub_pending sub in
    modify (fun s => set_subs_props (delete subkey (s_subs_props s)) s) ;;
    for_each (fun p => tell (CallOnError (onerror p) "failed")) pending.

(** [handler(stanza)] for a function taken from the reply-handler cache. *)
Definition call_handler (h : Handler) (reply : Stanza) : M unit :=
  tell (CallHandler h reply) ;;
  match h with
  | HUser _ => mret tt
  | HSubscribe a subkey => subscribe_onreply a subkey reply
  end.

(** [Session.prototype.subscribe], with the key that [generateKey] returns
    should the call reach [sendQuery]. *)
Definition subscribe (nodeId : string) (onsub_cb onerror_cb : nat) (queryId : string)
  : M unit :=
  let pubjid := channelDomain config in
  let subkey := pubjid +:+ "_" +:+ nodeId in
  s ← get_session ;
  match s_subs_props s !! subkey with
  | Some a =>
      sub ← read_sub a ;
      match sub_state sub with
      | subscribed => tell (CallOnSub onsub_cb (sub_userData sub))
      | subscribing =>
          let p := {| onsub := onsub_cb; onerror := onerror_cb |} in
          write_sub a {| sub_state := sub_state sub;
                         sub_pending := sub_pending sub ++ [p];
                         sub_userData := sub_userData sub |}
      end
  | None =>
      let p := {| onsub := onsub_cb; onerror := onerror_cb |} in
      u ← alloc_userData {| ud_items := None; ud_from := JUndefined;
                            ud_prevId := JUndefined;
                            ud_lastPublishedId := JUndefined |} ;
      a ← alloc_sub {| sub_state := subscribing; sub_pending := [p];
                       sub_userData := u |} ;
      modify (fun s => set_subs_props (<[subkey := a]> (s_subs_props s)) s) ;;
      s ← get_session ;
      match s_subsPresences s !! pubjid with
      | Some refs =>
          if negb (Z.eqb refs 0) then
            (* ++refs: the local variable only *)
            let refs' := refs + 1 in mret tt
          else
            modify (fun s => set_subsPresences (<[pubjid := 1]> (s_subsPresences s)) s) ;;
            tell (Send (OPresence (s_jid s) pubjid))
      | None =>
          modify (fun s => set_subsPresences (<[pubjid := 1]> (s_subsPresences s)) s) ;;
          tell (Send (OPresence (s_jid s) pubjid))
      end ;;
      sendQuery (PSubscribe nodeId (s_jid s) true) (HSubscribe a subkey) queryId
  end.

(** The item that the stanza listener builds for an entry:
    [item.id.time = Math.floor(getTime() / 1000) * 1000]. *)
Definition make_item (entry : Entry) : Item :=
  {| item_id := {| id_id := entry_id entry;
                   id_time := (entry_updated entry / 1000) * 1000 |};
     item_entry := entry |}.

(** [sub.items.push(item)] on the [userData] object at [u]. *)
Definition push_item (u : loc) (entry : Entry) : M unit :=
  d ← read_userData u ;
  match ud_items d with
  | Some items =>
      write_userData u {| ud_items := Some (items ++ [make_item entry]);
                          ud_from := ud_from d;
                          ud_prevId := ud_prevId d;
                          ud_lastPublishedId := ud_lastPublishedId d |}
  | None => throw (TypeError "sub.items is undefined")
  end.

(** [item.id.id + '_' + item.id.time] *)
Definition fanout_id (item : Item) : string :=
  id_id (item_id item) +:+ "_" +:+ pretty (id_time (item_id item)).

(** The block under [if (config.fanoutRealm)] of the stanza listener. *)
Definition fanout_latest (u : loc) (nodeId : string) (entries : list Entry) : M unit :=
  d ← read_userData u ;
  match ud_items d with
  | None => throw (TypeError "sub.items is undefined")
  | Some items =>
      match last items with
      | None => throw (TypeError "item is undefined")
      | Some item =>
          let foId := fanout_id item in
          let foPrevId :=
            if truthy (ud_lastPublishedId d) then ud_lastPublishedId d else JNull in
          write_userData u {| ud_items := ud_items d;
                              ud_from := ud_from d;
                              ud_prevId := ud_prevId d;
                              ud_lastPublishedId := JStr foId |} ;;
          let at1 := indexOf nodeId "/user/" in
          let channelAndNode := substring_from nodeId (at1 + 6) in
          let at2 := indexOf channelAndNode "/" in
          let channel := substring_between channelAndNode 0 at2 in
          let node := substring_from channelAndNode (at2 + 1) in
          let feed := {| feed_channel := channel; feed_node := node;
                         feed_from := ud_from d; feed_entries := entries |} in
          s ← get_session ;
          let foChannel := makeChannelName (s_jid s +:+ "_" +:+ nodeId) in
          fanoutPublish (foChannel +:+ "-atom") (JStr foId) foPrevId
            {| hr_content_type := "application/atom+xml"; hr_body := AtomXml feed |} ;;
          fanoutPublish (foChannel +:+ "-json") (JStr foId) foPrevId
            {| hr_content_type := "application/json"; hr_body := AtomJson feed |}
      end
  end.

(** The [if (stanza.name == "message")] part of the stanza listener. *)
Definition handle_event (st : Stanza) : M unit :=
  if String.eqb (st_name st) "message" then
    match st_items st with
    | Some items =>
        let entries := items_entries items in
        let nodeId := items_node items in
        let pubjid := channelDomain config in
        let subkey := pubjid +:+ "_" +:+ nodeId in
        s ← get_session ;
        match s_subs_props s !! subkey with
        | Some a =>
            sub ← read_sub a ;
            let u := sub_userData sub in
            d ← read_userData u ;
            match ud_items d with
            | None =>
                write_userData u {| ud_items := Some [];
                                    ud_from := stanza_attr st "from";
                                    ud_prevId := JNull;
                                    ud_lastPublishedId := JNull |}
            | Some _ => mret tt
            end ;;
            for_each (push_item u) entries ;;
            if truthy (fanoutRealm config) then fanout_latest u nodeId entries
            else mret tt
        | None => mret tt
        end
    | None => mret tt
    end
  else mret tt.

(** The [if (stanza.attrs.id)] part of the stanza listener. *)
Definition handle_reply (st : Stanza) : M unit :=
  match st_attrs st !! "id" with
  | Some id =>
      if truthy (JStr id) then
        s ← get_session ;
        match Cache_get id (s_now s) (s_replyHandlers s) with
        | Some handler =>
            modify (fun s => set_replyHandlers (Cache_remove id (s_replyHandlers s)) s) ;;
            call_handler handler st
        | None => mret tt
        end
      else mret tt
  | None => mret tt
  end.

(** The listener installed by [Session.prototype._setupStanzaListener]. *)
Definition stanza_listener (st : Stanza) : M unit :=
  handle_event st ;; handle_reply st.

(** [Session.prototype.onStanza]: the listener is appended to the
    connection's ['stanza'] listeners. *)
Definition onStanza (handler : StanzaHandler) : M unit :=
  modify (fun s => set_listeners (s_listeners s ++ [LOnStanza handler]) s).

(** The [callback] of [onStanza].  The emitter calls it with [this] bound
    to the connection, and it calls [removeListener] with the listener
    where the event name belongs and no listener: the call throws, and no
    listener is removed. *)
Definition onStanza_callback (handler : StanzaHandler) (st : Stanza) : M unit :=
  tell (CallStanzaHandler (sh_id handler) st) ;;
  if sh_done handler st then
    throw (TypeError "this._connection.removeListener(callback)")
  else mret tt.

Definition run_listener (st : Stanza) (l : Listener) : M unit :=
  match l with
  | LMain => stanza_listener st
  | LOnStanza h => onStanza_callback h st
  end.

(** The connection emits ['stanza']: the listeners run in the order of
    their registration; one that throws ends the emit. *)
Definition emit_stanza (st : Stanza) : M unit :=
  s ← get_session ;
  for_each (run_listener st) (s_listeners s).

(** The error that the [onexpired] of the reply-handler cache builds. *)
Definition service_unavailable : Stanza :=
  {| st_name := "iq";
     st_attrs := {[ "type" := "error" ]};
     st_items := None;
     st_error := Some {| error_type := "cancel";
                         error_condition := "service-unavailable" |} |}.

(** Modelled from the spec: the reply-handler cache evicts [k] when it has
    outlived the TTL: [onexpired(key, value)] runs, then the entry goes.
    The [onexpired] of [_setupExpirationHandler] is [handler(error)]. *)
Definition expire_reply (k : string) : M unit :=
  s ← get_session ;
  match Cache_due k (s_now s) (s_replyHandlers s) with
  | Some handler =>
      match cache_onexpired (s_replyHandlers s) with
      | Some OnReplyExpired => call_handler handler service_unavailable
      | _ => mret tt
      end ;;
      modify (fun s => set_replyHandlers (Cache_remove k (s_replyHandlers s)) s)
  | None => mret tt
  end.

(** Modelled from the spec: the same for the [_subs] cache, whose
    [onexpired] is never set (it is commented out in the source). *)
Definition expire_sub (k : string) : M unit :=
  s ← get_session ;
  match Cache_due k (s_now s) (s_subs s) with
  | Some _ => modify (fun s => set_subs (Cache_remove k (s_subs s)) s)
  | None => mret tt
  end.

(** ** The session as a reactive system *)

Inductive Event :=
| EvStanza (st : Stanza)
| EvSendQuery (iq : Payload) (cb : nat) (queryId : string)
| EvSubscribe (nodeId : string) (onsub_cb onerror_cb : nat) (queryId : string)
| EvOnStanza (h : StanzaHandler)
| EvElapse (d : nat)
| EvExpireReply (k : string)
| EvExpireSub (k : string).

Definition step (ev : Event) : M unit :=
  match ev with
  | EvStanza st => emit_stanza st
  | EvSendQuery iq cb queryId => sendQuery iq (HUser cb) queryId
  | EvSubscribe nodeId cb1 cb2 queryId => subscribe nodeId cb1 cb2 queryId
  | EvOnStanza h => onStanza h
  | EvElapse d => modify (fun s => set_now (s_now s + d)%nat s)
  | EvExpireReply k => expire_reply k
  | EvExpireSub k => expire_sub k
  end.

(** An event that throws leaves the session as it was at the throw; the
    next event finds it so. *)
Definition settle (m : M unit) : M unit := fun s =>
  match m s with
  | (s', l, _) => (s', l, Returned tt)
  end.

Definition run (evs : list Event) : M unit :=
  for_each (fun ev => settle (step ev)) evs.

End SessionOps.

(** ** The session provider *)

(** The options given to [new xmpp.Client]. *)
Record ConnOptions := {
  opt_jid : JsVal;
  opt_password : JsVal;
  opt_host : JsVal;
  opt_port : JsVal
}.

(** What the middleware reads and writes on [req]: the [X-Session-Id]
    header, [req.user], [req.password], and [req.session] (the address of
    a session, [None] while unset). *)
Record Request := {
  req_session_id : JsVal;
  req_user : JsVal;
  req_password : JsVal;
  req_session : option loc
}.

Inductive ProviderEffect :=
| NewClient (opts : ConnOptions)      (* new xmpp.Client(options) *)
| SendUnauthorized                    (* api.sendUnauthorized(res) *)
| SetHeader (name value : string)     (* res.header(name, value) *)
| Next (err : JsVal).                 (* next(err); next() is Next JUndefined *)

(** What the client of [createSession] emits first. *)
Inductive Connection :=
| Online (jid : string)
| ConnError (err : JsVal).

(** The module state ([anonymousSession], [sessionCache]), the session
    objects by address, the clock, and the request being served. *)
Record Provider := {
  anonymousSession : option loc;
  sessionCache : Cache loc;
  p_sessions : gmap loc Session;
  p_next : loc;
  p_now : nat;
  p_req : Request
}.

Definition PM (A : Type) : Type := Provider -> Provider * list ProviderEffect * A.

Global Instance PM_ret : MRet PM := fun A a p => (p, [], a).

Global Instance PM_bind : MBind PM := fun A B f m p =>
  match m p with
  | (p1, l1, a) =>
      match f a p1 with
      | (p2, l2, b) => (p2, l1 ++ l2, b)
      end
  end.

Definition pget : PM Provider := fun p => (p, [], p).
Definition pmodify (f : Provider -> Provider) : PM unit := fun p => (f p, [], tt).
Definition ptell (e : ProviderEffect) : PM unit := fun p => (p, [e], tt).

Definition set_req_session (a : option loc) (r : Request) : Request :=
  {| req_session_id := req_session_id r; req_user := req_user r;
     req_password := req_password r; req_session := a |}.

Definition set_p_req (r : Request) (p : Provider) : Provider :=
  {| anonymousSession := anonymousSession p; sessionCache := sessionCache p;
     p_sessions := p_sessions p; p_next := p_next p; p_now := p_now p;
     p_req := r |}.

Definition set_anonymousSession (a : option loc) (p : Provider) : Provider :=
  {| anonymousSession := a; sessionCache := sessionCache p;
     p_sessions := p_sessions p; p_next := p_next p; p_now := p_now p;
     p_req := p_req p |}.

Definition set_sessionCache (c : Cache loc) (p : Provider) : Provider :=
  {| anonymousSession := anonymousSession p; sessionCache := c;
     p_sessions := p_sessions p; p_next := p_next p; p_now := p_now p;
     p_req := p_req p |}.

(** [err == 'XMPP authentication failure']: loose equality with a string
    that is not a numeral.  A string is equal to it when it is the same
    string; an object when its primitive value is (for an [Error] that is
    [name + ": " + message]); [undefined] and [null] never; a number never,
    the text being [NaN] as a number. *)
Definition is_authentication_failure (err : JsVal) : bool :=
  match err with
  | JStr s => String.eqb s "XMPP authentication failure"
  | JObj p => String.eqb p "XMPP authentication failure"
  | JNum _ | JUndefined | JNull => false
  end.

Section ProviderOps.
Variable config : Config.

(** The module state when [session.js] is loaded. *)
Definition Provider_init (now : nat) (req : Request) : Provider :=
  {| anonymousSession := None;
     sessionCache :=
       Cache_set_onexpired OnSessionExpired (Cache_new (sessionExpirationTime config));
     p_sessions := ∅;
     p_next := 0%nat;
     p_now := now;
     p_req := req |}.

(** [session.id] of the session object at [a]. *)
Definition session_id_at (p : Provider) (a : loc) : JsVal :=
  match p_sessions p !! a with
  | Some s => s_id s
  | None => JUndefined
  end.

(** [xmppConnectionOptions] *)
Definition xmppConnectionOptions (req : Request) : ConnOptions :=
  if truthy (req_user req) then
    {| opt_jid := req_user req;
       opt_password := req_password req;
       opt_host := xmppHost config;
       opt_port := xmppPort config |}
  else
    let domain := js_or (xmppAnonymousDomain config) (xmppDomain config) in
    let host := js_or (xmppAnonymousHost config) (xmppHost config) in
    let port := js_or (xmppAnonymousPort config) (xmppPort config) in
    {| opt_jid := JStr ("@" +:+ js_to_string domain);
       opt_password := JUndefined;
       opt_host := host;
       opt_port := port |}.

(** [provideSession] *)
Definition provideSession (session : loc) (next : JsVal -> PM unit) : PM unit :=
  pmodify (fun p => set_p_req (set_req_session (Some session) (p_req p)) p) ;;
  p ← pget ;
  let id := session_id_at p session in
  (if truthy id then
     pmodify (fun p =>
       set_sessionCache (Cache_put (js_to_string id) session (p_now p) (sessionCache p)) p) ;;
     ptell (SetHeader "X-Session-Id" (js_to_string id))
   else mret tt) ;;
  next JUndefined.

(** [createSession].  [conn] is what the new client emits, ['online'] or
    ['error']; [key] is what [sessionCache.generateKey()] returns. *)
Definition createSession (conn : Connection) (key : string) (next : JsVal -> PM unit)
  : PM unit :=
  p ← pget ;
  let options := xmppConnectionOptions (p_req p) in
  ptell (NewClient options) ;;
  match conn with
  | Online jid =>
      let sessionId := if truthy (req_user (p_req p)) then JStr key else JNull in
      let a := p_next p in
      pmodify (fun p =>
        {| anonymousSession := anonymousSession p; sessionCache := sessionCache p;
           p_sessions := <[a := Session_new config sessionId jid (p_now p)]> (p_sessions p);
           p_next := S a; p_now := p_now p; p_req := p_req p |}) ;;
      provideSession a next
  | ConnError err =>
      if is_authentication_failure err then ptell SendUnauthorized
      else next err
  end.

(** [useAnonymousSession] *)
Definition useAnonymousSession (conn : Connection) (key : string)
  (next : JsVal -> PM unit) : PM unit :=
  p ← pget ;
  match anonymousSession p with
  | Some a => provideSession a next
  | None =>
      createSession conn key (fun err =>
        (if negb (truthy err) then
           pmodify (fun p => set_anonymousSession (req_session (p_req p)) p)
         else mret tt) ;;
        next err)
  end.

(** [processSessionId] *)
Definition processSessionId (sessionId : JsVal) (conn : Connection) (key : string)
  (next : JsVal -> PM unit) : PM unit :=
  p ← pget ;
  match Cache_get (js_to_string sessionId) (p_now p) (sessionCache p) with
  | Some session => provideSession session next
  | None =>
      if truthy (req_user (p_req p)) then createSession conn key next
      else ptell SendUnauthorized
  end.

(** [exports.provider] *)
Definition provider (conn : Connection) (key : string) (next : JsVal -> PM unit)
  : PM unit :=
  p ← pget ;
  let sessionId := req_session_id (p_req p) in
  if truthy sessionId then processSessionId sessionId conn key next
  else if truthy (req_user (p_req p)) then createSession conn key next
  else useAnonymousSession conn key next.

(** The middleware serving one request: [next] is the rest of the chain. *)
Definition serve (req : Request) (conn : Connection) (key : string) (p : Provider)
  : Provider * list ProviderEffect * unit :=
  provider conn key (fun err => ptell (Next err)) (set_p_req req p).

End ProviderOps.

(** ** Requests in sequence *)

Definition set_p_now (t : nat) (p : Provider) : Provider :=
  {| anonymousSession := anonymousSession p; sessionCache := sessionCache p;
     p_sessions := p_sessions p; p_next := p_next p; p_now := t;
     p_req := p_req p |}.

(** A request as it reaches the middleware: the time since the request
    before, the request, what the client emits should [createSession] make
    one, and the key that [generateKey] would return. *)
Record Arrival := {
  arr_elapsed : nat;
  arr_req : Request;
  arr_conn : Connection;
  arr_key : string
}.

(** The middleware serves the requests one after the other; the effects of
    all of them, in order. *)
Fixpoint serve_all (config : Config) (rs : list Arrival) (p : Provider)
  : Provider * list ProviderEffect :=
  match rs with
  | [] => (p, [])
  | r :: rest =>
      match serve config (arr_req r) (arr_conn r) (arr_key r)
              (set_p_now (p_now p + arr_elapsed r) p) with
      | (p1, l1, _) =>
          match serve_all config rest p1 with
          | (p2, l2) => (p2, l1 ++ l2)
          end
      end
  end.

(** What holds of the module state whatever requests were served: the
    addresses from [p_next] on are free; the id of a session is [null] or
    a string; the anonymous session has the id [null]; a session in the
    cache is stored under its own id. *)
Record provider_ok (p : Provider) : Prop := {
  pok_fresh : forall a, (p_next p <= a)%nat -> p_sessions p !! a = None;
  pok_ids : forall a s, p_sessions p !! a = Some s ->
            s_id s = JNull \/ exists k, s_id s = JStr k;
  pok_anonymous : forall a, anonymousSession p = Some a ->
                  s_id <$> p_sessions p !! a = Some JNull;
  pok_cache : forall k a t, cache_data (sessionCache p) !! k = Some (a, t) ->
              k <> "" /\ s_id <$> p_sessions p !! a = Some (JStr k)
}.

(** ** Vocabulary of the statements *)

(** The key of a topic in [_subs]: [config.channelDomain + "_" + nodeId]. *)
Definition subkey_of (config : Config) (nodeId : string) : string :=
  channelDomain config +:+ "_" +:+ nodeId.

(** The state of the subscription object at [a], if there is one. *)
Definition state_at (s : Session) (a : loc) : option SubState :=
  sub_state <$> s_subObjs s !! a.

(** The entry of a topic: the subscription object that [_subs[subkey]]
    refers to. *)
Definition entry_of (config : Config) (s : Session) (nodeId : string) : option Sub :=
  a ← s_subs_props s !! subkey_of config nodeId ; s_subObjs s !! a.

Definition is_call (h : Handler) (e : Effect) : bool :=
  match e with
  | CallHandler h' _ => bool_decide (h' = h)
  | _ => false
  end.

(** How often the reply handler [h] is called in a list of effects. *)
Definition calls (h : Handler) (l : list Effect) : nat :=
  length (filter (fun e => is_call h e = true) l).

(** No entry of the reply-handler cache holds [h]. *)
Definition not_held (h : Handler) (s : Session) : Prop :=
  forall k t, cache_data (s_replyHandlers s) !! k <> Some (h, t).

(** Only the entry under [q], if any, holds [h]. *)
Definition held_only_at (h : Handler) (q : string) (s : Session) : Prop :=
  forall k t, cache_data (s_replyHandlers s) !! k = Some (h, t) -> k = q.

(** The stanzas written to the connection, in order. *)
Definition sends (l : list Effect) : list OutStanza :=
  omap (fun e => match e with Send st => Some st | _ => None end) l.

(** The fan-out items posted, in order. *)
Definition posts (l : list Effect) : list FanoutItem :=
  mjoin (omap (fun e => match e with HttpPost r => Some (fr_items r) | _ => None end) l).

(** What holds of every session that starts from [new Session] and then
    reacts to events. *)
Record session_ok (config : Config) (s : Session) : Prop := {
  ok_listeners : exists ls, s_listeners s = LMain :: ls /\
                            Forall (fun l => l <> LMain) ls;
  ok_onexpired : cache_onexpired (s_replyHandlers s) = Some OnReplyExpired;
  ok_subs_cache : cache_data (s_subs s) = ∅ /\ cache_onexpired (s_subs s) = None;
  ok_props : forall K a, s_subs_props s !! K = Some a ->
             exists sub, s_subObjs s !! a = Some sub /\
                         is_Some (s_userDatas s !! sub_userData sub);
  ok_handlers : forall k a K t,
      cache_data (s_replyHandlers s) !! k = Some (HSubscribe a K, t) ->
      s_subs_props s !! K = Some a /\ state_at s a = Some subscribing;
  ok_unique : forall k1 k2 a K1 K2 t1 t2,
      cache_data (s_replyHandlers s) !! k1 = Some (HSubscribe a K1, t1) ->
      cache_data (s_replyHandlers s) !! k2 = Some (HSubscribe a K2, t2) ->
      k1 = k2;
  ok_alloc : forall a, (s_next s <= a)%nat -> s_subObjs s !! a = None;
  ok_inj : forall K1 K2 a,
      s_subs_props s !! K1 = Some a -> s_subs_props s !! K2 = Some a -> K1 = K2;
  ok_userData : forall a1 a2 sub1 sub2,
      s_subObjs s !! a1 = Some sub1 -> s_subObjs s !! a2 = Some sub2 ->
      sub_userData sub1 = sub_userData sub2 -> a1 = a2;
  ok_userData_lt : forall a sub,
      s_subObjs s !! a = Some sub -> (sub_userData sub < s_next s)%nat
}.

(** The entries that are [subscribed] in [s] are so in [s'], with the same
    subscription object, unchanged. *)
Definition persist (s s' : Session) : Prop :=
  forall K a, s_subs_props s !! K = Some a -> state_at s a = Some subscribed ->
              s_subs_props s' !! K = Some a /\ s_subObjs s' !! a = s_subObjs s !! a.

(** A property of the session and of the effects so far that a
    computation maintains. *)
Definition keeps (Φ : Session -> list Effect -> Prop) {A} (m : M A) : Prop :=
  forall s l0, Φ s l0 -> Φ (final_state (m s)) (l0 ++ effects_of (m s)).

Definition is_post (e : Effect) : bool :=
  match e with
  | HttpPost _ => true
  | _ => false
  end.

(** The computation changes nothing but the [userData] objects, removes
    none of them, and its only effects are fan-out posts. *)
Definition only_userDatas {A} (m : M A) : Prop :=
  forall s,
    final_state (m s) = set_userDatas (s_userDatas (final_state (m s))) s /\
    (forall u, is_Some (s_userDatas s !! u) ->
               is_Some (s_userDatas (final_state (m s)) !! u)) /\
    Forall (fun e => is_post e = true) (effects_of (m s)).

(** What [sendQuery] maintains for a handler [h] stored under [q]: [h] is
    held under [q] only and was not called, or it was called once and is
    held no more; and it was called with the timeout error or with a
    stanza that carries the id [q]. *)
Definition once_inv (h : Handler) (q : string) (seen : Stanza -> Prop)
  (s : Session) (l : list Effect) : Prop :=
  ((calls h l = 0%nat /\ held_only_at h q s) \/ (calls h l = 1%nat /\ not_held h s)) /\
  (forall arg, CallHandler h arg ∈ l ->
     arg = service_unavailable \/ (st_attrs arg !! "id" = Some q /\ seen arg)).

(** Every entry of [s'] that holds [h] is an entry of [s]. *)
Definition no_new_holder (h : Handler) (s s' : Session) : Prop :=
  forall k t, cache_data (s_replyHandlers s') !! k = Some (h, t) ->
              cache_data (s_replyHandlers s) !! k = Some (h, t).


(** [refs] is truthy: a presence count is recorded for the domain. *)
Definition has_presence (config : Config) (s : Session) : bool :=
  match s_subsPresences s !! channelDomain config with
  | Some refs => negb (Z.eqb refs 0)
  | None => false
  end.

Definition is_stanza_handler_call (e : Effect) : bool :=
  match e with
  | CallStanzaHandler _ _ => true
  | _ => false
  end.

(** The session after [subscribe] has created the entry of a topic: the
    two new objects, the entry, the presence count and the reply handler. *)
Definition with_new_entry (config : Config) (nodeId : string) (c1 c2 : nat)
  (s : Session) : Session :=
  let u := s_next s in
  let a := S u in
  set_subs_props (<[subkey_of config nodeId := a]> (s_subs_props s))
    (set_next (S a)
       (set_subObjs
          (<[a := {| sub_state := subscribing;
                     sub_pending := [{| onsub := c1; onerror := c2 |}];
                     sub_userData := u |}]> (s_subObjs s))
          (set_next (S u)
             (set_userDatas
                (<[u := {| ud_items := None; ud_from := JUndefined;
                           ud_prevId := JUndefined;
                           ud_lastPublishedId := JUndefined |}]> (s_userDatas s))
                s)))).

Definition with_presence (config : Config) (s : Session) : Session :=
  if has_presence config s then s
  else set_subsPresences (<[channelDomain config := 1]> (s_subsPresences s)) s.


(** The [userData] object once the stanza listener has seen to its
    fields: [if (sub.items === undefined) { ... }]. *)
Definition initialised (st : Stanza) (d : UserData) : UserData :=
  match ud_items d with
  | None => {| ud_items := Some []; ud_from := stanza_attr st "from";
               ud_prevId := JNull; ud_lastPublishedId := JNull |}
  | Some _ => d
  end.

Definition items_of (d : UserData) : list Item := default [] (ud_items d).

Definition with_items (d : UserData) (its : list Item) : UserData :=
  {| ud_items := Some its; ud_from := ud_from d; ud_prevId := ud_prevId d;
     ud_lastPublishedId := ud_lastPublishedId d |}.

Definition with_lastPublishedId (d : UserData) (v : JsVal) : UserData :=
  {| ud_items := ud_items d; ud_from := ud_from d; ud_prevId := ud_prevId d;
     ud_lastPublishedId := v |}.

(** The stanza carries no id under which a reply handler waits. *)
Definition no_pending_reply (s : Session) (st : Stanza) : Prop :=
  match st_attrs st !! "id" with
  | Some id => Cache_get id (s_now s) (s_replyHandlers s) = None
  | None => True
  end.

(** A publish event for the topic [nodeId] with the entries [es]. *)
Definition is_publish_event (st : Stanza) (nodeId : string) (es : list Entry) : Prop :=
  st_name st = "message" /\
  st_items st = Some {| items_node := nodeId; items_entries := es |}.

(** [foPrevId] as it goes into the item: absent when falsy. *)
Definition prev_id_of (v : JsVal) : option JsVal :=
  if truthy v then Some v else None.

(** The feed of a fan-out emission. *)
Definition feed_of (nodeId : string) (from : JsVal) (es : list Entry) : Feed :=
  let channelAndNode := substring_from nodeId (indexOf nodeId "/user/" + 6) in
  let at2 := indexOf channelAndNode "/" in
  {| feed_channel := substring_between channelAndNode 0 at2;
     feed_node := substring_from channelAndNode (at2 + 1);
     feed_from := from; feed_entries := es |}.

(** The two items of one fan-out emission. *)
Definition emission (id : string) (prev : JsVal) (f : Feed) : list FanoutItem :=
  [ {| fo_id := Some (JStr id); fo_prev_id := prev_id_of prev;
       fo_http_response := {| hr_content_type := "application/atom+xml";
                              hr_body := AtomXml f |} |};
    {| fo_id := Some (JStr id); fo_prev_id := prev_id_of prev;
       fo_http_response := {| hr_content_type := "application/json";
                              hr_body := AtomJson f |} |} ].


(** The calls of [onsub] and [onerror]. *)
Definition is_callback (e : Effect) : bool :=
  match e with
  | CallOnSub _ _ | CallOnError _ _ => true
  | _ => false
  end.


(** The subscription object once the reply handler has marked it. *)
Definition as_subscribed (sub : Sub) : Sub :=
  {| sub_state := subscribed; sub_pending := sub_pending sub;
     sub_userData := sub_userData sub |}.

(** The session after the reply to a subscribe query has been handled: the
    reply handler is gone; on success the object at [a] is marked, on
    failure the entry [K] is deleted. *)
Definition after_subscribe_reply (reply : Stanza) (q : string) (a : loc) (K : string)
  (sub : Sub) (s : Session) : Session :=
  let s1 := set_replyHandlers (Cache_remove q (s_replyHandlers s)) s in
  if decide (st_attrs reply !! "type" = Some "result")
  then set_subObjs (<[a := as_subscribed sub]> (s_subObjs s1)) s1
  else set_subs_props (delete K (s_subs_props s1)) s1.


(** The computation keeps a session in order and its subscribed entries
    subscribed. *)
Definition ok_step (config : Config) {A} (m : M A) : Prop :=
  forall s, session_ok config s ->
            session_ok config (final_state (m s)) /\ persist s (final_state (m s)).


(** The session is in order and the entry of the topic [nodeId] is the
    subscription object [sub] at [a], whose [userData] object holds [d]. *)
Definition entry_intact (config : Config) (nodeId : string) (a : loc) (sub : Sub)
  (d : UserData) (s : Session) : Prop :=
  session_ok config s /\
  s_subs_props s !! subkey_of config nodeId = Some a /\
  s_subObjs s !! a = Some sub /\
  s_userDatas s !! sub_userData sub = Some d.

(** The event is not a publish event for the topic [nodeId]. *)
Definition quiet (nodeId : string) (ev : Event) : Prop :=
  match ev with
  | EvStanza st =>
      st_name st = "message" ->
      forall items, st_items st = Some items -> items_node items <> nodeId
  | _ => True
  end.


(** The event neither brings a stanza with the id [q], nor gives [q] to a
    new query, nor is the expiry of [q]. *)
Definition untouched (q : string) (ev : Event) : Prop :=
  match ev with
  | EvStanza st => st_attrs st !! "id" <> Some q
  | EvSendQuery _ _ q' => q' <> q
  | EvSubscribe _ _ _ q' => q' <> q
  | EvExpireReply k => k <> q
  | _ => True
  end.

(** The time that passes in a sequence of events. *)
Fixpoint elapsed (evs : list Event) : nat :=
  match evs with
  | [] => 0
  | EvElapse d :: r => d + elapsed r
  | _ :: r => elapsed r
  end.

(** The handler [h] waits under [q] since [t0] in a cache with the
    time-to-live [ttl], the clock shows [n], and the stanza listener of the
    session is the first listener. *)
Definition awaiting (h : Handler) (q : string) (t0 ttl n : nat) (s : Session) : Prop :=
  cache_data (s_replyHandlers s) !! q = Some (h, t0) /\
  cache_ttl (s_replyHandlers s) = ttl /\
  s_now s = n /\
  exists ls, s_listeners s = LMain :: ls.


(** The presence stanzas among the effects, in order. *)
Definition presences (l : list Effect) : list OutStanza :=
  omap (fun e => match e with
                 | Send (OPresence from to) => Some (OPresence from to)
                 | _ => None
                 end) l.

(** A call [subscribe(nodeId, onsub, onerror)], with the id that its query
    gets. *)
Record SubscribeCall := {
  call_node : string;
  call_onsub : nat;
  call_onerror : nat;
  call_queryId : string
}.

Definition subscribe_calls (cs : list SubscribeCall) : list Event :=
  map (fun c => EvSubscribe (call_node c) (call_onsub c) (call_onerror c)
                  (call_queryId c)) cs.


(** The computation leaves the part [proj] of the session as it is, and
    each of its effects passes [ok]. *)
Definition frames {B} (proj : Session -> B) (ok : Effect -> bool) {A} (m : M A) : Prop :=
  forall s, proj (final_state (m s)) = proj s /\
            Forall (fun e => ok e = true) (effects_of (m s)).

Definition is_presence (e : Effect) : bool :=
  match e with
  | Send (OPresence _ _) => true
  | _ => false
  end.

(** Whether every character of the string is an ASCII character, one
    UTF-16 code unit in JavaScript. *)
Fixpoint ascii_only (s : string) : bool :=
  match s with
  | EmptyString => true
  | String (Ascii _ _ _ _ _ _ _ b7) r => negb b7 && ascii_only r
  end.

(** Whether the string holds a slash. *)
Fixpoint has_slash (s : string) : bool :=
  match s with
  | EmptyString => false
  | String c r => Ascii.eqb c "/"%char || has_slash r
  end.

(** The paths of the fan-out posts, in order. *)
Definition post_paths (l : list Effect) : list string :=
  omap (fun e => match e with HttpPost r => Some (fr_path r) | _ => None end) l.

(** The observers that a stanza reaches when the listeners of [onStanza]
    run in turn: the emit ends with the first that throws. *)
Fixpoint notified (st : Stanza) (hs : list StanzaHandler) : list StanzaHandler :=
  match hs with
  | [] => []
  | h :: r => h :: (if sh_done h st then [] else notified st r)
  end.


(** ** Sample data *)

Definition sample_config : Config :=
  {| channelDomain := "channels.example.org";
     fanoutRealm := JStr "realm1";
     requestExpirationTime := 60;
     sessionExpirationTime := 600;
     xmppHost := JStr "localhost";
     xmppPort := JNum 5222;
     xmppDomain := JStr "example.org";
     xmppAnonymousDomain := JUndefined;
     xmppAnonymousHost := JUndefined;
     xmppAnonymousPort := JUndefined |}.

Definition sample_session : Session :=
  Session_new sample_config (JStr "sid1") "alice@example.org/http" 0.

Definition sample_node : string := "/user/bob@example.org/posts".

Definition iq_reply (id type : string) : Stanza :=
  {| st_name := "iq";
     st_attrs := {[ "id" := id; "type" := type ]};
     st_items := None;
     st_error := None |}.

Definition sample_entry (id : string) (t : Z) : Entry :=
  {| entry_id := id; entry_updated := t; entry_content := "text" |}.

Definition publish_event (node : string) (entries : list Entry) : Stanza :=
  {| st_name := "message";
     st_attrs := {[ "from" := "channels.example.org" ]};
     st_items := Some {| items_node := node; items_entries := entries |};
     st_error := None |}.

Definition sample_request : Request :=
  {| req_session_id := JUndefined; req_user := JUndefined;
     req_password := JUndefined; req_session := None |}.

Definition sample_reply_ok : Stanza := iq_reply "q1" "result".

Definition sample_reply_error : Stanza := iq_reply "q1" "error".

(** The sample session after [subscribe(sample_node, 1, 2)], whose query
    got the id [q1]. *)
Definition sample_subscribing : Session :=
  final_state (run sample_config [EvSubscribe sample_node 1 2 "q1"] sample_session).

(** The same after the reply of type result. *)
Definition sample_subscribed : Session :=
  final_state (run sample_config [EvStanza sample_reply_ok] sample_subscribing).

Definition sample_pending_sub : Sub :=
  {| sub_state := subscribing;
     sub_pending := [{| onsub := 1; onerror := 2 |}];
     sub_userData := 0%nat |}.

Definition sample_userData : UserData :=
  {| ud_items := None; ud_from := JUndefined; ud_prevId := JUndefined;
     ud_lastPublishedId := JUndefined |}.

Definition sample_event1 : Stanza :=
  publish_event sample_node [sample_entry "e1" 1350345600123].

Definition sample_event2 : Stanza :=
  publish_event sample_node [sample_entry "e2" 1350345700999].

Definition sample_stanza_handler : StanzaHandler :=
  {| sh_id := 9%nat; sh_done := fun _ => true |}.


(** A request without session id and without credentials, on which no
    session has been set yet. *)
Definition anonymous_request (req : Request) : Prop :=
  truthy (req_session_id req) = false /\ truthy (req_user req) = false /\
  req_session req = None.


Definition sample_provider : Provider :=
  Provider_init sample_config 0 sample_request.

(** The sample configuration without a fan-out realm. *)
Definition sample_config_no_fanout : Config :=
  {| channelDomain := "channels.example.org";
     fanoutRealm := JUndefined;
     requestExpirationTime := 60;
     sessionExpirationTime := 600;
     xmppHost := JStr "localhost";
     xmppPort := JNum 5222;
     xmppDomain := JStr "example.org";
     xmppAnonymousDomain := JUndefined;
     xmppAnonymousHost := JUndefined;
     xmppAnonymousPort := JUndefined |}.

(** A request with credentials and without session id. *)
Definition credential_request : Request :=
  {| req_session_id := JUndefined; req_user := JStr "alice@example.org";
     req_password := JStr "secret"; req_session := None |}.

(** A request that only sends a session id. *)
Definition session_id_request (k : string) : Request :=
  {| req_session_id := JStr k; req_user := JUndefined;
     req_password := JUndefined; req_session := None |}.

(** The module after a request with credentials whose client came online
    and whose session got the key [k1]. *)
Definition sample_provider_with_session : Provider :=
  (serve sample_config credential_request (Online "alice@example.org/http") "k1"
     sample_provider).1.1.

(** A publish event for the sample topic that brings no entry. *)
Definition sample_event_empty : Stanza := publish_event sample_node [].

(** An observer that never asks to be removed. *)
Definition sample_observer (id : nat) : StanzaHandler :=
  {| sh_id := id; sh_done := fun _ => false |}.

(** A message that carries the id of a query and a publish event without
    entries for the sample topic. *)
Definition sample_message_with_id (id : string) : Stanza :=
  {| st_name := "message";
     st_attrs := {[ "id" := id ]};
     st_items := Some {| items_node := sample_node; items_entries := [] |};
     st_error := None |}.

(** * Properties *)

(** ** The session provider *)

Ltac pm_unfold :=
  unfold mbind, mret, PM_bind, PM_ret, pget, pmodify, ptell; cbn.

Section ProviderFacts.
Variable config : Config.

Lemma is_authentication_failure_string s :
  is_authentication_failure (JStr s) = true <-> s = "XMPP authentication failure".
Proof. cbn. apply String.eqb_eq. Qed.

Lemma createSession_error err key next p :
  createSession config (ConnError err) key next p =
  if is_authentication_failure err
  then (p, [NewClient (xmppConnectionOptions config (p_req p)); SendUnauthorized], tt)
  else (ptell (NewClient (xmppConnectionOptions config (p_req p))) ;; next err) p.
Proof.
  unfold createSession. pm_unfold. destruct (is_authentication_failure err); cbn.
  - reflexivity.
  - destruct (next err p) as [[p' l] []]. reflexivity.
Qed.

(** C7.  In [createSession], a connection error that is equal ([==]) to
    the text ['XMPP authentication failure'], which a string is when it is
    this text and an object when its primitive value is, gives
    [api.sendUnauthorized(res)] and nothing else.  Every other error value
    goes to [next], unchanged, and no unauthorized response is sent: every
    other string, [undefined], [null], every number, and every object with
    another primitive value, such as an [Error], whose primitive value
    starts with its name.  Nothing of the module state changes in either
    case. *)
Theorem createSession_error_outcome err key p :
  let r := createSession config (ConnError err) key (fun e => ptell (Next e)) p in
  let opts := xmppConnectionOptions config (p_req p) in
  let text := "XMPP authentication failure" in
  (err = JStr text \/ err = JObj text ->
   r = (p, [NewClient opts; SendUnauthorized], tt)) /\
  (err <> JStr text -> err <> JObj text ->
   r = (p, [NewClient opts; Next err], tt)) /\
  (forall msg,
     createSession config (ConnError (JObj ("Error: " +:+ msg))) key
       (fun e => ptell (Next e)) p =
     (p, [NewClient opts; Next (JObj ("Error: " +:+ msg))], tt)).
Proof.
  cbn zeta. rewrite !createSession_error. split; [|split].
  - intros [-> | ->]; reflexivity.
  - intros H1 H2.
    assert (is_authentication_failure err = false) as ->; [|reflexivity].
    destruct err as [| |z|s|s]; try reflexivity; cbn; apply String.eqb_neq; congruence.
  - intros msg. rewrite createSession_error. reflexivity.
Qed.


Lemma serve_anonymous_error req err key p :
  anonymous_request req ->
  anonymousSession p = None ->
  let r := serve config req (ConnError err) key p in
  anonymousSession r.1.1 = None /\ p_sessions r.1.1 = p_sessions p /\
  sessionCache r.1.1 = sessionCache p /\
  r.1.2 = [NewClient (xmppConnectionOptions config req);
           if is_authentication_failure err then SendUnauthorized else Next err].
Proof.
  intros (H1 & H2 & H3) Ha.
  unfold serve, provider, useAnonymousSession. pm_unfold.
  rewrite H1, H2. cbn. rewrite Ha. cbn.
  rewrite createSession_error.
  destruct (is_authentication_failure err); cbn.
  - auto.
  - pm_unfold. destruct (truthy err); cbn; rewrite ?H3; auto.
Qed.

Lemma serve_anonymous_online req jid key p :
  anonymous_request req ->
  anonymousSession p = None ->
  let r := serve config req (Online jid) key p in
  anonymousSession r.1.1 = Some (p_next p) /\
  p_sessions r.1.1 !! p_next p = Some (Session_new config JNull jid (p_now p)) /\
  sessionCache r.1.1 = sessionCache p /\
  req_session (p_req r.1.1) = Some (p_next p) /\
  r.1.2 = [NewClient (xmppConnectionOptions config req); Next JUndefined].
Proof.
  intros (H1 & H2 & H3) Ha.
  unfold serve, provider, useAnonymousSession, createSession, provideSession. pm_unfold.
  rewrite H1, H2. cbn. rewrite Ha. cbn. rewrite H2. cbn.
  unfold session_id_at. cbn. rewrite lookup_insert_eq. cbn.
  rewrite lookup_insert_eq. auto.
Qed.


End ProviderFacts.


Ltac m_unfold :=
  unfold mbind, mret, M_bind, M_ret; cbn.

Section SessionFacts.
Variable config : Config.

Lemma sendQuery_eq iq h q s :
  let s1 := set_replyHandlers (Cache_put q h (s_now s) (s_replyHandlers s)) s in
  sendQuery config iq h q s =
    (s1, [(Send (OIq iq (s_jid s) (channelDomain config) q), s1)], Returned tt).
Proof. reflexivity. Qed.

(** With a key that [generateKey] can return, [sendQuery] displaces no
    waiting handler. *)
Lemma sendQuery_fresh_key iq h q s k v :
  Cache_generateKey (s_replyHandlers s) q ->
  cache_data (s_replyHandlers s) !! k = Some v ->
  cache_data (s_replyHandlers (final_state (sendQuery config iq h q s))) !! k = Some v.
Proof.
  unfold Cache_generateKey. intros Hq Hk. rewrite sendQuery_eq. cbn.
  rewrite lookup_insert_ne; [exact Hk | congruence].
Qed.

Lemma for_each_tell {A} (g : A -> Effect) (xs : list A) (s : Session) :
  for_each (fun x => tell (g x)) xs s = (s, map (fun x => (g x, s)) xs, Returned tt).
Proof.
  induction xs as [|x r IH]; [reflexivity|].
  cbn. m_unfold. rewrite IH. reflexivity.
Qed.

Lemma subscribe_onreply_result a K reply s sub :
  st_attrs reply !! "type" = Some "result" ->
  s_subObjs s !! a = Some sub ->
  let s' := set_subObjs (<[a := {| sub_state := subscribed; sub_pending := sub_pending sub; sub_userData := sub_userData sub |}]> (s_subObjs s)) s in
  subscribe_onreply a K reply s =
    (s', map (fun p => (CallOnSub (onsub p) (sub_userData sub), s')) (sub_pending sub), Returned tt).
Proof.
  intros Hr Ha. unfold subscribe_onreply. rewrite decide_True by assumption.
  unfold read_sub, write_sub. m_unfold. rewrite Ha. cbn.
  rewrite for_each_tell. reflexivity.
Qed.

Lemma subscribe_onreply_failure a K reply s sub :
  st_attrs reply !! "type" <> Some "result" ->
  s_subObjs s !! a = Some sub ->
  let s' := set_subs_props (delete K (s_subs_props s)) s in
  subscribe_onreply a K reply s =
    (s', map (fun p => (CallOnError (onerror p) "failed", s')) (sub_pending sub), Returned tt).
Proof.
  intros Hr Ha. unfold subscribe_onreply. rewrite decide_False by assumption.
  unfold read_sub. m_unfold. rewrite Ha. cbn.
  rewrite for_each_tell. reflexivity.
Qed.


Lemma final_state_bind {A B} (m : M A) (f : A -> M B) s :
  final_state ((m ≫= f) s) =
  match outcome_of (m s) with
  | Returned a => final_state (f a (final_state (m s)))
  | Thrown _ => final_state (m s)
  end.
Proof.
  unfold mbind, M_bind. destruct (m s) as [[s1 l1] [a|e]]; cbn; [|reflexivity].
  destruct (f a s1) as [[s2 l2] o]. reflexivity.
Qed.

Lemma effects_of_bind {A B} (m : M A) (f : A -> M B) s :
  effects_of ((m ≫= f) s) =
  effects_of (m s) ++
  match outcome_of (m s) with
  | Returned a => effects_of (f a (final_state (m s)))
  | Thrown _ => []
  end.
Proof.
  unfold mbind, M_bind, effects_of.
  destruct (m s) as [[s1 l1] [a|e]]; cbn; [|by rewrite app_nil_r].
  destruct (f a s1) as [[s2 l2] o]. cbn. by rewrite fmap_app.
Qed.

Lemma keeps_bind Φ {A B} (m : M A) (f : A -> M B) :
  keeps Φ m -> (forall a, keeps Φ (f a)) -> keeps Φ (m ≫= f).
Proof.
  intros Hm Hf s l0 H. rewrite final_state_bind, effects_of_bind.
  specialize (Hm s l0 H). destruct (outcome_of (m s)) as [a|e].
  - rewrite app_assoc. by apply Hf.
  - by rewrite app_nil_r.
Qed.

Lemma keeps_ret Φ {A} (a : A) : keeps Φ (mret a).
Proof. intros s l0 H. cbn. by rewrite app_nil_r. Qed.

Lemma keeps_for_each Φ {A} (f : A -> M unit) xs :
  (forall x, keeps Φ (f x)) -> keeps Φ (for_each f xs).
Proof.
  intros Hf. induction xs as [|x r IH]; cbn [for_each].
  - apply keeps_ret.
  - apply keeps_bind; [apply Hf | intros _; apply IH].
Qed.

Lemma keeps_settle Φ (m : M unit) : keeps Φ m -> keeps Φ (settle m).
Proof.
  intros Hm s l0 H. specialize (Hm s l0 H). unfold settle.
  destruct (m s) as [[s1 l1] o]. exact Hm.
Qed.


Lemma set_userDatas_same s : s = set_userDatas (s_userDatas s) s.
Proof. by destruct s. Qed.

Lemma only_userDatas_ret {A} (a : A) : only_userDatas (mret a).
Proof.
  intros s. cbn. split; [apply set_userDatas_same | split; [auto | constructor]].
Qed.

Lemma only_userDatas_throw {A} e : only_userDatas (@throw A e).
Proof.
  intros s. cbn. split; [apply set_userDatas_same | split; [auto | constructor]].
Qed.

Lemma only_userDatas_get : only_userDatas get_session.
Proof.
  intros s. cbn. split; [apply set_userDatas_same | split; [auto | constructor]].
Qed.

Lemma only_userDatas_read_sub a : only_userDatas (read_sub a).
Proof.
  intros s. unfold read_sub. destruct (s_subObjs s !! a); cbn;
    (split; [apply set_userDatas_same | split; [auto | constructor]]).
Qed.

Lemma only_userDatas_read_userData u : only_userDatas (read_userData u).
Proof.
  intros s. unfold read_userData. destruct (s_userDatas s !! u); cbn;
    (split; [apply set_userDatas_same | split; [auto | constructor]]).
Qed.

Lemma only_userDatas_write u d : only_userDatas (write_userData u d).
Proof.
  intros s. cbn. split; [reflexivity | split; [| constructor]].
  intros u' Hu'. destruct (decide (u = u')) as [->|Hne].
  - rewrite lookup_insert_eq. eauto.
  - by rewrite lookup_insert_ne.
Qed.

Lemma only_userDatas_post r : only_userDatas (tell (HttpPost r)).
Proof.
  intros s. cbn. split; [apply set_userDatas_same | split; [auto |]].
  repeat constructor.
Qed.

Lemma only_userDatas_bind {A B} (m : M A) (f : A -> M B) :
  only_userDatas m -> (forall a, only_userDatas (f a)) -> only_userDatas (m ≫= f).
Proof.
  intros Hm Hf s. rewrite final_state_bind, effects_of_bind.
  destruct (Hm s) as (E1 & D1 & F1). destruct (outcome_of (m s)) as [a|e].
  - destruct (Hf a (final_state (m s))) as (E2 & D2 & F2).
    split; [|split].
    + rewrite E2. rewrite E1 at 2. reflexivity.
    + auto.
    + apply Forall_app. auto.
  - rewrite app_nil_r. auto.
Qed.

Lemma only_userDatas_for_each {A} (f : A -> M unit) xs :
  (forall x, only_userDatas (f x)) -> only_userDatas (for_each f xs).
Proof.
  intros Hf. induction xs as [|x r IH]; cbn [for_each].
  - apply only_userDatas_ret.
  - apply only_userDatas_bind; [apply Hf | intros _; apply IH].
Qed.

Ltac only_ud :=
  repeat first
    [ apply only_userDatas_ret
    | apply only_userDatas_throw
    | apply only_userDatas_get
    | apply only_userDatas_read_sub
    | apply only_userDatas_read_userData
    | apply only_userDatas_write
    | apply only_userDatas_post
    | apply only_userDatas_bind; [| intros ?]
    | apply only_userDatas_for_each; intros ?
    | match goal with
      | |- only_userDatas (match ?x with _ => _ end) => destruct x
      end ].

Lemma only_userDatas_push_item u entry : only_userDatas (push_item u entry).
Proof. unfold push_item. only_ud. Qed.

Lemma only_userDatas_fanoutPublish c i p h : only_userDatas (fanoutPublish config c i p h).
Proof. unfold fanoutPublish. only_ud. Qed.

Lemma only_userDatas_fanout_latest u n es : only_userDatas (fanout_latest config u n es).
Proof.
  unfold fanout_latest. only_ud; cbn zeta; only_ud; apply only_userDatas_fanoutPublish.
Qed.

Lemma only_userDatas_handle_event st : only_userDatas (handle_event config st).
Proof.
  unfold handle_event. only_ud; cbn zeta; only_ud;
    first [apply only_userDatas_push_item | apply only_userDatas_fanout_latest].
Qed.


Lemma keeps_for_each_in Φ {A} (f : A -> M unit) xs :
  (forall x, x ∈ xs -> keeps Φ (f x)) -> keeps Φ (for_each f xs).
Proof.
  induction xs as [|x r IH]; intros Hf; cbn [for_each].
  - apply keeps_ret.
  - apply keeps_bind.
    + apply Hf. left.
    + intros _. apply IH. intros y Hy. apply Hf. by right.
Qed.

(** ** A reply handler is called at most once *)

Lemma calls_app h l1 l2 : calls h (l1 ++ l2) = (calls h l1 + calls h l2)%nat.
Proof. unfold calls. by rewrite filter_app, length_app. Qed.

Lemma calls_cons h e l :
  calls h (e :: l) = ((if is_call h e then 1 else 0) + calls h l)%nat.
Proof.
  unfold calls. destruct (is_call h e) eqn:E.
  - by rewrite filter_cons_True.
  - rewrite filter_cons_False; [reflexivity | by rewrite E].
Qed.

Lemma is_call_same h arg : is_call h (CallHandler h arg) = true.
Proof. cbn. by rewrite bool_decide_eq_true. Qed.

Lemma calls_zero_not_in h l arg : calls h l = 0%nat -> CallHandler h arg ∉ l.
Proof.
  unfold calls. intros H Hin.
  assert (Hf : CallHandler h arg ∈ filter (fun e => is_call h e = true) l).
  { apply list_elem_of_filter. split; [|exact Hin]. cbn. by rewrite bool_decide_eq_true. }
  destruct (filter _ l); [by apply not_elem_of_nil in Hf | discriminate].
Qed.

Lemma calls_zero_Forall h l :
  Forall (fun e => is_call h e = false) l -> calls h l = 0%nat.
Proof.
  unfold calls. induction 1 as [|e r He _ IH]; [reflexivity|].
  rewrite filter_cons_False; [exact IH | by rewrite He].
Qed.

Lemma no_new_holder_refl h s s' :
  s_replyHandlers s' = s_replyHandlers s -> no_new_holder h s s'.
Proof. intros E k t. by rewrite E. Qed.

Lemma once_frame h q seen s s' l0 l' :
  once_inv h q seen s l0 ->
  no_new_holder h s s' ->
  calls h l' = 0%nat ->
  once_inv h q seen s' (l0 ++ l').
Proof.
  intros [Hc Hg] Hn Hz. split.
  - rewrite calls_app, Hz, Nat.add_0_r.
    destruct Hc as [[? Hh]|[? Hh]]; [left | right]; (split; [assumption|]).
    + intros k t Hk. eapply Hh, Hn, Hk.
    + intros k t Hk. eapply Hh, Hn, Hk.
  - intros arg Hin. apply elem_of_app in Hin as [Hin|Hin]; [by apply Hg|].
    by apply calls_zero_not_in in Hin.
Qed.

(** The one call: [h] leaves the cache, and is called with [arg]. *)
Lemma once_call h q seen s s1 s' l0 l' k t arg :
  once_inv h q seen s l0 ->
  cache_data (s_replyHandlers s) !! k = Some (h, t) ->
  cache_data (s_replyHandlers s1) = delete k (cache_data (s_replyHandlers s)) ->
  no_new_holder h s1 s' ->
  calls h l' = 0%nat ->
  (k = q -> arg = service_unavailable \/ (st_attrs arg !! "id" = Some q /\ seen arg)) ->
  once_inv h q seen s' (l0 ++ CallHandler h arg :: l').
Proof.
  intros [Hc Hg] Hk Hs1 Hn Hz Harg.
  destruct Hc as [[Hc0 Hh]|[_ Hh]]; [|by destruct (Hh k t)].
  assert (k = q) as Hkq by (eapply Hh, Hk).
  split.
  - right. split.
    + by rewrite calls_app, Hc0, calls_cons, is_call_same, Hz.
    + intros k' t' Hk'. apply Hn in Hk'. rewrite Hs1 in Hk'.
      apply lookup_delete_Some in Hk' as [Hne Hk'].
      apply Hh in Hk'. congruence.
  - intros arg' Hin. apply elem_of_app in Hin as [Hin|Hin]; [by apply Hg|].
    apply elem_of_cons in Hin as [Hin|Hin].
    + injection Hin as ->. auto.
    + by apply calls_zero_not_in in Hin.
Qed.

Lemma subscribe_onreply_frame a K reply s :
  s_replyHandlers (final_state (subscribe_onreply a K reply s)) = s_replyHandlers s /\
  forall h, calls h (effects_of (subscribe_onreply a K reply s)) = 0%nat.
Proof.
  destruct (s_subObjs s !! a) as [sub|] eqn:Ha.
  - destruct (decide (st_attrs reply !! "type" = Some "result")) as [Hr|Hr].
    + rewrite (subscribe_onreply_result a K reply s sub Hr Ha). split; [reflexivity|].
      intros h. apply calls_zero_Forall. unfold effects_of. cbn.
      rewrite <- list_fmap_compose. apply Forall_fmap, Forall_true. reflexivity.
    + rewrite (subscribe_onreply_failure a K reply s sub Hr Ha). split; [reflexivity|].
      intros h. apply calls_zero_Forall. unfold effects_of. cbn.
      rewrite <- list_fmap_compose. apply Forall_fmap, Forall_true. reflexivity.
  - unfold subscribe_onreply, read_sub.
    destruct (decide _); m_unfold; rewrite Ha; cbn; auto.
Qed.

Lemma call_handler_frame h' reply s :
  s_replyHandlers (final_state (call_handler h' reply s)) = s_replyHandlers s /\
  exists l, effects_of (call_handler h' reply s) = CallHandler h' reply :: l /\
            forall h, calls h l = 0%nat.
Proof.
  unfold call_handler. rewrite final_state_bind, effects_of_bind. cbn.
  destruct h' as [cb|a K]; cbn.
  - split; [reflexivity|]. exists []. auto.
  - destruct (subscribe_onreply_frame a K reply s) as [E Hz].
    split; [exact E|]. eexists. split; [reflexivity | exact Hz].
Qed.


Lemma Cache_get_Some {V} k now (c : Cache V) v :
  Cache_get k now c = Some v ->
  exists t, cache_data c !! k = Some (v, t) /\ Cache_is_expired c t now = false.
Proof.
  unfold Cache_get. destruct (cache_data c !! k) as [[v' t]|]; [|discriminate].
  destruct (Cache_is_expired c t now) eqn:E; [discriminate|].
  intros [= ->]. eauto.
Qed.

Lemma Cache_due_Some {V} k now (c : Cache V) v :
  Cache_due k now c = Some v ->
  exists t, cache_data c !! k = Some (v, t) /\ Cache_is_expired c t now = true.
Proof.
  unfold Cache_due. destruct (cache_data c !! k) as [[v' t]|]; [|discriminate].
  destruct (Cache_is_expired c t now) eqn:E; [|discriminate].
  intros [= ->]. eauto.
Qed.

Lemma is_call_other h h' arg : h' <> h -> is_call h (CallHandler h' arg) = false.
Proof. intros H. cbn. by rewrite bool_decide_eq_false. Qed.

Section Once.
Variables (h : Handler) (q : string) (seen : Stanza -> Prop).

Lemma keeps_frame {A} (m : M A) :
  (forall s, no_new_holder h s (final_state (m s)) /\
             calls h (effects_of (m s)) = 0%nat) ->
  keeps (once_inv h q seen) m.
Proof. intros H s l0 HI. destruct (H s). by apply once_frame with s. Qed.

Lemma keeps_once_handle_event st : keeps (once_inv h q seen) (handle_event config st).
Proof.
  apply keeps_frame. intros s.
  destruct (only_userDatas_handle_event st s) as (E & _ & F). split.
  - apply no_new_holder_refl. by rewrite E.
  - apply calls_zero_Forall. eapply Forall_impl; [exact F|].
    intros [] He; try discriminate. reflexivity.
Qed.

Lemma keeps_once_handle_reply st :
  seen st -> keeps (once_inv h q seen) (handle_reply st).
Proof.
  intros Hseen. unfold handle_reply.
  destruct (st_attrs st !! "id") as [id|] eqn:Hid; [|apply keeps_ret].
  destruct (truthy (JStr id)); [|apply keeps_ret].
  intros s l0 HI. rewrite final_state_bind, effects_of_bind. cbn.
  destruct (Cache_get id (s_now s) (s_replyHandlers s)) as [h'|] eqn:Hget.
  - apply Cache_get_Some in Hget as (t & Hk & _).
    rewrite final_state_bind, effects_of_bind. cbn.
    set (s1 := set_replyHandlers (Cache_remove id (s_replyHandlers s)) s).
    destruct (call_handler_frame h' st s1) as (E & l & -> & Hz).
    destruct (decide (h' = h)) as [->|Hne].
    + eapply once_call with (s1 := s1); eauto.
      * by apply no_new_holder_refl.
      * intros ->. auto.
    + apply once_frame with s; [exact HI | |].
      * intros k t' Hk'. rewrite E in Hk'. cbn in Hk'.
        by apply lookup_delete_Some in Hk' as [_ Hk'].
      * by rewrite calls_cons, is_call_other, Hz.
  - cbn. by rewrite app_nil_r.
Qed.

Lemma keeps_once_stanza_listener st :
  seen st -> keeps (once_inv h q seen) (stanza_listener config st).
Proof.
  intros Hseen. unfold stanza_listener. apply keeps_bind.
  - apply keeps_once_handle_event.
  - intros _. by apply keeps_once_handle_reply.
Qed.

Lemma keeps_once_onStanza_callback sh st :
  keeps (once_inv h q seen) (onStanza_callback sh st).
Proof.
  apply keeps_frame. intros s. unfold onStanza_callback.
  rewrite final_state_bind, effects_of_bind. cbn.
  destruct (sh_done sh st); cbn; split; auto using no_new_holder_refl.
Qed.

Lemma keeps_once_emit_stanza st :
  seen st -> keeps (once_inv h q seen) (emit_stanza config st).
Proof.
  intros Hseen. unfold emit_stanza. apply keeps_bind.
  - apply keeps_frame. intros s. cbn. auto using no_new_holder_refl.
  - intros s0. apply keeps_for_each. intros [|sh]; cbn.
    + by apply keeps_once_stanza_listener.
    + apply keeps_once_onStanza_callback.
Qed.

Lemma keeps_once_sendQuery iq h' q' :
  h' <> h -> keeps (once_inv h q seen) (sendQuery config iq h' q').
Proof.
  intros Hne. apply keeps_frame. intros s. rewrite sendQuery_eq. split; [|reflexivity].
  intros k t Hk. cbn in Hk. apply lookup_insert_Some in Hk as [[_ Hk]|[_ Hk]].
  - congruence.
  - exact Hk.
Qed.

Lemma keeps_once_modify f :
  (forall s, s_replyHandlers (f s) = s_replyHandlers s) ->
  keeps (once_inv h q seen) (modify f).
Proof.
  intros Hf. apply keeps_frame. intros s. cbn. auto using no_new_holder_refl.
Qed.

Lemma keeps_once_tell e : is_call h e = false -> keeps (once_inv h q seen) (tell e).
Proof.
  intros He. apply keeps_frame. intros s. split; [by apply no_new_holder_refl|].
  change (effects_of (tell e s)) with [e]. by rewrite calls_cons, He.
Qed.

Lemma keeps_once_read_sub a : keeps (once_inv h q seen) (read_sub a).
Proof.
  apply keeps_frame. intros s. unfold read_sub.
  destruct (s_subObjs s !! a); cbn; auto using no_new_holder_refl.
Qed.

Lemma keeps_once_subscribe nodeId c1 c2 q' :
  (forall a K, HSubscribe a K <> h) ->
  keeps (once_inv h q seen) (subscribe config nodeId c1 c2 q').
Proof.
  intros Hne. unfold subscribe. cbn zeta. apply keeps_bind.
  { apply keeps_frame. intros s. cbn. auto using no_new_holder_refl. }
  intros s0. destruct (s_subs_props s0 !! _).
  - apply keeps_bind; [apply keeps_once_read_sub|]. intros sub.
    destruct (sub_state sub).
    + by apply keeps_once_modify.
    + by apply keeps_once_tell.
  - apply keeps_bind.
    { apply keeps_frame. intros s. cbn. auto using no_new_holder_refl. }
    intros u. apply keeps_bind.
    { apply keeps_frame. intros s. cbn. auto using no_new_holder_refl. }
    intros a. apply keeps_bind; [by apply keeps_once_modify|]. intros _.
    apply keeps_bind.
    { apply keeps_frame. intros s. cbn. auto using no_new_holder_refl. }
    intros s1. apply keeps_bind; [|intros _; by apply keeps_once_sendQuery].
    destruct (s_subsPresences s1 !! _) as [refs|].
    + destruct (negb _); [apply keeps_ret|].
      apply keeps_bind; [by apply keeps_once_modify|]. intros _.
      by apply keeps_once_tell.
    + apply keeps_bind; [by apply keeps_once_modify|]. intros _.
      by apply keeps_once_tell.
Qed.

Lemma keeps_once_expire_reply k :
  (forall s arg, outcome_of (call_handler h arg s) = Returned tt) ->
  keeps (once_inv h q seen) (expire_reply k).
Proof.
  intros Hret. unfold expire_reply. intros s l0 HI.
  rewrite final_state_bind, effects_of_bind. cbn.
  destruct (Cache_due k (s_now s) (s_replyHandlers s)) as [h'|] eqn:Hdue.
  - apply Cache_due_Some in Hdue as (t & Hk & _).
    rewrite final_state_bind, effects_of_bind.
    assert (Hdel : forall s2, s_replyHandlers s2 = s_replyHandlers s ->
              forall k' t', cache_data (Cache_remove k (s_replyHandlers s2)) !! k' = Some (h, t') ->
                            cache_data (s_replyHandlers s) !! k' = Some (h, t')).
    { intros s2 E k' t' Hk'. rewrite E in Hk'. cbn in Hk'.
      by apply lookup_delete_Some in Hk' as [_ Hk']. }
    destruct (cache_onexpired (s_replyHandlers s)) as [[|]|].
    + destruct (call_handler_frame h' service_unavailable s) as (E & l & El & Hz).
      rewrite El. destruct (decide (h' = h)) as [->|Hne].
      * rewrite Hret. cbn. rewrite app_nil_r.
        eapply once_call with (s1 := set_replyHandlers (Cache_remove k (s_replyHandlers s)) s);
          eauto.
        intros k' t'. cbn. by rewrite E.
      * apply once_frame with s; [exact HI | |].
        -- destruct (outcome_of (call_handler h' service_unavailable s)); cbn.
           ++ intros k' t'. cbn. by apply Hdel.
           ++ by apply no_new_holder_refl.
        -- rewrite calls_app, calls_cons, is_call_other, Hz by done.
           by destruct (outcome_of (call_handler h' service_unavailable s)).
    + cbn. apply once_frame with s; [exact HI | | reflexivity].
      intros k' t'. cbn. by apply Hdel.
    + cbn. apply once_frame with s; [exact HI | | reflexivity].
      intros k' t'. cbn. by apply Hdel.
  - cbn. by rewrite app_nil_r.
Qed.

End Once.


Lemma keeps_once_expire_sub h q seen k : keeps (once_inv h q seen) (expire_sub k).
Proof.
  apply keeps_frame. intros s. unfold expire_sub.
  rewrite final_state_bind, effects_of_bind. cbn.
  destruct (Cache_due k (s_now s) (s_subs s)); cbn; auto using no_new_holder_refl.
Qed.

Lemma keeps_once_step cb q seen ev :
  (forall st, ev = EvStanza st -> seen st) ->
  (forall iq q', ev <> EvSendQuery iq cb q') ->
  keeps (once_inv (HUser cb) q seen) (step config ev).
Proof.
  intros Hseen Hreg. destruct ev as [st|iq cb' q'|nodeId c1 c2 q'|sh|d|k|k]; cbn [step].
  - apply keeps_once_emit_stanza. by apply Hseen.
  - apply keeps_once_sendQuery. intros [= ->]. by eapply Hreg.
  - by apply keeps_once_subscribe.
  - by apply keeps_once_modify.
  - by apply keeps_once_modify.
  - by apply keeps_once_expire_reply.
  - apply keeps_once_expire_sub.
Qed.

Lemma keeps_once_run cb q evs :
  Forall (fun ev => forall iq q', ev <> EvSendQuery iq cb q') evs ->
  keeps (once_inv (HUser cb) q (fun st => EvStanza st ∈ evs)) (run config evs).
Proof.
  intros Hreg. unfold run. apply keeps_for_each_in. intros ev Hev.
  apply keeps_settle, keeps_once_step.
  - by intros st ->.
  - rewrite Forall_forall in Hreg. by apply Hreg.
Qed.

Lemma once_inv_after_sendQuery iq h q seen s :
  not_held h s ->
  once_inv h q seen (final_state (sendQuery config iq h q s)) [].
Proof.
  intros Hn. rewrite sendQuery_eq. split.
  - left. split; [reflexivity|]. intros k t Hk. cbn in Hk.
    apply lookup_insert_Some in Hk as [[-> _]|[_ Hk]]; [reflexivity|].
    by apply Hn in Hk.
  - intros arg Hin. by apply not_elem_of_nil in Hin.
Qed.

Lemma handle_event_not_message st s :
  String.eqb (st_name st) "message" = false ->
  handle_event config st s = (s, [], Returned tt).
Proof. intros H. unfold handle_event. by rewrite H. Qed.

Lemma handle_reply_found st id h s :
  st_attrs st !! "id" = Some id ->
  id <> "" ->
  Cache_get id (s_now s) (s_replyHandlers s) = Some h ->
  handle_reply st s =
    call_handler h st (set_replyHandlers (Cache_remove id (s_replyHandlers s)) s).
Proof.
  intros Hid Hne Hget. unfold handle_reply. rewrite Hid. cbn [truthy].
  apply String.eqb_neq in Hne. rewrite Hne. cbn [negb].
  unfold mbind, M_bind. cbn. rewrite Hget. cbn.
  destruct (call_handler h st _) as [[s2 l2] o]. reflexivity.
Qed.

Lemma effects_of_settle m s : effects_of (settle m s) = effects_of (m s).
Proof. unfold settle. by destruct (m s) as [[? ?] ?]. Qed.

Lemma final_state_settle m s : final_state (settle m s) = final_state (m s).
Proof. unfold settle. by destruct (m s) as [[? ?] ?]. Qed.

Lemma outcome_of_settle m s : outcome_of (settle m s) = Returned tt.
Proof. unfold settle. by destruct (m s) as [[? ?] ?]. Qed.

Lemma effects_of_run_cons ev evs s :
  effects_of (run config (ev :: evs) s) =
  effects_of (step config ev s) ++
  effects_of (run config evs (final_state (step config ev s))).
Proof.
  unfold run. cbn [for_each].
  by rewrite effects_of_bind, outcome_of_settle, effects_of_settle, final_state_settle.
Qed.

Lemma final_state_run_cons ev evs s :
  final_state (run config (ev :: evs) s) =
  final_state (run config evs (final_state (step config ev s))).
Proof.
  unfold run. cbn [for_each].
  by rewrite final_state_bind, outcome_of_settle, final_state_settle.
Qed.

Lemma final_state_run_nil s : final_state (run config [] s) = s.
Proof. reflexivity. Qed.

Lemma timeout_delivered iq cb q s d :
  cache_onexpired (s_replyHandlers s) = Some OnReplyExpired ->
  (cache_ttl (s_replyHandlers s) <= d)%nat ->
  effects_of (run config [EvElapse d; EvExpireReply q]
                (final_state (sendQuery config iq (HUser cb) q s))) =
  [CallHandler (HUser cb) service_unavailable].
Proof.
  intros Hon Hd. rewrite sendQuery_eq. cbn zeta.
  rewrite effects_of_run_cons. cbn [step].
  change (effects_of (modify _ _)) with (@nil Effect). cbn [app].
  rewrite effects_of_run_cons. cbn [step].
  unfold expire_reply. rewrite effects_of_bind. cbn.
  unfold Cache_due, Cache_put. cbn.
  rewrite lookup_insert_eq. unfold Cache_is_expired. cbn.
  destruct (Nat.leb_spec (s_now s + cache_ttl (s_replyHandlers s)) (s_now s + d)); [|lia].
  rewrite Hon. reflexivity.
Qed.

Lemma log_of_bind {A B} (m : M A) (f : A -> M B) s :
  log_of ((m ≫= f) s) =
  log_of (m s) ++
  match outcome_of (m s) with
  | Returned a => log_of (f a (final_state (m s)))
  | Thrown _ => []
  end.
Proof.
  unfold mbind, M_bind, log_of.
  destruct (m s) as [[s1 l1] [a|e]]; cbn; [|by rewrite app_nil_r].
  destruct (f a s1) as [[s2 l2] o]. reflexivity.
Qed.

Lemma effects_of_log {A} (r : Session * list (Effect * Session) * Outcome A) :
  effects_of r = (log_of r).*1.
Proof. reflexivity. Qed.

(** ** [subscribe] *)

Lemma subscribe_absent nodeId c1 c2 q s :
  s_subs_props s !! subkey_of config nodeId = None ->
  let a := S (s_next s) in
  let s1 := with_presence config (with_new_entry config nodeId c1 c2 s) in
  let s2 := set_replyHandlers
              (Cache_put q (HSubscribe a (subkey_of config nodeId)) (s_now s)
                 (s_replyHandlers s)) s1 in
  subscribe config nodeId c1 c2 q s =
    (s2,
     (if has_presence config s then []
      else [(Send (OPresence (s_jid s) (channelDomain config)), s1)]) ++
     [(Send (OIq (PSubscribe nodeId (s_jid s) true) (s_jid s) (channelDomain config) q),
       s2)],
     Returned tt).
Proof.
  intros H. unfold subscribe, subkey_of in *. cbn zeta.
  unfold mbind, M_bind at 1. cbn [get_session]. rewrite H.
  unfold with_presence, with_new_entry, has_presence, subkey_of.
  cbn. unfold mbind, M_bind. cbn.
  destruct (s_subsPresences s !! channelDomain config) as [refs|]; cbn.
  - destruct (negb (refs =? 0)); reflexivity.
  - reflexivity.
Qed.

Lemma subscribe_subscribing nodeId c1 c2 q s a sub :
  s_subs_props s !! subkey_of config nodeId = Some a ->
  s_subObjs s !! a = Some sub ->
  sub_state sub = subscribing ->
  subscribe config nodeId c1 c2 q s =
    (set_subObjs
       (<[a := {| sub_state := subscribing;
                  sub_pending := sub_pending sub ++ [{| onsub := c1; onerror := c2 |}];
                  sub_userData := sub_userData sub |}]> (s_subObjs s)) s,
     [], Returned tt).
Proof.
  intros H Ha Hs. unfold subscribe, subkey_of in *. cbn zeta.
  unfold mbind, M_bind at 1. cbn [get_session]. rewrite H.
  unfold read_sub, mbind, M_bind. rewrite Ha, Hs. reflexivity.
Qed.

Lemma subscribe_subscribed nodeId c1 c2 q s a sub :
  s_subs_props s !! subkey_of config nodeId = Some a ->
  s_subObjs s !! a = Some sub ->
  sub_state sub = subscribed ->
  subscribe config nodeId c1 c2 q s =
    (s, [(CallOnSub c1 (sub_userData sub), s)], Returned tt).
Proof.
  intros H Ha Hs. unfold subscribe, subkey_of in *. cbn zeta.
  unfold mbind, M_bind at 1. cbn [get_session]. rewrite H.
  unfold read_sub, mbind, M_bind. rewrite Ha, Hs. reflexivity.
Qed.


Lemma with_presence_fields s :
  s_subs_props (with_presence config s) = s_subs_props s /\
  s_subObjs (with_presence config s) = s_subObjs s /\
  s_userDatas (with_presence config s) = s_userDatas s /\
  s_replyHandlers (with_presence config s) = s_replyHandlers s /\
  s_listeners (with_presence config s) = s_listeners s /\
  s_now (with_presence config s) = s_now s /\
  s_next (with_presence config s) = s_next s /\
  s_jid (with_presence config s) = s_jid s /\
  s_subs (with_presence config s) = s_subs s.
Proof. unfold with_presence. destruct (has_presence config s); repeat split. Qed.

(** ** The listeners of the connection *)

Lemma other_listeners st ls s :
  Forall (fun l => l <> LMain) ls ->
  final_state (for_each (run_listener config st) ls s) = s /\
  Forall (fun e => is_stanza_handler_call e.1 = true)
         (log_of (for_each (run_listener config st) ls s)).
Proof.
  induction 1 as [|l r Hl _ IH]; cbn [for_each]; [by split|].
  rewrite final_state_bind, log_of_bind.
  destruct l as [|sh]; [done|]. cbn [run_listener]. unfold onStanza_callback.
  unfold mbind at 2 4 6, M_bind. cbn. destruct (sh_done sh st); cbn.
  - split; [reflexivity|]. repeat constructor.
  - destruct IH as [-> IH]. split; [reflexivity|]. constructor; [reflexivity | exact IH].
Qed.

Lemma emit_stanza_ok st s ls :
  s_listeners s = LMain :: ls ->
  Forall (fun l => l <> LMain) ls ->
  final_state (emit_stanza config st s) = final_state (stanza_listener config st s) /\
  exists l, log_of (emit_stanza config st s) = log_of (stanza_listener config st s) ++ l /\
            Forall (fun e => is_stanza_handler_call e.1 = true) l.
Proof.
  intros Hl Hls. unfold emit_stanza. rewrite final_state_bind, log_of_bind. cbn.
  rewrite Hl. cbn [for_each run_listener]. rewrite final_state_bind, log_of_bind.
  destruct (outcome_of (stanza_listener config st s)).
  - destruct (other_listeners st ls (final_state (stanza_listener config st s)) Hls) as [-> F].
    split; [reflexivity|]. eauto.
  - split; [reflexivity|]. exists []. split; [reflexivity | constructor].
Qed.

Lemma stanza_listener_reply st q h s :
  String.eqb (st_name st) "message" = false ->
  st_attrs st !! "id" = Some q ->
  q <> "" ->
  Cache_get q (s_now s) (s_replyHandlers s) = Some h ->
  stanza_listener config st s =
    call_handler h st (set_replyHandlers (Cache_remove q (s_replyHandlers s)) s).
Proof.
  intros Hname Hid Hq Hget. unfold stanza_listener.
  unfold mbind, M_bind. rewrite handle_event_not_message by done.
  rewrite (handle_reply_found st q h s Hid Hq Hget).
  by destruct (call_handler h st _) as [[? ?] ?].
Qed.

Lemma call_subscribe_handler_result a K reply s sub :
  st_attrs reply !! "type" = Some "result" ->
  s_subObjs s !! a = Some sub ->
  let s' := set_subObjs
              (<[a := {| sub_state := subscribed; sub_pending := sub_pending sub;
                         sub_userData := sub_userData sub |}]> (s_subObjs s)) s in
  call_handler (HSubscribe a K) reply s =
    (s', (CallHandler (HSubscribe a K) reply, s) ::
         map (fun p => (CallOnSub (onsub p) (sub_userData sub), s')) (sub_pending sub),
     Returned tt).
Proof.
  intros Hr Ha. unfold call_handler, mbind, M_bind. cbn [tell].
  by rewrite (subscribe_onreply_result a K reply s sub Hr Ha).
Qed.

Lemma call_subscribe_handler_failure a K reply s sub :
  st_attrs reply !! "type" <> Some "result" ->
  s_subObjs s !! a = Some sub ->
  let s' := set_subs_props (delete K (s_subs_props s)) s in
  call_handler (HSubscribe a K) reply s =
    (s', (CallHandler (HSubscribe a K) reply, s) ::
         map (fun p => (CallOnError (onerror p) "failed", s')) (sub_pending sub),
     Returned tt).
Proof.
  intros Hr Ha. unfold call_handler, mbind, M_bind. cbn [tell].
  by rewrite (subscribe_onreply_failure a K reply s sub Hr Ha).
Qed.

Lemma Cache_get_put {V} k (v : V) t now (c : Cache V) :
  (now < t + cache_ttl c)%nat ->
  Cache_get k now (Cache_put k v t c) = Some v.
Proof.
  intros H. unfold Cache_get, Cache_put. cbn. rewrite lookup_insert_eq.
  unfold Cache_is_expired. cbn.
  by destruct (Nat.leb_spec (t + cache_ttl c) now); [lia|].
Qed.


(** ** Publish events *)

Lemma push_item_eq u e s d its :
  s_userDatas s !! u = Some d ->
  ud_items d = Some its ->
  push_item u e s =
    (set_userDatas (<[u := with_items d (its ++ [make_item e])]> (s_userDatas s)) s,
     [], Returned tt).
Proof.
  intros Hu Hi. unfold push_item, read_userData, write_userData, mbind, M_bind.
  by rewrite Hu, Hi.
Qed.

Lemma for_each_push_item u es s d its :
  s_userDatas s !! u = Some d ->
  ud_items d = Some its ->
  exists uds,
    for_each (push_item u) es s = (set_userDatas uds s, [], Returned tt) /\
    uds !! u = Some (with_items d (its ++ map make_item es)) /\
    (forall v, v <> u -> uds !! v = s_userDatas s !! v).
Proof.
  revert s d its. induction es as [|e r IH]; intros s d its Hu Hi.
  - exists (s_userDatas s). cbn. split; [by destruct s | split; [|done]].
    rewrite app_nil_r, Hu. f_equal. destruct d. cbn in *. by subst.
  - cbn [for_each]. unfold mbind, M_bind.
    rewrite (push_item_eq u e s d its Hu Hi).
    edestruct (IH (set_userDatas (<[u := with_items d (its ++ [make_item e])]> (s_userDatas s)) s)
                 (with_items d (its ++ [make_item e])) (its ++ [make_item e]))
      as (uds & -> & Hlk & Hother).
    + cbn. apply lookup_insert_eq.
    + reflexivity.
    + exists uds. split; [reflexivity | split].
      * rewrite Hlk. cbn. unfold with_items. cbn. by rewrite <- app_assoc.
      * intros v Hv. rewrite (Hother v Hv). cbn. by rewrite lookup_insert_ne.
Qed.

Lemma initialised_items st d : ud_items (initialised st d) = Some (items_of (initialised st d)).
Proof. unfold initialised, items_of. by destruct (ud_items d) eqn:E; cbn; rewrite ?E. Qed.

(** The id of a fan-out emission is never the empty string. *)
Lemma fanout_id_truthy item : truthy (JStr (fanout_id item)) = true.
Proof.
  unfold fanout_id. cbn. by destruct (id_id (item_id item)).
Qed.

(** What the stanza listener does with a publish event for a topic that
    has an entry: the items are appended; with fan-out configured and an
    item to publish, [lastPublishedId] is set and two items are posted. *)
Lemma handle_event_publish st nodeId es s a sub d :
  is_publish_event st nodeId es ->
  s_subs_props s !! subkey_of config nodeId = Some a ->
  s_subObjs s !! a = Some sub ->
  s_userDatas s !! sub_userData sub = Some d ->
  let u := sub_userData sub in
  let d0 := initialised st d in
  let its := items_of d0 ++ map make_item es in
  exists uds l o,
    handle_event config st s = (set_userDatas uds s, l, o) /\
    (forall v, v <> u -> uds !! v = s_userDatas s !! v) /\
    if truthy (fanoutRealm config) then
      match last its with
      | Some item =>
          uds !! u = Some (with_lastPublishedId (with_items d0 its) (JStr (fanout_id item))) /\
          posts (l.*1) =
            emission (fanout_id item) (ud_lastPublishedId d0)
                     (feed_of nodeId (ud_from d0) es) /\
          o = Returned tt
      | None =>
          uds !! u = Some (with_items d0 its) /\ l = [] /\
          o = Thrown (TypeError "item is undefined")
      end
    else
      uds !! u = Some (with_items d0 its) /\ l = [] /\ o = Returned tt.
Proof.
  intros [Hname Hitems] Hp Ha Hu. cbn zeta.
  unfold handle_event. rewrite Hname, Hitems, String.eqb_refl.
  cbn [items_entries items_node].
  unfold subkey_of in Hp.
  unfold mbind at 1, M_bind at 1. cbn [get_session]. rewrite Hp.
  unfold mbind at 1, M_bind at 1. unfold read_sub. rewrite Ha.
  unfold mbind at 1, M_bind at 1. unfold read_userData at 1. rewrite Hu.
  (* the fields are seen to *)
  assert (exists uds0,
    (match ud_items d with
     | Some _ => mret ()
     | None => write_userData (sub_userData sub)
                 {| ud_items := Some []; ud_from := stanza_attr st "from";
                    ud_prevId := JNull; ud_lastPublishedId := JNull |}
     end) s = (set_userDatas uds0 s, [], Returned tt) /\
    uds0 !! sub_userData sub = Some (initialised st d) /\
    (forall v, v <> sub_userData sub -> uds0 !! v = s_userDatas s !! v))
    as (uds0 & E0 & H0 & O0).
  { unfold initialised. destruct (ud_items d).
    - exists (s_userDatas s). split; [by destruct s | split; [exact Hu | done]].
    - eexists. split; [reflexivity | split; [apply lookup_insert_eq|]].
      intros v Hv. by rewrite lookup_insert_ne. }
  unfold mbind at 1, M_bind at 1. rewrite E0.
  (* the items are pushed *)
  destruct (for_each_push_item (sub_userData sub) es (set_userDatas uds0 s)
              (initialised st d) (items_of (initialised st d)) H0
              (initialised_items st d)) as (uds1 & E1 & H1 & O1).
  assert (O01 : forall v, v <> sub_userData sub -> uds1 !! v = s_userDatas s !! v).
  { intros v Hv. by rewrite (O1 v Hv), <- (O0 v Hv). }
  unfold mbind at 1, M_bind at 1. rewrite E1.
  cbn [set_userDatas s_id s_jid s_replyHandlers
    s_subs s_subs_props s_subsPresences s_subObjs s_userDatas s_next s_listeners s_now].
  destruct (truthy (fanoutRealm config)).
  - unfold fanout_latest. unfold mbind at 1, M_bind at 1.
    unfold read_userData.
    change (s_userDatas (set_userDatas uds1 (set_userDatas uds0 s))) with uds1.
    rewrite H1. cbn [with_items ud_items].
    destruct (last (items_of (initialised st d) ++ map make_item es)) as [item|] eqn:El.
    + eexists _, _, _. cbn. split; [reflexivity|]. split.
      { intros v Hv. rewrite lookup_insert_ne by done. by apply O01. }
      split; [apply lookup_insert_eq|].
      split; [|reflexivity].
      unfold posts, emission, prev_id_of, feed_of.
      pose proof (fanout_id_truthy item) as Hid. cbn in Hid. cbn. rewrite Hid.
      destruct (truthy (ud_lastPublishedId (initialised st d))) eqn:Et; cbn;
        rewrite ?Et; reflexivity.
    + eexists _, _, _. cbn. split; [reflexivity|]. split; [exact O01|].
      split; [exact H1|]. split; reflexivity.
  - eexists _, _, _. cbn. split; [reflexivity|]. split; [exact O01|].
    split; [exact H1|]. split; reflexivity.
Qed.

Lemma posts_app l1 l2 : posts (l1 ++ l2) = posts l1 ++ posts l2.
Proof. unfold posts. by rewrite omap_app, join_app. Qed.

Lemma posts_none l : Forall (fun e => is_post e = false) l -> posts l = [].
Proof.
  induction 1 as [|e r He _ IH]; [reflexivity|].
  destruct e; try discriminate; exact IH.
Qed.

Lemma subscribe_onreply_callbacks a K reply s :
  Forall (fun e => is_callback e = true) (effects_of (subscribe_onreply a K reply s)).
Proof.
  destruct (s_subObjs s !! a) as [sub|] eqn:Ha.
  - destruct (decide (st_attrs reply !! "type" = Some "result")) as [Hr|Hr].
    + rewrite (subscribe_onreply_result a K reply s sub Hr Ha).
      unfold effects_of. cbn.
      rewrite <- list_fmap_compose. apply Forall_fmap, Forall_true. reflexivity.
    + rewrite (subscribe_onreply_failure a K reply s sub Hr Ha).
      unfold effects_of. cbn.
      rewrite <- list_fmap_compose. apply Forall_fmap, Forall_true. reflexivity.
  - unfold subscribe_onreply, read_sub.
    destruct (decide _); unfold mbind, M_bind; rewrite Ha; constructor.
Qed.

(** The effects of [handle_reply]: at most one call of a reply handler,
    followed by calls of [onsub] or [onerror]. *)
Lemma handle_reply_effects st s :
  effects_of (handle_reply st s) = [] \/
  exists h l, effects_of (handle_reply st s) = CallHandler h st :: l /\
              Forall (fun e => is_callback e = true) l.
Proof.
  unfold handle_reply.
  destruct (st_attrs st !! "id") as [id|]; [|by left].
  destruct (truthy (JStr id)); [|by left].
  rewrite effects_of_bind. cbn.
  destruct (Cache_get id (s_now s) (s_replyHandlers s)) as [h|]; [|by left].
  right. exists h. rewrite effects_of_bind. cbn.
  unfold call_handler. rewrite effects_of_bind. cbn.
  destruct h as [cb|a K].
  - exists []. split; [reflexivity | constructor].
  - eexists. split; [reflexivity|]. apply subscribe_onreply_callbacks.
Qed.

Lemma handle_reply_no_posts st s : posts (effects_of (handle_reply st s)) = [].
Proof.
  destruct (handle_reply_effects st s) as [->|(h & l & -> & F)]; [reflexivity|].
  cbn. apply posts_none. eapply Forall_impl; [exact F|]. by intros [].
Qed.

Lemma handle_reply_none st s :
  no_pending_reply s st -> handle_reply st s = (s, [], Returned tt).
Proof.
  unfold no_pending_reply, handle_reply.
  destruct (st_attrs st !! "id") as [id|]; [|reflexivity].
  intros H. destruct (truthy (JStr id)); [|reflexivity].
  unfold mbind, M_bind. cbn. by rewrite H.
Qed.

Lemma stanza_handler_calls_no_posts (l : list (Effect * Session)) :
  Forall (fun e => is_stanza_handler_call e.1 = true) l -> posts (l.*1) = [].
Proof.
  intros F. apply posts_none. apply Forall_fmap. eapply Forall_impl; [exact F|].
  intros [e s] He. cbn in *. by destruct e.
Qed.

Lemma emit_publish_event st nodeId es s a sub d ls item :
  truthy (fanoutRealm config) = true ->
  s_listeners s = LMain :: ls ->
  Forall (fun l => l <> LMain) ls ->
  is_publish_event st nodeId es ->
  s_subs_props s !! subkey_of config nodeId = Some a ->
  s_subObjs s !! a = Some sub ->
  s_userDatas s !! sub_userData sub = Some d ->
  let d0 := initialised st d in
  let its := items_of d0 ++ map make_item es in
  last its = Some item ->
  exists uds,
    final_state (handle_event config st s) = set_userDatas uds s /\
    final_state (emit_stanza config st s) =
      final_state (handle_reply st (set_userDatas uds s)) /\
    uds !! sub_userData sub =
      Some (with_lastPublishedId (with_items d0 its) (JStr (fanout_id item))) /\
    posts (effects_of (emit_stanza config st s)) =
      emission (fanout_id item) (ud_lastPublishedId d0) (feed_of nodeId (ud_from d0) es).
Proof.
  intros Hrealm Hl Hls Hev Hp Ha Hu d0 its Hlast.
  destruct (handle_event_publish st nodeId es s a sub d Hev Hp Ha Hu)
    as (uds & l & o & E & _ & H).
  rewrite Hrealm in H. fold d0 its in H. rewrite Hlast in H.
  destruct H as (Hlk & Hposts & ->).
  destruct (emit_stanza_ok st s ls Hl Hls) as (Ef & l' & El & F).
  exists uds. split; [by rewrite E | split; [|split; [exact Hlk|]]].
  - rewrite Ef. unfold stanza_listener. rewrite final_state_bind, E. reflexivity.
  - rewrite effects_of_log, El. unfold stanza_listener. rewrite log_of_bind, E.
    cbn [log_of outcome_of final_state fst snd].
    rewrite !fmap_app, !posts_app, Hposts.
    change ((log_of (handle_reply st (set_userDatas uds s))).*1)
      with (effects_of (handle_reply st (set_userDatas uds s))).
    rewrite handle_reply_no_posts, (stanza_handler_calls_no_posts l' F).
    by rewrite !app_nil_r.
Qed.

(** The session right after [subscribe] has created an entry. *)
Lemma after_subscribe_absent nodeId c1 c2 q s :
  s_subs_props s !! subkey_of config nodeId = None ->
  let a := S (s_next s) in
  let s1 := final_state (subscribe config nodeId c1 c2 q s) in
  s_subs_props s1 = <[subkey_of config nodeId := a]> (s_subs_props s) /\
  s_subObjs s1 =
    <[a := {| sub_state := subscribing;
              sub_pending := [{| onsub := c1; onerror := c2 |}];
              sub_userData := s_next s |}]> (s_subObjs s) /\
  s_userDatas s1 =
    <[s_next s := {| ud_items := None; ud_from := JUndefined; ud_prevId := JUndefined;
                     ud_lastPublishedId := JUndefined |}]> (s_userDatas s) /\
  s_replyHandlers s1 =
    Cache_put q (HSubscribe a (subkey_of config nodeId)) (s_now s) (s_replyHandlers s) /\
  s_listeners s1 = s_listeners s /\ s_now s1 = s_now s /\ s_jid s1 = s_jid s /\
  s_next s1 = S a /\ s_subs s1 = s_subs s /\
  s_subsPresences s1 =
    (if has_presence config s then s_subsPresences s
     else <[channelDomain config := 1]> (s_subsPresences s)).
Proof.
  intros H. cbn zeta. rewrite (subscribe_absent nodeId c1 c2 q s H).
  cbn [final_state fst].
  destruct (with_presence_fields (with_new_entry config nodeId c1 c2 s))
    as (E1 & E2 & E3 & E4 & E5 & E6 & E7 & E8 & E9).
  cbn. rewrite E1, E2, E3, E5, E6, E7, E8, E9.
  repeat split.
  unfold with_presence.
  change (has_presence config (with_new_entry config nodeId c1 c2 s))
    with (has_presence config s).
  by destruct (has_presence config s).
Qed.


(** The reply to the subscribe query of the subscription object [a]
    arrives. *)
Lemma emit_subscribe_reply reply q a K s sub ls :
  s_listeners s = LMain :: ls ->
  Forall (fun l => l <> LMain) ls ->
  String.eqb (st_name reply) "message" = false ->
  st_attrs reply !! "id" = Some q ->
  q <> "" ->
  Cache_get q (s_now s) (s_replyHandlers s) = Some (HSubscribe a K) ->
  s_subObjs s !! a = Some sub ->
  let s1 := set_replyHandlers (Cache_remove q (s_replyHandlers s)) s in
  let s' := after_subscribe_reply reply q a K sub s in
  final_state (emit_stanza config reply s) = s' /\
  exists l,
    log_of (emit_stanza config reply s) =
      (CallHandler (HSubscribe a K) reply, s1) ::
      (if decide (st_attrs reply !! "type" = Some "result")
       then map (fun p => (CallOnSub (onsub p) (sub_userData sub), s')) (sub_pending sub)
       else map (fun p => (CallOnError (onerror p) "failed", s')) (sub_pending sub)) ++ l /\
    Forall (fun e => is_stanza_handler_call e.1 = true) l.
Proof.
  intros Hl Hls Hname Hid Hq Hget Ha. cbn zeta.
  destruct (emit_stanza_ok reply s ls Hl Hls) as (Ef & l & El & F).
  rewrite Ef, El, (stanza_listener_reply reply q _ s Hname Hid Hq Hget).
  unfold after_subscribe_reply.
  destruct (decide (st_attrs reply !! "type" = Some "result")) as [Hr|Hr].
  - rewrite (call_subscribe_handler_result a K reply
               (set_replyHandlers (Cache_remove q (s_replyHandlers s)) s) sub Hr Ha).
    split; [reflexivity|]. exists l. split; [reflexivity | exact F].
  - rewrite (call_subscribe_handler_failure a K reply
               (set_replyHandlers (Cache_remove q (s_replyHandlers s)) s) sub Hr Ha).
    split; [reflexivity|]. exists l. split; [reflexivity | exact F].
Qed.

(** C4.  When the reply to the subscribe query has another type than
    result, the entry of the topic is deleted first: every [onerror] of the
    pending list is then called with ['failed'], and each of these calls
    finds the entry gone.  Afterwards there is no entry, and a further
    [subscribe] for the topic makes a new subscription object with the
    caller alone pending, and sends a new subscribe query. *)
Theorem subscribe_failure_reply reply q nodeId a s sub ls c1 c2 q2 :
  s_listeners s = LMain :: ls ->
  Forall (fun l => l <> LMain) ls ->
  String.eqb (st_name reply) "message" = false ->
  st_attrs reply !! "id" = Some q ->
  q <> "" ->
  st_attrs reply !! "type" <> Some "result" ->
  Cache_get q (s_now s) (s_replyHandlers s) = Some (HSubscribe a (subkey_of config nodeId)) ->
  s_subs_props s !! subkey_of config nodeId = Some a ->
  s_subObjs s !! a = Some sub ->
  let K := subkey_of config nodeId in
  let r := emit_stanza config reply s in
  let s' := final_state r in
  let r2 := subscribe config nodeId c1 c2 q2 s' in
  (exists l,
     effects_of r =
       CallHandler (HSubscribe a K) reply ::
       map (fun p => CallOnError (onerror p) "failed") (sub_pending sub) ++ l /\
     Forall (fun e => is_stanza_handler_call e = true) l) /\
  (forall e snap, (e, snap) ∈ log_of r -> is_callback e = true ->
                  s_subs_props snap !! K = None) /\
  s_subs_props s' !! K = None /\
  entry_of config s' nodeId = None /\
  s_subs_props (final_state r2) !! K = Some (S (s_next s')) /\
  entry_of config (final_state r2) nodeId =
    Some {| sub_state := subscribing;
            sub_pending := [{| onsub := c1; onerror := c2 |}];
            sub_userData := s_next s' |} /\
  sends (effects_of r2) =
    (if has_presence config s' then [] else [OPresence (s_jid s') (channelDomain config)]) ++
    [OIq (PSubscribe nodeId (s_jid s') true) (s_jid s') (channelDomain config) q2].
Proof.
  intros Hl Hls Hname Hid Hq Hr Hget Hp Ha. cbn zeta.
  destruct (emit_subscribe_reply reply q a _ s sub ls Hl Hls Hname Hid Hq Hget Ha)
    as (Ef & l & El & F).
  unfold after_subscribe_reply in *.
  destruct (decide (st_attrs reply !! "type" = Some "result")) as [Hn|_];
    [contradiction|].
  cbn [s_subs_props set_replyHandlers] in Ef, El.
  assert (Hgone : s_subs_props (final_state (emit_stanza config reply s))
                  !! subkey_of config nodeId = None).
  { rewrite Ef. cbn. apply lookup_delete_eq. }
  split; [|split; [|split; [exact Hgone | split]]].
  - exists (l.*1). split.
    + rewrite effects_of_log, El. cbn. rewrite fmap_app, <- !list_fmap_compose.
      reflexivity.
    + apply Forall_fmap. exact F.
  - intros e snap Hin Hcb. rewrite El in Hin.
    apply elem_of_cons in Hin as [Hin|Hin]; [by injection Hin as -> _|].
    apply elem_of_app in Hin as [Hin|Hin].
    + apply list_elem_of_fmap in Hin as (p & [= -> ->] & _). cbn. apply lookup_delete_eq.
    + rewrite Forall_forall in F. specialize (F _ Hin). cbn in F. by destruct e.
  - unfold entry_of. by rewrite Hgone.
  - destruct (after_subscribe_absent nodeId c1 c2 q2 _ Hgone)
      as (E1 & E2 & _).
    split; [|split].
    + rewrite E1. apply lookup_insert_eq.
    + unfold entry_of. rewrite E1, lookup_insert_eq. cbn. rewrite E2.
      apply lookup_insert_eq.
    + rewrite (subscribe_absent nodeId c1 c2 q2 _ Hgone). unfold effects_of. cbn.
      by destruct (has_presence config _).
Qed.


Lemma final_state_elapse d s : final_state (step config (EvElapse d) s) = set_now (s_now s + d) s.
Proof. reflexivity. Qed.

Lemma effects_of_elapse d s : effects_of (step config (EvElapse d) s) = [].
Proof. reflexivity. Qed.

Lemma step_subscribe n c1 c2 q :
  step config (EvSubscribe n c1 c2 q) = subscribe config n c1 c2 q.
Proof. reflexivity. Qed.

Lemma step_stanza st : step config (EvStanza st) = emit_stanza config st.
Proof. reflexivity. Qed.

(** C2.  [subscribe] is called for a topic without entry, and again
    before the reply has come.  The second call sends nothing and leaves
    the entry [subscribing] with both callers pending, in the order of
    their calls; in all, one subscribe query has gone out.  When its reply
    arrives within the TTL both callers are called: [onsub] with the one
    [userData] object when the type is result, [onerror] otherwise. *)
Theorem subscribe_twice_one_request s nodeId c1 e1 c2 e2 q q2 d1 d2 reply ls :
  s_listeners s = LMain :: ls ->
  Forall (fun l => l <> LMain) ls ->
  s_subs_props s !! subkey_of config nodeId = None ->
  String.eqb (st_name reply) "message" = false ->
  st_attrs reply !! "id" = Some q ->
  q <> "" ->
  (d1 + d2 < cache_ttl (s_replyHandlers s))%nat ->
  let K := subkey_of config nodeId in
  let u := s_next s in
  let a := S u in
  let first := [EvSubscribe nodeId c1 e1 q; EvElapse d1] in
  let second := EvSubscribe nodeId c2 e2 q2 in
  let s2 := final_state (run config first s) in
  let s4 := final_state (run config (first ++ [second; EvElapse d2]) s) in
  sends (effects_of (run config (first ++ [second; EvElapse d2]) s)) =
    (if has_presence config s then [] else [OPresence (s_jid s) (channelDomain config)]) ++
    [OIq (PSubscribe nodeId (s_jid s) true) (s_jid s) (channelDomain config) q] /\
  effects_of (step config second s2) = [] /\
  s_replyHandlers (final_state (step config second s2)) = s_replyHandlers s2 /\
  entry_of config s4 nodeId =
    Some {| sub_state := subscribing;
            sub_pending := [{| onsub := c1; onerror := e1 |};
                            {| onsub := c2; onerror := e2 |}];
            sub_userData := u |} /\
  exists l,
    effects_of (step config (EvStanza reply) s4) =
      CallHandler (HSubscribe a K) reply ::
      (if decide (st_attrs reply !! "type" = Some "result")
       then [CallOnSub c1 u; CallOnSub c2 u]
       else [CallOnError e1 "failed"; CallOnError e2 "failed"]) ++ l /\
    Forall (fun e => is_stanza_handler_call e = true) l.
Proof.
  intros Hl Hls Hp Hname Hid Hq Hd. cbn zeta.
  destruct (after_subscribe_absent nodeId c1 e1 q s Hp)
    as (P1 & O1 & U1 & R1 & L1 & N1 & J1 & X1 & _).
  set (s1 := final_state (subscribe config nodeId c1 e1 q s)) in *.
  set (sub0 := {| sub_state := subscribing;
                  sub_pending := [{| onsub := c1; onerror := e1 |}];
                  sub_userData := s_next s |}) in *.
  assert (Es2 : final_state (run config [EvSubscribe nodeId c1 e1 q; EvElapse d1] s) =
                set_now (s_now s1 + d1) s1).
  { by rewrite !final_state_run_cons. }
  assert (Hp2 : s_subs_props (set_now (s_now s1 + d1) s1) !! subkey_of config nodeId =
                Some (S (s_next s))).
  { cbn. rewrite P1. apply lookup_insert_eq. }
  assert (Ho2 : s_subObjs (set_now (s_now s1 + d1) s1) !! S (s_next s) = Some sub0).
  { cbn. rewrite O1. apply lookup_insert_eq. }
  pose proof (subscribe_subscribing nodeId c2 e2 q2 _ _ _ Hp2 Ho2 eq_refl) as E3.
  cbn [sub0 sub_pending sub_userData app] in E3.
  split; [|split; [|split; [|split]]].
  - cbn [app]. rewrite !effects_of_run_cons, !step_subscribe. fold s1.
    rewrite !effects_of_elapse, !final_state_elapse, E3.
    change (effects_of (run config [] _)) with (@nil Effect).
    cbn [effects_of fst snd fmap list_fmap app]. rewrite app_nil_r.
    unfold s1. rewrite (subscribe_absent nodeId c1 e1 q s Hp). cbn.
    by destruct (has_presence config s).
  - rewrite Es2, step_subscribe. by rewrite E3.
  - rewrite Es2, step_subscribe. by rewrite E3.
  - cbn [app]. rewrite !final_state_run_cons, !step_subscribe. fold s1.
    rewrite !final_state_elapse, E3. cbn [final_state fst].
    unfold entry_of. cbn. rewrite P1, lookup_insert_eq. cbn. apply lookup_insert_eq.
  - cbn [app]. rewrite !final_state_run_cons, !step_subscribe, step_stanza. fold s1.
    rewrite !final_state_elapse, E3. cbn [final_state fst].
    rewrite final_state_run_nil.
    match goal with |- context [emit_stanza config reply ?s4] =>
      destruct (emit_subscribe_reply reply q (S (s_next s)) (subkey_of config nodeId) s4
                  {| sub_state := subscribing;
                     sub_pending := [{| onsub := c1; onerror := e1 |};
                                     {| onsub := c2; onerror := e2 |}];
                     sub_userData := s_next s |} ls)
        as (_ & l & El & F)
    end; try done.
    + cbn. by rewrite L1.
    + cbn. rewrite R1, N1. apply Cache_get_put. lia.
    + cbn. apply lookup_insert_eq.
    + exists (l.*1). split; [|by apply Forall_fmap].
      rewrite effects_of_log, El.
      destruct (decide (st_attrs reply !! "type" = Some "result")); reflexivity.
Qed.


(** ** Sessions in order stay in order *)

Lemma persist_refl s : persist s s.
Proof. by intros K a H1 H2. Qed.

Lemma persist_trans s1 s2 s3 : persist s1 s2 -> persist s2 s3 -> persist s1 s3.
Proof.
  intros H12 H23 K a H1 H2. destruct (H12 K a H1 H2) as [Hp Ho].
  destruct (H23 K a Hp) as [Hp' Ho'].
  - unfold state_at in *. by rewrite Ho.
  - split; [exact Hp' | congruence].
Qed.

Lemma session_ok_new id jid now : session_ok config (Session_new config id jid now).
Proof.
  split; cbn.
  - exists []. split; [reflexivity | constructor].
  - reflexivity.
  - split; reflexivity.
  - intros K a H. by rewrite lookup_empty in H.
  - intros k a K t H. by rewrite lookup_empty in H.
  - intros k1 k2 a K1 K2 t1 t2 H. by rewrite lookup_empty in H.
  - intros a _. apply lookup_empty.
  - intros K1 K2 a H. by rewrite lookup_empty in H.
  - intros a1 a2 sub1 sub2 H. by rewrite lookup_empty in H.
  - intros a sub H. by rewrite lookup_empty in H.
Qed.

(** A frame: [s'] differs from [s] in the clock, the [userData] objects
    (none removed) and the listeners appended by [onStanza]. *)
Lemma session_ok_frame s s' :
  session_ok config s ->
  s_replyHandlers s' = s_replyHandlers s ->
  s_subs s' = s_subs s ->
  s_subs_props s' = s_subs_props s ->
  s_subObjs s' = s_subObjs s ->
  s_next s' = s_next s ->
  (forall u, is_Some (s_userDatas s !! u) -> is_Some (s_userDatas s' !! u)) ->
  (exists ls, s_listeners s' = LMain :: ls /\ Forall (fun l => l <> LMain) ls) ->
  session_ok config s' /\ persist s s'.
Proof.
  intros [H1 H2 H3 H4 H5 H6 H7 H8 H9 H10] Er Es Ep Eo En Hu Hl. split.
  - split; rewrite ?Er, ?Es, ?Ep, ?Eo, ?En; try assumption.
    + intros K a HK. destruct (H4 K a HK) as (sub & Hs & Hud). eauto.
    + intros k a K t Hk. unfold state_at. rewrite Eo. by apply (H5 k a K t).
  - intros K a HK Hst. by rewrite Ep, Eo.
Qed.

Lemma session_ok_remove s k :
  session_ok config s ->
  session_ok config (set_replyHandlers (Cache_remove k (s_replyHandlers s)) s) /\
  persist s (set_replyHandlers (Cache_remove k (s_replyHandlers s)) s).
Proof.
  intros [H1 H2 H3 H4 H5 H6 H7 H8 H9 H10]. split; [|by intros K a HK Hst].
  split; cbn; try assumption.
  - intros k' a K t Hk. apply lookup_delete_Some in Hk as [_ Hk]. by apply (H5 k' a K t).
  - intros k1 k2 a K1 K2 t1 t2 Hk1 Hk2.
    apply lookup_delete_Some in Hk1 as [_ Hk1].
    apply lookup_delete_Some in Hk2 as [_ Hk2]. by eapply H6.
Qed.

Lemma session_ok_put_user s q cb t :
  session_ok config s ->
  session_ok config (set_replyHandlers (Cache_put q (HUser cb) t (s_replyHandlers s)) s) /\
  persist s (set_replyHandlers (Cache_put q (HUser cb) t (s_replyHandlers s)) s).
Proof.
  intros [H1 H2 H3 H4 H5 H6 H7 H8 H9 H10]. split; [|by intros K a HK Hst].
  split; cbn; try assumption.
  - intros k' a K t' Hk. apply lookup_insert_Some in Hk as [[_ [=]]|[_ Hk]].
    by apply (H5 k' a K t').
  - intros k1 k2 a K1 K2 t1 t2 Hk1 Hk2.
    apply lookup_insert_Some in Hk1 as [[_ [=]]|[_ Hk1]].
    apply lookup_insert_Some in Hk2 as [[_ [=]]|[_ Hk2]]. by eapply H6.
Qed.

(** Replacing the object at [a] by one with the same [userData]. *)
Lemma lookup_same_userData (m : gmap loc Sub) a sub sub' a' x :
  m !! a = Some sub ->
  sub_userData sub' = sub_userData sub ->
  <[a := sub']> m !! a' = Some x ->
  exists y, m !! a' = Some y /\ sub_userData y = sub_userData x.
Proof.
  intros Ha Hu Hx. apply lookup_insert_Some in Hx as [[<- <-]|[_ Hx]]; eauto.
Qed.

(** The reply handler of [a], held under [k], has run: success. *)
Lemma session_ok_success s k a K t sub :
  session_ok config s ->
  cache_data (s_replyHandlers s) !! k = Some (HSubscribe a K, t) ->
  s_subObjs s !! a = Some sub ->
  let s' := set_subObjs (<[a := as_subscribed sub]> (s_subObjs s))
              (set_replyHandlers (Cache_remove k (s_replyHandlers s)) s) in
  session_ok config s' /\ persist s s'.
Proof.
  intros [H1 H2 H3 H4 H5 H6 H7 H8 H9 H10] Hk Ha. cbn zeta. split.
  - split; cbn; try assumption.
    + intros K' a' HK. destruct (H4 K' a' HK) as (sub' & Hs & Hud).
      destruct (decide (a' = a)) as [->|Hne].
      * rewrite lookup_insert_eq. exists (as_subscribed sub). split; [reflexivity|].
        cbn. congruence.
      * rewrite lookup_insert_ne by done. eauto.
    + intros k' a' K' t' Hk'. apply lookup_delete_Some in Hk' as [Hne Hk'].
      destruct (H5 k' a' K' t' Hk') as [HK Hst]. split; [exact HK|].
      unfold state_at. cbn. rewrite lookup_insert_ne; [exact Hst|].
      intros ->. apply Hne. symmetry. by eapply H6.
    + intros k1 k2 a' K1 K2 t1 t2 Hk1 Hk2.
      apply lookup_delete_Some in Hk1 as [_ Hk1].
      apply lookup_delete_Some in Hk2 as [_ Hk2]. by eapply H6.
    + intros a' Ha'. rewrite lookup_insert_ne; [by apply H7|].
      intros ->. rewrite H7 in Ha by done. discriminate.
    + intros a1 a2 sub1 sub2 Hs1 Hs2 Hu.
      destruct (lookup_same_userData _ a sub (as_subscribed sub) a1 sub1 Ha eq_refl Hs1) as (y1 & Hy1 & E1).
      destruct (lookup_same_userData _ a sub (as_subscribed sub) a2 sub2 Ha eq_refl Hs2) as (y2 & Hy2 & E2).
      apply (H9 a1 a2 y1 y2 Hy1 Hy2). congruence.
    + intros a' sub' Hs'.
      destruct (lookup_same_userData _ a sub (as_subscribed sub) a' sub' Ha eq_refl Hs') as (y & Hy & E).
      rewrite <- E. by eapply H10.
  - intros K' a' HK Hst. split; [exact HK|]. cbn.
    destruct (H5 k a K t Hk) as [_ Hsta]. unfold state_at in *.
    rewrite lookup_insert_ne; [done|]. intros <-. congruence.
Qed.

(** The reply handler of [a], held under [k], has run: failure. *)
Lemma session_ok_failure s k a K t :
  session_ok config s ->
  cache_data (s_replyHandlers s) !! k = Some (HSubscribe a K, t) ->
  let s' := set_subs_props (delete K (s_subs_props s))
              (set_replyHandlers (Cache_remove k (s_replyHandlers s)) s) in
  session_ok config s' /\ persist s s'.
Proof.
  intros [H1 H2 H3 H4 H5 H6 H7 H8 H9 H10] Hk. cbn zeta.
  destruct (H5 k a K t Hk) as [HKa Hsta]. split.
  - split; cbn; try assumption.
    + intros K' a' HK. apply lookup_delete_Some in HK as [_ HK]. by apply H4 in HK.
    + intros k' a' K' t' Hk'. apply lookup_delete_Some in Hk' as [Hne Hk'].
      destruct (H5 k' a' K' t' Hk') as [HK Hst]. split; [|exact Hst].
      rewrite lookup_delete_ne; [exact HK|].
      intros <-. apply Hne. symmetry.
      assert (a' = a) as -> by congruence. by eapply H6.
    + intros k1 k2 a' K1 K2 t1 t2 Hk1 Hk2.
      apply lookup_delete_Some in Hk1 as [_ Hk1].
      apply lookup_delete_Some in Hk2 as [_ Hk2]. by eapply H6.
    + intros K1 K2 a' HK1 HK2.
      apply lookup_delete_Some in HK1 as [_ HK1].
      apply lookup_delete_Some in HK2 as [_ HK2]. by eapply H8.
  - intros K' a' HK Hst. split; [|reflexivity]. cbn.
    rewrite lookup_delete_ne; [exact HK|].
    intros <-. unfold state_at in *. assert (a' = a) as -> by congruence. congruence.
Qed.

Lemma ok_step_ret {A} (a : A) : ok_step config (mret a).
Proof. intros s H. cbn. auto using persist_refl. Qed.

Lemma ok_step_bind {A B} (m : M A) (f : A -> M B) :
  ok_step config m -> (forall a, ok_step config (f a)) -> ok_step config (m ≫= f).
Proof.
  intros Hm Hf s H. rewrite final_state_bind.
  destruct (Hm s H) as [H1 P1]. destruct (outcome_of (m s)) as [a|e]; [|auto].
  destruct (Hf a _ H1) as [H2 P2]. eauto using persist_trans.
Qed.

Lemma ok_step_for_each {A} (f : A -> M unit) xs :
  (forall x, ok_step config (f x)) -> ok_step config (for_each f xs).
Proof.
  intros Hf. induction xs as [|x r IH]; cbn [for_each].
  - apply ok_step_ret.
  - apply ok_step_bind; [apply Hf | intros _; apply IH].
Qed.

Lemma ok_step_settle m : ok_step config m -> ok_step config (settle m).
Proof. intros Hm s H. rewrite final_state_settle. by apply Hm. Qed.

Lemma ok_step_unchanged {A} (m : M A) :
  (forall s, final_state (m s) = s) -> ok_step config m.
Proof. intros E s H. rewrite E. auto using persist_refl. Qed.

Lemma ok_step_handle_event st : ok_step config (handle_event config st).
Proof.
  intros s H. destruct (only_userDatas_handle_event st s) as (E & Hu & _).
  rewrite E. apply session_ok_frame; try done.
  apply (ok_listeners _ _ H).
Qed.

Lemma state_at_Some s a st : state_at s a = Some st -> exists sub, s_subObjs s !! a = Some sub.
Proof. unfold state_at. destruct (s_subObjs s !! a); [eauto | discriminate]. Qed.

Lemma ok_step_handle_reply st : ok_step config (handle_reply st).
Proof.
  intros s H. unfold handle_reply.
  destruct (st_attrs st !! "id") as [id|]; [|by apply ok_step_ret].
  destruct (truthy (JStr id)); [|by apply ok_step_ret].
  rewrite final_state_bind. cbn.
  destruct (Cache_get id (s_now s) (s_replyHandlers s)) as [h|] eqn:Hget;
    [|by apply ok_step_ret].
  apply Cache_get_Some in Hget as (t & Hk & _).
  rewrite final_state_bind. cbn. destruct h as [cb|a K].
  - cbn. by apply session_ok_remove.
  - destruct (ok_handlers _ _ H id a K t Hk) as [_ Hst].
    apply state_at_Some in Hst as [sub Ha].
    destruct (decide (st_attrs st !! "type" = Some "result")) as [Hr|Hr].
    + rewrite (call_subscribe_handler_result a K st
                 (set_replyHandlers (Cache_remove id (s_replyHandlers s)) s) sub Hr Ha).
      by apply (session_ok_success s id a K t sub).
    + rewrite (call_subscribe_handler_failure a K st
                 (set_replyHandlers (Cache_remove id (s_replyHandlers s)) s) sub Hr Ha).
      by apply (session_ok_failure s id a K t).
Qed.

Lemma ok_step_expire_reply k : ok_step config (expire_reply k).
Proof.
  intros s H. unfold expire_reply. rewrite final_state_bind. cbn.
  destruct (Cache_due k (s_now s) (s_replyHandlers s)) as [h|] eqn:Hdue;
    [|by apply ok_step_ret].
  apply Cache_due_Some in Hdue as (t & Hk & _).
  rewrite (ok_onexpired _ _ H). rewrite final_state_bind. destruct h as [cb|a K].
  - cbn. by apply session_ok_remove.
  - destruct (ok_handlers _ _ H k a K t Hk) as [_ Hst].
    apply state_at_Some in Hst as [sub Ha].
    rewrite (call_subscribe_handler_failure a K service_unavailable s sub); [|done|done].
    cbn. by apply (session_ok_failure s k a K t).
Qed.

Lemma ok_step_expire_sub k : ok_step config (expire_sub k).
Proof.
  intros s H. unfold expire_sub. rewrite final_state_bind. cbn.
  unfold Cache_due. destruct (ok_subs_cache _ _ H) as [-> _]. rewrite lookup_empty.
  by apply ok_step_ret.
Qed.

Lemma ok_step_sendQuery iq cb q : ok_step config (sendQuery config iq (HUser cb) q).
Proof. intros s H. rewrite sendQuery_eq. by apply session_ok_put_user. Qed.

Lemma ok_step_onStanza_callback sh st : ok_step config (onStanza_callback sh st).
Proof.
  apply ok_step_unchanged. intros s. unfold onStanza_callback.
  rewrite final_state_bind. cbn. by destruct (sh_done sh st).
Qed.

Lemma ok_step_emit_stanza st : ok_step config (emit_stanza config st).
Proof.
  unfold emit_stanza. apply ok_step_bind; [by apply ok_step_unchanged|].
  intros s0. apply ok_step_for_each. intros [|sh]; cbn [run_listener].
  - unfold stanza_listener. apply ok_step_bind; [apply ok_step_handle_event|].
    intros _. apply ok_step_handle_reply.
  - apply ok_step_onStanza_callback.
Qed.


Lemma session_ok_subscribe_absent nodeId c1 c2 q s :
  session_ok config s ->
  s_subs_props s !! subkey_of config nodeId = None ->
  session_ok config (final_state (subscribe config nodeId c1 c2 q s)) /\
  persist s (final_state (subscribe config nodeId c1 c2 q s)).
Proof.
  intros H Hp.
  destruct (after_subscribe_absent nodeId c1 c2 q s Hp)
    as (P1 & O1 & U1 & R1 & L1 & N1 & J1 & X1 & S1 & _).
  pose proof H as [H1 H2 H3 H4 H5 H6 H7 H8 H9 H10].
  set (s1 := final_state (subscribe config nodeId c1 c2 q s)) in *.
  assert (Hfresh : s_subObjs s !! S (s_next s) = None) by (apply H7; lia).
  assert (Hold : forall K a, s_subs_props s !! K = Some a -> a <> S (s_next s)).
  { intros K a HK ->. destruct (H4 _ _ HK) as (sub & Hs & _). congruence. }
  split.
  - split.
    + by rewrite L1.
    + by rewrite R1.
    + by rewrite S1.
    + intros K a. rewrite P1, O1, U1. intros HK.
      apply lookup_insert_Some in HK as [[_ <-]|[_ HK]].
      * rewrite lookup_insert_eq. eexists. split; [reflexivity|]. cbn.
        rewrite lookup_insert_eq. eauto.
      * destruct (H4 K a HK) as (sub & Ha & Hud).
        rewrite lookup_insert_ne by (intros <-; congruence).
        exists sub. split; [exact Ha|].
        destruct (decide (s_next s = sub_userData sub)) as [<-|Hne].
        -- rewrite lookup_insert_eq. eauto.
        -- by rewrite lookup_insert_ne.
    + intros k a K t. rewrite R1, P1. unfold state_at. rewrite O1. cbn. intros Hk.
      apply lookup_insert_Some in Hk as [[_ [= <- <- _]]|[_ Hk]].
      * by rewrite !lookup_insert_eq.
      * destruct (H5 k a K t Hk) as [HK Hst]. unfold state_at in Hst.
        rewrite !lookup_insert_ne; [done | | ].
        -- intros <-. rewrite Hfresh in Hst. discriminate.
        -- intros <-. congruence.
    + intros k1 k2 a K1 K2 t1 t2. rewrite R1. cbn. intros Hk1 Hk2.
      apply lookup_insert_Some in Hk1 as [[<- [= <- <- _]]|[Hn1 Hk1]];
        apply lookup_insert_Some in Hk2 as [[<- E2]|[Hn2 Hk2]]; try done.
      * destruct (H5 _ _ _ _ Hk2) as [_ Hst]. unfold state_at in Hst.
        rewrite Hfresh in Hst. discriminate.
      * injection E2 as <- <- _. destruct (H5 _ _ _ _ Hk1) as [_ Hst].
        unfold state_at in Hst. rewrite Hfresh in Hst. discriminate.
      * by eapply H6.
    + intros a. rewrite X1, O1. intros Ha. rewrite lookup_insert_ne by lia.
      apply H7. lia.
    + intros K1 K2 a. rewrite P1. intros HK1 HK2.
      apply lookup_insert_Some in HK1 as [[<- <-]|[Hn1 HK1]];
        apply lookup_insert_Some in HK2 as [[<- E2]|[Hn2 HK2]]; try done.
      * by destruct (Hold _ _ HK2).
      * subst a. by destruct (Hold _ _ HK1).
      * by eapply H8.
    + intros a1 a2 sub1 sub2. rewrite O1. intros Hs1 Hs2 Hu.
      apply lookup_insert_Some in Hs1 as [[<- <-]|[Hn1 Hs1]];
        apply lookup_insert_Some in Hs2 as [[<- E2]|[Hn2 Hs2]]; try done.
      * cbn in Hu. apply H10 in Hs2. lia.
      * subst sub2. cbn in Hu. apply H10 in Hs1. lia.
      * by eapply H9.
    + intros a sub. rewrite O1, X1. intros Hs.
      apply lookup_insert_Some in Hs as [[_ <-]|[_ Hs]]; [cbn; lia|].
      apply H10 in Hs. lia.
  - intros K a HK Hst. rewrite P1, O1. split.
    + rewrite lookup_insert_ne; [done | intros <-; congruence].
    + rewrite lookup_insert_ne; [done|]. intros <-. unfold state_at in Hst.
      rewrite Hfresh in Hst. discriminate.
Qed.

Lemma session_ok_more_pending s a sub p :
  session_ok config s ->
  s_subObjs s !! a = Some sub ->
  sub_state sub = subscribing ->
  let s' := set_subObjs
              (<[a := {| sub_state := subscribing; sub_pending := sub_pending sub ++ [p];
                         sub_userData := sub_userData sub |}]> (s_subObjs s)) s in
  session_ok config s' /\ persist s s'.
Proof.
  intros [H1 H2 H3 H4 H5 H6 H7 H8 H9 H10] Ha Hsub. cbn zeta.
  assert (Hst : forall a', state_at (set_subObjs
              (<[a := {| sub_state := subscribing; sub_pending := sub_pending sub ++ [p];
                         sub_userData := sub_userData sub |}]> (s_subObjs s)) s) a' =
                      state_at s a').
  { intros a'. unfold state_at. cbn. destruct (decide (a' = a)) as [->|Hne].
    - rewrite lookup_insert_eq, Ha. cbn. by rewrite Hsub.
    - by rewrite lookup_insert_ne. }
  split.
  - split; cbn; try assumption.
    + intros K a' HK. destruct (H4 K a' HK) as (sub' & Hs & Hud).
      destruct (decide (a' = a)) as [->|Hne].
      * rewrite lookup_insert_eq. eexists. split; [reflexivity|]. cbn. congruence.
      * rewrite lookup_insert_ne by done. eauto.
    + intros k a' K t Hk. rewrite Hst. by apply (H5 k a' K t).
    + intros a' Ha'. rewrite lookup_insert_ne; [by apply H7|].
      intros ->. rewrite H7 in Ha by done. discriminate.
    + intros a1 a2 sub1 sub2 Hs1 Hs2 Hu.
      destruct (lookup_same_userData _ a sub
                  {| sub_state := subscribing; sub_pending := sub_pending sub ++ [p];
                     sub_userData := sub_userData sub |} a1 sub1 Ha eq_refl Hs1) as (y1 & Hy1 & E1).
      destruct (lookup_same_userData _ a sub
                  {| sub_state := subscribing; sub_pending := sub_pending sub ++ [p];
                     sub_userData := sub_userData sub |} a2 sub2 Ha eq_refl Hs2) as (y2 & Hy2 & E2).
      apply (H9 a1 a2 y1 y2 Hy1 Hy2). congruence.
    + intros a' sub' Hs'.
      destruct (lookup_same_userData _ a sub
                  {| sub_state := subscribing; sub_pending := sub_pending sub ++ [p];
                     sub_userData := sub_userData sub |} a' sub' Ha eq_refl Hs') as (y & Hy & E).
      rewrite <- E. by eapply H10.
  - intros K a' HK Hs. split; [exact HK|]. cbn.
    rewrite lookup_insert_ne; [done|]. intros <-. unfold state_at in Hs.
    rewrite Ha in Hs. cbn in Hs. congruence.
Qed.

Lemma ok_step_subscribe nodeId c1 c2 q : ok_step config (subscribe config nodeId c1 c2 q).
Proof.
  intros s H.
  destruct (s_subs_props s !! subkey_of config nodeId) as [a|] eqn:Hp;
    [|by apply session_ok_subscribe_absent].
  destruct (ok_props _ _ H _ a Hp) as (sub & Ha & _).
  destruct (sub_state sub) eqn:Hst.
  - rewrite (subscribe_subscribing nodeId c1 c2 q s a sub Hp Ha Hst).
    by apply (session_ok_more_pending s a sub {| onsub := c1; onerror := c2 |} H Ha).
  - rewrite (subscribe_subscribed nodeId c1 c2 q s a sub Hp Ha Hst).
    auto using persist_refl.
Qed.

Lemma ok_step_step ev : ok_step config (step config ev).
Proof.
  destruct ev as [st|iq cb q|nodeId c1 c2 q|sh|d|k|k]; cbn [step].
  - apply ok_step_emit_stanza.
  - apply ok_step_sendQuery.
  - apply ok_step_subscribe.
  - intros s H. apply session_ok_frame; try done.
    destruct (ok_listeners _ _ H) as (ls & E & F). exists (ls ++ [LOnStanza sh]).
    split; [cbn; by rewrite E|]. apply Forall_app. split; [exact F|]. by repeat constructor.
  - intros s H. apply session_ok_frame; try done. apply (ok_listeners _ _ H).
  - apply ok_step_expire_reply.
  - apply ok_step_expire_sub.
Qed.

Lemma ok_step_run evs : ok_step config (run config evs).
Proof. unfold run. apply ok_step_for_each. intros ev. apply ok_step_settle, ok_step_step. Qed.

Lemma session_ok_run evs s :
  session_ok config s -> session_ok config (final_state (run config evs s)).
Proof. intros H. by apply ok_step_run. Qed.

(** Every session that the constructor made and that has reacted to
    events since is in order. *)
Lemma session_ok_reachable id jid now evs :
  session_ok config (final_state (run config evs (Session_new config id jid now))).
Proof. apply session_ok_run, session_ok_new. Qed.


(** ** An entry and its [userData] between two publish events *)

Lemma append_cancel_l (p a b : string) : p +:+ a = p +:+ b -> a = b.
Proof. induction p as [|c p IH]; cbn; [done|]. intros [= H]. by apply IH. Qed.

Lemma subkey_of_inj n1 n2 : subkey_of config n1 = subkey_of config n2 -> n1 = n2.
Proof.
  unfold subkey_of. intros H. apply append_cancel_l in H. by apply append_cancel_l in H.
Qed.

Lemma handle_event_no_items st s :
  st_items st = None -> handle_event config st s = (s, [], Returned tt).
Proof. intros H. unfold handle_event. rewrite H. by destruct (String.eqb _ _). Qed.

Lemma handle_event_no_entry st items s :
  st_items st = Some items ->
  s_subs_props s !! subkey_of config (items_node items) = None ->
  handle_event config st s = (s, [], Returned tt).
Proof.
  intros Hi Hp. unfold handle_event. rewrite Hi. destruct (String.eqb _ _); [|done].
  unfold mbind, M_bind. cbn [get_session]. unfold subkey_of in Hp. by rewrite Hp.
Qed.

Lemma entry_intact_next nodeId a sub d s s' :
  entry_intact config nodeId a sub d s ->
  sub_state sub = subscribed ->
  session_ok config s' ->
  persist s s' ->
  s_userDatas s' !! sub_userData sub = s_userDatas s !! sub_userData sub ->
  entry_intact config nodeId a sub d s'.
Proof.
  intros (H & Hp & Ha & Hu) Hst H' P E.
  destruct (P _ _ Hp) as [Hp' Ha'].
  { unfold state_at. by rewrite Ha, <- Hst. }
  split; [exact H' | split; [exact Hp' | split; congruence]].
Qed.

Lemma subscribe_onreply_userDatas a K reply s :
  s_userDatas (final_state (subscribe_onreply a K reply s)) = s_userDatas s.
Proof.
  destruct (s_subObjs s !! a) as [sub|] eqn:Ha.
  - destruct (decide (st_attrs reply !! "type" = Some "result")) as [Hr|Hr].
    + by rewrite (subscribe_onreply_result a K reply s sub Hr Ha).
    + by rewrite (subscribe_onreply_failure a K reply s sub Hr Ha).
  - unfold subscribe_onreply, read_sub.
    destruct (decide _); unfold mbind, M_bind; by rewrite Ha.
Qed.

Lemma call_handler_userDatas h reply s :
  s_userDatas (final_state (call_handler h reply s)) = s_userDatas s.
Proof.
  unfold call_handler. rewrite final_state_bind. cbn.
  destruct h as [cb|a K]; [reflexivity | apply subscribe_onreply_userDatas].
Qed.

Lemma handle_reply_userDatas st s :
  s_userDatas (final_state (handle_reply st s)) = s_userDatas s.
Proof.
  unfold handle_reply.
  destruct (st_attrs st !! "id") as [id|]; [|reflexivity].
  destruct (truthy (JStr id)); [|reflexivity].
  rewrite final_state_bind. cbn.
  destruct (Cache_get id (s_now s) (s_replyHandlers s)) as [h|]; [|reflexivity].
  rewrite final_state_bind. cbn. by rewrite call_handler_userDatas.
Qed.

Lemma expire_reply_userDatas k s :
  s_userDatas (final_state (expire_reply k s)) = s_userDatas s.
Proof.
  unfold expire_reply. rewrite final_state_bind. cbn.
  destruct (Cache_due k (s_now s) (s_replyHandlers s)) as [h|]; [|reflexivity].
  rewrite final_state_bind.
  destruct (cache_onexpired (s_replyHandlers s)) as [[|]|]; cbn; try reflexivity.
  destruct (outcome_of (call_handler h service_unavailable s)); cbn;
    by rewrite call_handler_userDatas.
Qed.

Section Intact.
Variables (nodeId : string) (a : loc) (sub : Sub).
Hypothesis Hsubscribed : sub_state sub = subscribed.

Lemma intact_by_ok_step {A} (m : M A) d :
  ok_step config m ->
  (forall s, session_ok config s ->
             s_userDatas s !! sub_userData sub = Some d ->
             s_userDatas (final_state (m s)) !! sub_userData sub = Some d) ->
  keeps (fun s _ => entry_intact config nodeId a sub d s) m.
Proof.
  intros Hok Hu s l0 H. pose proof H as (Hs & _ & _ & Hd).
  destruct (Hok s Hs) as [H' P].
  apply (entry_intact_next nodeId a sub d s); try done.
  rewrite Hd. by apply Hu.
Qed.

Lemma intact_handle_event st d :
  quiet nodeId (EvStanza st) ->
  keeps (fun s _ => entry_intact config nodeId a sub d s) (handle_event config st).
Proof.
  intros Hq s l0 H. pose proof H as (Hs & Hp & Ha & Hd).
  destruct (ok_step_handle_event st s Hs) as [H' P].
  apply (entry_intact_next nodeId a sub d s); try done.
  destruct (String.eqb (st_name st) "message") eqn:Hname;
    [|by rewrite handle_event_not_message].
  apply String.eqb_eq in Hname.
  destruct (st_items st) as [items|] eqn:Hitems; [|by rewrite handle_event_no_items].
  destruct (s_subs_props s !! subkey_of config (items_node items)) as [a'|] eqn:Hp';
    [|by rewrite (handle_event_no_entry st items)].
  destruct (ok_props _ _ Hs _ _ Hp') as (sub' & Ha' & [d' Hd']).
  destruct (handle_event_publish st (items_node items) (items_entries items) s a' sub' d')
    as (uds & l & o & -> & Hother & _); try done.
  { split; [exact Hname|]. rewrite Hitems. by destruct items. }
  cbn. apply Hother. intros Hu.
  assert (a = a') as <- by (by apply (ok_userData _ _ Hs a a' sub sub')).
  apply (Hq Hname items Hitems). apply subkey_of_inj.
  by apply (ok_inj _ _ Hs _ _ a).
Qed.

Lemma intact_emit_stanza st d :
  quiet nodeId (EvStanza st) ->
  keeps (fun s _ => entry_intact config nodeId a sub d s) (emit_stanza config st).
Proof.
  intros Hq. unfold emit_stanza. apply keeps_bind.
  { intros s l0 H. exact H. }
  intros s0. apply keeps_for_each. intros [|sh]; cbn [run_listener].
  - unfold stanza_listener. apply keeps_bind; [by apply intact_handle_event|].
    intros _. apply intact_by_ok_step; [apply ok_step_handle_reply|].
    intros s _ Hd. by rewrite handle_reply_userDatas.
  - apply intact_by_ok_step; [apply ok_step_onStanza_callback|].
    intros s _ Hd. unfold onStanza_callback. rewrite final_state_bind. cbn.
    by destruct (sh_done sh st).
Qed.

Lemma intact_step ev d :
  quiet nodeId ev ->
  keeps (fun s _ => entry_intact config nodeId a sub d s) (step config ev).
Proof.
  intros Hq. destruct ev as [st|iq cb q|n c1 c2 q|sh|t|k|k]; cbn [step].
  - by apply intact_emit_stanza.
  - apply intact_by_ok_step; [apply ok_step_sendQuery|]. intros s _ Hd.
    by rewrite sendQuery_eq.
  - intros s l0 H. pose proof H as (Hs & Hp & Ha & Hd).
    destruct (ok_step_subscribe n c1 c2 q s Hs) as [H' P].
    apply (entry_intact_next nodeId a sub d s); try done.
    destruct (s_subs_props s !! subkey_of config n) as [a'|] eqn:Hp'.
    + destruct (ok_props _ _ Hs _ _ Hp') as (sub' & Ha' & _).
      destruct (sub_state sub') eqn:Hst'.
      * by rewrite (subscribe_subscribing n c1 c2 q s a' sub' Hp' Ha' Hst').
      * by rewrite (subscribe_subscribed n c1 c2 q s a' sub' Hp' Ha' Hst').
    + destruct (after_subscribe_absent n c1 c2 q s Hp') as (_ & _ & -> & _).
      rewrite lookup_insert_ne; [done|].
      pose proof (ok_userData_lt _ _ Hs a sub Ha). lia.
  - apply intact_by_ok_step; [apply (ok_step_step (EvOnStanza sh))|]. by intros s _ Hd.
  - apply intact_by_ok_step; [apply (ok_step_step (EvElapse t))|]. by intros s _ Hd.
  - apply intact_by_ok_step; [apply ok_step_expire_reply|]. intros s _ Hd.
    by rewrite expire_reply_userDatas.
  - apply intact_by_ok_step; [apply ok_step_expire_sub|]. intros s _ Hd.
    unfold expire_sub. rewrite final_state_bind. cbn.
    by destruct (Cache_due k (s_now s) (s_subs s)).
Qed.

Lemma intact_run evs d s :
  Forall (quiet nodeId) evs ->
  entry_intact config nodeId a sub d s ->
  entry_intact config nodeId a sub d (final_state (run config evs s)).
Proof.
  intros Hq H. unfold run.
  apply (keeps_for_each_in (fun s _ => entry_intact config nodeId a sub d s)
           (fun ev => settle (step config ev)) evs) with (l0 := []); [|exact H].
  intros ev Hev. apply keeps_settle, intact_step.
  rewrite Forall_forall in Hq. by apply Hq.
Qed.

End Intact.

(** A publish event for a subscribed entry, whatever the fan-out does:
    the entry stays, and the items of the event are appended to those its
    [userData] object holds. *)
Lemma emit_publish_event_items st nodeId es s a sub d :
  sub_state sub = subscribed ->
  entry_intact config nodeId a sub d s ->
  is_publish_event st nodeId es ->
  exists d',
    entry_intact config nodeId a sub d' (final_state (emit_stanza config st s)) /\
    ud_items d' = Some (items_of (initialised st d) ++ map make_item es).
Proof.
  intros Hst (Hs & Hp & Ha & Hu) Hev.
  destruct (ok_listeners _ _ Hs) as (ls & Hl & Hls).
  destruct (emit_stanza_ok st s ls Hl Hls) as (Ef & _).
  destruct (handle_event_publish st nodeId es s a sub d Hev Hp Ha Hu)
    as (uds & l & o & E & _ & H).
  assert (exists d', uds !! sub_userData sub = Some d' /\
                     ud_items d' = Some (items_of (initialised st d) ++ map make_item es))
    as (d' & Hd' & Hitems).
  { cbn in H. destruct (truthy (fanoutRealm config)); [destruct (last _)|];
      destruct H as (-> & _); eauto. }
  exists d'. split; [|exact Hitems].
  assert (Hi : entry_intact config nodeId a sub d' (set_userDatas uds s)).
  { split; [|by split].
    replace (set_userDatas uds s) with (final_state (handle_event config st s))
      by (by rewrite E).
    by apply ok_step_handle_event. }
  rewrite Ef. unfold stanza_listener. rewrite final_state_bind, E.
  cbn [outcome_of final_state fst snd].
  destruct o as [[]|e]; [|exact Hi].
  apply (intact_by_ok_step nodeId a sub Hst (handle_reply st) _
           (ok_step_handle_reply st)) with (l0 := []); [|exact Hi].
  intros s' _ Hd. by rewrite handle_reply_userDatas.
Qed.

(** C3, as the code has it.  When the reply to the subscribe query has
    type result, the entry becomes [subscribed]; every pending [onsub] is
    called, in order, with the address of the one [userData] object of the
    entry; the entry is still in [_subs]; the pending list is left as it
    is.  Whatever the session reacts to next, the items of the next publish
    event for the topic go into that same [userData] object, after those it
    held. *)
Theorem subscribe_success_reply reply q nodeId a s sub d st es evs :
  session_ok config s ->
  String.eqb (st_name reply) "message" = false ->
  st_attrs reply !! "id" = Some q ->
  q <> "" ->
  st_attrs reply !! "type" = Some "result" ->
  Cache_get q (s_now s) (s_replyHandlers s) = Some (HSubscribe a (subkey_of config nodeId)) ->
  s_subObjs s !! a = Some sub ->
  s_userDatas s !! sub_userData sub = Some d ->
  is_publish_event st nodeId es ->
  Forall (quiet nodeId) evs ->
  let s' := final_state (step config (EvStanza reply) s) in
  let s'' := final_state (step config (EvStanza st) (final_state (run config evs s'))) in
  entry_of config s' nodeId = Some (as_subscribed sub) /\
  sub_pending (as_subscribed sub) = sub_pending sub /\
  sub_userData (as_subscribed sub) = sub_userData sub /\
  (exists l,
     effects_of (step config (EvStanza reply) s) =
       CallHandler (HSubscribe a (subkey_of config nodeId)) reply ::
       map (fun p => CallOnSub (onsub p) (sub_userData sub)) (sub_pending sub) ++ l /\
     Forall (fun e => is_stanza_handler_call e = true) l) /\
  s_userDatas s' !! sub_userData sub = Some d /\
  entry_of config s'' nodeId = Some (as_subscribed sub) /\
  (exists d', s_userDatas s'' !! sub_userData sub = Some d' /\
              ud_items d' = Some (items_of (initialised st d) ++ map make_item es)).
Proof.
  intros Hs Hname Hid Hq Hr Hget Ha Hu Hev Hquiet. cbn zeta. rewrite !step_stanza.
  destruct (ok_listeners _ _ Hs) as (ls & Hl & Hls).
  destruct (Cache_get_Some _ _ _ _ Hget) as (t & Hdata & _).
  destruct (ok_handlers _ _ Hs _ _ _ _ Hdata) as [Hp _].
  destruct (emit_subscribe_reply reply q a _ s sub ls Hl Hls Hname Hid Hq Hget Ha)
    as (Ef & l & El & F).
  unfold after_subscribe_reply in *.
  destruct (decide (st_attrs reply !! "type" = Some "result")) as [_|Hn];
    [|contradiction].
  assert (Hi : entry_intact config nodeId a (as_subscribed sub) d
                 (final_state (emit_stanza config reply s))).
  { split; [by apply ok_step_emit_stanza|]. rewrite Ef. cbn.
    split; [exact Hp | split; [apply lookup_insert_eq | exact Hu]]. }
  pose proof (intact_run nodeId a (as_subscribed sub) eq_refl evs d _ Hquiet Hi) as Hi'.
  destruct (emit_publish_event_items st nodeId es _ a (as_subscribed sub) d
              eq_refl Hi' Hev) as (d' & (_ & Hp'' & Ha'' & Hu'') & Hitems).
  split; [|split; [reflexivity | split; [reflexivity | split; [|split; [|split]]]]].
  - destruct Hi as (_ & Hp' & Ha' & _). unfold entry_of. rewrite Hp'. exact Ha'.
  - exists (l.*1). split.
    + rewrite effects_of_log, El. cbn. rewrite fmap_app, <- !list_fmap_compose.
      reflexivity.
    + apply Forall_fmap. exact F.
  - by destruct Hi as (_ & _ & _ & Hu').
  - unfold entry_of. rewrite Hp''. exact Ha''.
  - exists d'. by split.
Qed.


(** A publish event for a subscribed entry, with fan-out configured and an
    item to publish: the emission, and the entry afterwards. *)
Lemma emit_publish_event_intact st nodeId es s a sub d item :
  truthy (fanoutRealm config) = true ->
  sub_state sub = subscribed ->
  entry_intact config nodeId a sub d s ->
  is_publish_event st nodeId es ->
  let d0 := initialised st d in
  let its := items_of d0 ++ map make_item es in
  last its = Some item ->
  entry_intact config nodeId a sub
    (with_lastPublishedId (with_items d0 its) (JStr (fanout_id item)))
    (final_state (emit_stanza config st s)) /\
  posts (effects_of (emit_stanza config st s)) =
    emission (fanout_id item) (ud_lastPublishedId d0) (feed_of nodeId (ud_from d0) es).
Proof.
  intros Hrealm Hst (Hs & Hp & Ha & Hu) Hev d0 its Hlast.
  destruct (ok_listeners _ _ Hs) as (ls & Hl & Hls).
  destruct (emit_publish_event st nodeId es s a sub d ls item
              Hrealm Hl Hls Hev Hp Ha Hu Hlast) as (uds & E & Ef & Hlk & Hposts).
  split; [|exact Hposts]. rewrite Ef.
  apply (intact_by_ok_step nodeId a sub Hst (handle_reply st) _
           (ok_step_handle_reply st)) with (l0 := []).
  - intros s' _ Hd. by rewrite handle_reply_userDatas.
  - split; [|by split].
    rewrite <- E. by apply ok_step_handle_event.
Qed.

(** C6.  With fan-out configured, take a subscribed entry of a session in
    order, a publish event for its topic, then any events that are not
    publish events for that topic, then the next publish event for it.
    Each of the two gives an emission (posted as Atom and as JSON); the
    second carries as [prev-id] the [id] of the first; the first carries
    the id recorded before, and none at all when the entry had seen no
    publish event yet.  The id of an emission is the id of the latest
    item, an underscore and its time, which for the item of an entry is
    the update time cut to whole seconds (in milliseconds).  An emission
    needs an item: the first event finds or brings one. *)
Theorem fanout_prev_id_chain s st1 st2 nodeId es1 es2 item1 item2 a sub d evs :
  truthy (fanoutRealm config) = true ->
  session_ok config s ->
  s_subs_props s !! subkey_of config nodeId = Some a ->
  s_subObjs s !! a = Some sub ->
  sub_state sub = subscribed ->
  s_userDatas s !! sub_userData sub = Some d ->
  is_publish_event st1 nodeId es1 ->
  is_publish_event st2 nodeId es2 ->
  Forall (quiet nodeId) evs ->
  let d0 := initialised st1 d in
  last (items_of d0 ++ map make_item es1) = Some item1 ->
  last (items_of d0 ++ map make_item es1 ++ map make_item es2) = Some item2 ->
  let s1 := final_state (step config (EvStanza st1) s) in
  let s2 := final_state (run config evs s1) in
  posts (effects_of (step config (EvStanza st1) s)) =
    emission (fanout_id item1) (ud_lastPublishedId d0) (feed_of nodeId (ud_from d0) es1) /\
  posts (effects_of (step config (EvStanza st2) s2)) =
    emission (fanout_id item2) (JStr (fanout_id item1)) (feed_of nodeId (ud_from d0) es2) /\
  prev_id_of (JStr (fanout_id item1)) = Some (JStr (fanout_id item1)) /\
  (ud_items d = None -> prev_id_of (ud_lastPublishedId d0) = None) /\
  (forall e, fanout_id (make_item e) =
             entry_id e +:+ "_" +:+ pretty ((entry_updated e / 1000) * 1000)).
Proof.
  intros Hrealm Hs Hp Ha Hst Hu Hev1 Hev2 Hq d0 Hlast1 Hlast2. cbn zeta.
  rewrite !step_stanza.
  destruct (emit_publish_event_intact st1 nodeId es1 s a sub d item1 Hrealm Hst)
    as [H1 P1]; try done.
  pose proof (intact_run nodeId a sub Hst evs _ _ Hq H1) as H2.
  destruct (emit_publish_event_intact st2 nodeId es2 _ a sub _ item2 Hrealm Hst H2 Hev2)
    as [_ P2].
  { cbn. unfold items_of at 1. cbn. fold d0. by rewrite <- app_assoc. }
  split; [exact P1 | split; [exact P2 | split; [|split]]].
  - unfold prev_id_of. by rewrite fanout_id_truthy.
  - intros Hnew. unfold d0, initialised. by rewrite Hnew.
  - reflexivity.
Qed.


(** C10.  In a session that is in order (as every session made by the
    constructor is, whatever it has reacted to), an entry that is
    [subscribed] stays in [_subs], subscribed and with the same object,
    through every sequence of events: stanzas, calls, the passing of time
    and the expiry of cache entries.  The [_subs] cache itself never holds
    an entry and has no [onexpired]; its expiry does nothing. *)
Theorem subscription_never_evicted s nodeId a evs :
  session_ok config s ->
  s_subs_props s !! subkey_of config nodeId = Some a ->
  state_at s a = Some subscribed ->
  let s' := final_state (run config evs s) in
  s_subs_props s' !! subkey_of config nodeId = Some a /\
  state_at s' a = Some subscribed /\
  cache_data (s_subs s') = ∅ /\
  cache_onexpired (s_subs s') = None /\
  (forall k, step config (EvExpireSub k) s' = (s', [], Returned tt)).
Proof.
  intros H Hp Hst. cbn zeta.
  destruct (ok_step_run evs s H) as [H' P].
  destruct (P _ _ Hp Hst) as [Hp' Ho'].
  assert (Hst' : state_at (final_state (run config evs s)) a = Some subscribed).
  { unfold state_at in *. by rewrite Ho'. }
  destruct (ok_subs_cache _ _ H') as [Hd Ho].
  split; [exact Hp' | split; [exact Hst' | split; [exact Hd | split; [exact Ho|]]]].
  intros k. cbn [step]. unfold expire_sub, mbind, M_bind. cbn.
  unfold Cache_due. by rewrite Hd, lookup_empty.
Qed.

(** What [subscribe] does to the presence count when it creates an entry:
    without a recorded count it stores 1 and sends the presence; with one
    it sends no presence and stores nothing. *)
Lemma subscribe_presence_count s nodeId c1 c2 q :
  s_subs_props s !! subkey_of config nodeId = None ->
  let r := subscribe config nodeId c1 c2 q s in
  let iq := OIq (PSubscribe nodeId (s_jid s) true) (s_jid s) (channelDomain config) q in
  if has_presence config s
  then s_subsPresences (final_state r) = s_subsPresences s /\
       sends (effects_of r) = [iq]
  else s_subsPresences (final_state r) !! channelDomain config = Some 1 /\
       sends (effects_of r) = [OPresence (s_jid s) (channelDomain config); iq].
Proof.
  intros Hp. cbn zeta.
  destruct (after_subscribe_absent nodeId c1 c2 q s Hp) as (_ & _ & _ & _ & _ & _ & _ & _ & _ & E).
  rewrite E, (subscribe_absent nodeId c1 c2 q s Hp).
  destruct (has_presence config s); cbn.
  - auto.
  - by rewrite lookup_insert_eq.
Qed.

Lemma presences_app l1 l2 : presences (l1 ++ l2) = presences l1 ++ presences l2.
Proof. apply omap_app. Qed.

Lemma has_presence_after_subscribe nodeId c1 c2 q s :
  s_subs_props s !! subkey_of config nodeId = None ->
  has_presence config (final_state (subscribe config nodeId c1 c2 q s)) = true.
Proof.
  intros Hp.
  destruct (after_subscribe_absent nodeId c1 c2 q s Hp) as (_ & _ & _ & _ & _ & _ & _ & _ & _ & E).
  unfold has_presence at 1. rewrite E.
  destruct (has_presence config s) eqn:H; [exact H|].
  by rewrite lookup_insert_eq.
Qed.

(** Calls of [subscribe] for topics without entry, no two for the same
    topic: each creates an entry; the first sends the presence and stores
    the count 1 unless a count is recorded already, and the others neither
    send a presence nor change what is stored. *)
Lemma subscribe_calls_presence cs : forall s,
  NoDup (call_node <$> cs) ->
  Forall (fun c => s_subs_props s !! subkey_of config (call_node c) = None) cs ->
  let r := run config (subscribe_calls cs) s in
  size (s_subs_props (final_state r)) = (size (s_subs_props s) + length cs)%nat /\
  (if has_presence config s
   then s_subsPresences (final_state r) = s_subsPresences s /\
        presences (effects_of r) = []
   else cs <> [] ->
        s_subsPresences (final_state r) = <[channelDomain config := 1]> (s_subsPresences s) /\
        presences (effects_of r) = [OPresence (s_jid s) (channelDomain config)]).
Proof.
  induction cs as [|c cs IH]; intros s Hnd Habs; cbn zeta.
  - split; [cbn; lia|]. by destruct (has_presence config s).
  - apply NoDup_cons in Hnd as [Hnotin Hnd]. apply Forall_cons in Habs as [Hc Habs].
    cbn [subscribe_calls map]. fold (subscribe_calls cs).
    rewrite final_state_run_cons, effects_of_run_cons, step_subscribe.
    destruct (after_subscribe_absent (call_node c) (call_onsub c) (call_onerror c)
                (call_queryId c) s Hc) as (P1 & _ & _ & _ & _ & _ & J1 & _ & _ & E1).
    pose proof (has_presence_after_subscribe (call_node c) (call_onsub c) (call_onerror c)
                  (call_queryId c) s Hc) as Hpres.
    pose proof (subscribe_absent (call_node c) (call_onsub c) (call_onerror c)
                  (call_queryId c) s Hc) as Eq.
    set (s1 := final_state (subscribe config (call_node c) (call_onsub c) (call_onerror c)
                              (call_queryId c) s)) in *.
    destruct (IH s1 Hnd) as [Hsize Hrest].
    { rewrite Forall_forall in Habs |- *. intros c' Hin. rewrite P1.
      rewrite lookup_insert_ne; [by apply Habs|].
      intros Heq. apply subkey_of_inj in Heq. apply Hnotin. rewrite Heq.
      by apply list_elem_of_fmap_2. }
    rewrite Hpres in Hrest. destruct Hrest as [Hcount Hnone].
    split.
    + rewrite Hsize, P1, map_size_insert_None by exact Hc. cbn [length]. lia.
    + rewrite presences_app, Hnone, app_nil_r, Hcount, E1, Eq.
      destruct (has_presence config s); [by split|]. intros _. by split.
Qed.

(** C5, as the code has it.  In a session without a presence count for the
    domain, however many calls of [subscribe] create an entry each, one
    presence is sent, by the first of them, and the stored count is 1 in
    the end: it is set once and never incremented. *)
Theorem presence_count_stays_one s cs :
  cs <> [] ->
  NoDup (call_node <$> cs) ->
  Forall (fun c => s_subs_props s !! subkey_of config (call_node c) = None) cs ->
  has_presence config s = false ->
  let r := run config (subscribe_calls cs) s in
  size (s_subs_props (final_state r)) = (size (s_subs_props s) + length cs)%nat /\
  s_subsPresences (final_state r) !! channelDomain config = Some 1 /\
  presences (effects_of r) = [OPresence (s_jid s) (channelDomain config)].
Proof.
  intros Hne Hnd Habs Hpres. cbn zeta.
  destruct (subscribe_calls_presence cs s Hnd Habs) as [Hsize Hrest].
  rewrite Hpres in Hrest. destruct (Hrest Hne) as [-> ->].
  split; [exact Hsize | split; [apply lookup_insert_eq | reflexivity]].
Qed.

Lemma stanza_listener_idle st s :
  String.eqb (st_name st) "message" = false ->
  no_pending_reply s st ->
  stanza_listener config st s = (s, [], Returned tt).
Proof.
  intros Hname Hnone. unfold stanza_listener, mbind, M_bind.
  by rewrite handle_event_not_message, handle_reply_none.
Qed.

(** C9, as the code has it.  A handler registered with [onStanza] that
    returns a truthy value is not deregistered: the callback throws, the
    listeners are as before, and the next stanza calls the handler again. *)
Theorem onStanza_handler_not_removed s sh st st2 :
  s_listeners s = [LMain] ->
  sh_done sh st = true ->
  String.eqb (st_name st) "message" = false ->
  String.eqb (st_name st2) "message" = false ->
  no_pending_reply s st ->
  no_pending_reply s st2 ->
  let s1 := final_state (run config [EvOnStanza sh] s) in
  let r := run config [EvOnStanza sh; EvStanza st; EvStanza st2] s in
  outcome_of (step config (EvStanza st) s1) =
    Thrown (TypeError "this._connection.removeListener(callback)") /\
  s_listeners (final_state r) = [LMain; LOnStanza sh] /\
  effects_of r = [CallStanzaHandler (sh_id sh) st; CallStanzaHandler (sh_id sh) st2].
Proof.
  intros Hl Hdone Hn1 Hn2 Hp1 Hp2. cbn zeta.
  assert (E1 : final_state (run config [EvOnStanza sh] s) =
               set_listeners [LMain; LOnStanza sh] s).
  { rewrite final_state_run_cons. cbn. by rewrite Hl. }
  assert (Eemit : forall st', String.eqb (st_name st') "message" = false ->
            no_pending_reply s st' ->
            final_state (emit_stanza config st' (set_listeners [LMain; LOnStanza sh] s)) =
              set_listeners [LMain; LOnStanza sh] s /\
            effects_of (emit_stanza config st' (set_listeners [LMain; LOnStanza sh] s)) =
              [CallStanzaHandler (sh_id sh) st'] /\
            (sh_done sh st' = true ->
             outcome_of (emit_stanza config st' (set_listeners [LMain; LOnStanza sh] s)) =
               Thrown (TypeError "this._connection.removeListener(callback)"))).
  { intros st' Hn Hp. unfold emit_stanza, mbind, M_bind. cbn -[stanza_listener].
    unfold mbind, M_bind.
    rewrite (stanza_listener_idle st' (set_listeners [LMain; LOnStanza sh] s) Hn Hp).
    unfold onStanza_callback, mbind, M_bind. cbn.
    destruct (sh_done sh st'); cbn; repeat split; try reflexivity; discriminate. }
  split; [|split].
  - rewrite E1, step_stanza. by apply Eemit.
  - rewrite !final_state_run_cons, !step_stanza.
    change (final_state (step config (EvOnStanza sh) s))
      with (final_state (run config [EvOnStanza sh] s)). rewrite E1.
    destruct (Eemit st Hn1 Hp1) as (-> & _). destruct (Eemit st2 Hn2 Hp2) as (-> & _).
    reflexivity.
  - rewrite !effects_of_run_cons, !step_stanza.
    change (final_state (step config (EvOnStanza sh) s))
      with (final_state (run config [EvOnStanza sh] s)). rewrite E1.
    destruct (Eemit st Hn1 Hp1) as (-> & -> & _). destruct (Eemit st2 Hn2 Hp2) as (_ & -> & _).
    reflexivity.
Qed.


(** ** A query waits for its reply *)

Lemma subscribe_onreply_fields a K reply s :
  let s' := final_state (subscribe_onreply a K reply s) in
  s_replyHandlers s' = s_replyHandlers s /\ s_now s' = s_now s /\
  s_listeners s' = s_listeners s.
Proof.
  cbn zeta. destruct (s_subObjs s !! a) as [sub|] eqn:Ha.
  - destruct (decide (st_attrs reply !! "type" = Some "result")) as [Hr|Hr].
    + by rewrite (subscribe_onreply_result a K reply s sub Hr Ha).
    + by rewrite (subscribe_onreply_failure a K reply s sub Hr Ha).
  - unfold subscribe_onreply, read_sub.
    destruct (decide _); unfold mbind, M_bind; by rewrite Ha.
Qed.

Lemma call_handler_fields h reply s :
  let s' := final_state (call_handler h reply s) in
  s_replyHandlers s' = s_replyHandlers s /\ s_now s' = s_now s /\
  s_listeners s' = s_listeners s.
Proof.
  cbn zeta. unfold call_handler. rewrite final_state_bind. cbn.
  destruct h as [cb|a K]; [done | apply subscribe_onreply_fields].
Qed.

Section Awaiting.
Variables (h : Handler) (q : string) (t0 ttl n : nat).

Lemma awaiting_frame s s' :
  awaiting h q t0 ttl n s ->
  cache_data (s_replyHandlers s') !! q = cache_data (s_replyHandlers s) !! q ->
  cache_ttl (s_replyHandlers s') = cache_ttl (s_replyHandlers s) ->
  s_now s' = s_now s ->
  s_listeners s' = s_listeners s ->
  awaiting h q t0 ttl n s'.
Proof.
  intros (H1 & H2 & H3 & H4) E1 E2 E3 E4. unfold awaiting. by rewrite E1, E2, E3, E4.
Qed.

Lemma keeps_awaiting_frame {A} (m : M A) :
  (forall s, cache_data (s_replyHandlers (final_state (m s))) !! q =
               cache_data (s_replyHandlers s) !! q /\
             cache_ttl (s_replyHandlers (final_state (m s))) =
               cache_ttl (s_replyHandlers s) /\
             s_now (final_state (m s)) = s_now s /\
             s_listeners (final_state (m s)) = s_listeners s) ->
  keeps (fun s _ => awaiting h q t0 ttl n s) m.
Proof.
  intros Hm s l0 H. destruct (Hm s) as (E1 & E2 & E3 & E4). by apply awaiting_frame with s.
Qed.

Lemma keeps_awaiting_handle_reply st :
  st_attrs st !! "id" <> Some q ->
  keeps (fun s _ => awaiting h q t0 ttl n s) (handle_reply st).
Proof.
  intros Hid. apply keeps_awaiting_frame. intros s. unfold handle_reply.
  destruct (st_attrs st !! "id") as [id|]; [|done].
  destruct (truthy (JStr id)); [|done].
  rewrite final_state_bind. cbn.
  destruct (Cache_get id (s_now s) (s_replyHandlers s)) as [h'|]; [|done].
  rewrite final_state_bind. cbn.
  destruct (call_handler_fields h' st
              (set_replyHandlers (Cache_remove id (s_replyHandlers s)) s)) as (-> & -> & ->).
  cbn. split; [|done]. apply lookup_delete_ne. congruence.
Qed.

Lemma keeps_awaiting_emit_stanza st :
  st_attrs st !! "id" <> Some q ->
  keeps (fun s _ => awaiting h q t0 ttl n s) (emit_stanza config st).
Proof.
  intros Hid. unfold emit_stanza. apply keeps_bind; [by intros s l0 H|].
  intros s0. apply keeps_for_each. intros [|sh]; cbn [run_listener].
  - unfold stanza_listener. apply keeps_bind.
    + apply keeps_awaiting_frame. intros s.
      destruct (only_userDatas_handle_event st s) as (-> & _). done.
    + intros _. by apply keeps_awaiting_handle_reply.
  - apply keeps_awaiting_frame. intros s. unfold onStanza_callback.
    rewrite final_state_bind. cbn. by destruct (sh_done sh st).
Qed.

Lemma keeps_awaiting_subscribe nodeId c1 c2 q' :
  q' <> q -> keeps (fun s _ => awaiting h q t0 ttl n s) (subscribe config nodeId c1 c2 q').
Proof.
  intros Hq. apply keeps_awaiting_frame. intros s.
  destruct (s_subs_props s !! subkey_of config nodeId) as [a|] eqn:Hp.
  - unfold subscribe. cbn zeta. rewrite final_state_bind. cbn [get_session outcome_of
      final_state fst snd]. unfold subkey_of in Hp. rewrite Hp.
    rewrite final_state_bind. unfold read_sub.
    destruct (s_subObjs s !! a) as [sub|]; cbn; [|done].
    by destruct (sub_state sub).
  - destruct (after_subscribe_absent nodeId c1 c2 q' s Hp)
      as (_ & _ & _ & -> & -> & -> & _).
    split; [|done]. cbn. by apply lookup_insert_ne.
Qed.

Lemma keeps_awaiting_expire_reply k :
  k <> q -> keeps (fun s _ => awaiting h q t0 ttl n s) (expire_reply k).
Proof.
  intros Hk. apply keeps_awaiting_frame. intros s. unfold expire_reply.
  rewrite final_state_bind. cbn.
  destruct (Cache_due k (s_now s) (s_replyHandlers s)) as [h'|]; [|done].
  rewrite final_state_bind.
  destruct (cache_onexpired (s_replyHandlers s)) as [[|]|]; cbn;
    try (split; [by apply lookup_delete_ne | done]).
  destruct (call_handler_fields h' service_unavailable s) as (E1 & E2 & E3).
  destruct (outcome_of (call_handler h' service_unavailable s)); cbn.
  - rewrite E1, E2, E3. split; [by apply lookup_delete_ne | done].
  - by rewrite E1, E2, E3.
Qed.

Lemma keeps_awaiting_step ev :
  untouched q ev ->
  elapsed [ev] = 0%nat ->
  keeps (fun s _ => awaiting h q t0 ttl n s) (step config ev).
Proof.
  intros Hu He. destruct ev as [st|iq cb q'|nodeId c1 c2 q'|sh|d|k|k]; cbn [step].
  - by apply keeps_awaiting_emit_stanza.
  - apply keeps_awaiting_frame. intros s. rewrite sendQuery_eq. cbn.
    split; [|done]. by apply lookup_insert_ne.
  - by apply keeps_awaiting_subscribe.
  - intros s l0 (H1 & H2 & H3 & ls & H4). split; [done | split; [done | split; [done|]]].
    exists (ls ++ [LOnStanza sh]). cbn. by rewrite H4.
  - cbn in He. assert (d = 0)%nat as -> by lia.
    apply keeps_awaiting_frame. intros s. cbn.
    split; [done | split; [done | split; [lia | done]]].
  - by apply keeps_awaiting_expire_reply.
  - apply keeps_awaiting_frame. intros s. unfold expire_sub.
    rewrite final_state_bind. cbn. by destruct (Cache_due k (s_now s) (s_subs s)).
Qed.

End Awaiting.

Lemma awaiting_run h q t0 ttl evs : forall n s,
  Forall (untouched q) evs ->
  awaiting h q t0 ttl n s ->
  awaiting h q t0 ttl (n + elapsed evs) (final_state (run config evs s)).
Proof.
  induction evs as [|ev r IH]; intros n s Hu H.
  - cbn. by rewrite Nat.add_0_r.
  - apply Forall_cons in Hu as [Hu1 Hu2]. rewrite final_state_run_cons.
    destruct (decide (elapsed [ev] = 0%nat)) as [He|He].
    + replace (elapsed (ev :: r)) with (elapsed r)
        by (destruct ev; try reflexivity; cbn in *; lia).
      apply IH; [exact Hu2|].
      by apply (keeps_awaiting_step h q t0 ttl n ev Hu1 He s []).
    + destruct ev as [| | | |d| |]; try done. cbn [elapsed].
      rewrite final_state_elapse, Nat.add_assoc. apply IH; [exact Hu2|].
      destruct H as (H1 & H2 & H3 & H4).
      split; [done | split; [done | split; [cbn; lia | done]]].
Qed.

End SessionFacts.

(** ** The first stanza with the id of a query *)

Section ReplyDelivery.
Variable config : Config.

Lemma outcome_of_bind {A B} (m : M A) (f : A -> M B) s :
  outcome_of ((m ≫= f) s) =
  match outcome_of (m s) with
  | Returned a => outcome_of (f a (final_state (m s)))
  | Thrown e => Thrown e
  end.
Proof.
  unfold mbind, M_bind. destruct (m s) as [[s1 l1] [a|e]]; cbn; [|reflexivity].
  destruct (f a s1) as [[s2 l2] o]. reflexivity.
Qed.

(** The stanza listener meets the first stanza with the id [q] of a
    waiting handler, within the TTL.  When the part of the listener that
    sees to publish events returns, the handler is called with the stanza,
    its cache entry being removed before.  When that part throws, the
    listener ends there: the handler is not called and waits on. *)
Lemma first_stanza_with_id h q t0 ttl n s st :
  awaiting h q t0 ttl n s ->
  (n < t0 + ttl)%nat ->
  st_attrs st !! "id" = Some q ->
  q <> "" ->
  let r := emit_stanza config st s in
  match outcome_of (handle_event config st s) with
  | Returned _ =>
      exists snap l,
        log_of r = log_of (handle_event config st s) ++ (CallHandler h st, snap) :: l /\
        cache_data (s_replyHandlers snap) !! q = None
  | Thrown e =>
      outcome_of r = Thrown e /\
      (forall h', calls h' (effects_of r) = 0%nat) /\
      awaiting h q t0 ttl n (final_state r)
  end.
Proof.
  intros Haw Ht Hid Hq. pose proof Haw as (Hk & Httl & Hn & ls & Hl). cbn zeta.
  destruct (only_userDatas_handle_event config st s) as (Efin & _ & Fpost).
  assert (Eemit : emit_stanza config st s =
                  (stanza_listener config st ≫= fun _ =>
                     for_each (run_listener config st) ls) s).
  { unfold emit_stanza. unfold mbind at 1, M_bind at 1. cbn [get_session]. rewrite Hl.
    cbn [for_each run_listener].
    by destruct ((stanza_listener config st ≫= _) s) as [[? ?] ?]. }
  rewrite Eemit. unfold stanza_listener.
  destruct (outcome_of (handle_event config st s)) as [[]|e] eqn:Ho.
  - set (se := final_state (handle_event config st s)) in *.
    assert (Hget : Cache_get q (s_now se) (s_replyHandlers se) = Some h).
    { rewrite Efin. cbn. unfold Cache_get. rewrite Hk. unfold Cache_is_expired.
      rewrite Httl. destruct (Nat.leb_spec (t0 + ttl) (s_now s)); [lia | done]. }
    rewrite log_of_bind, log_of_bind, Ho. fold se.
    rewrite (handle_reply_found st q h se Hid Hq Hget).
    unfold call_handler. rewrite log_of_bind. cbn [tell log_of fst snd].
    eexists _, _. rewrite <- !app_assoc. cbn [app]. split; [reflexivity|].
    cbn. apply lookup_delete_eq.
  - rewrite outcome_of_bind, outcome_of_bind, Ho.
    rewrite effects_of_bind, outcome_of_bind, Ho, final_state_bind, outcome_of_bind, Ho.
    rewrite effects_of_bind, Ho, final_state_bind, Ho, !app_nil_r.
    split; [reflexivity | split].
    + intros h'. apply calls_zero_Forall. eapply Forall_impl; [exact Fpost|].
      intros x Hx. by destruct x.
    + apply (awaiting_frame h q t0 ttl n s); [exact Haw | by rewrite Efin..].
Qed.

(** A handler of a user that has outlived the TTL gets the timeout error
    when its entry expires. *)
Lemma awaiting_timeout cb q t0 ttl n s d :
  awaiting (HUser cb) q t0 ttl n s ->
  cache_onexpired (s_replyHandlers s) = Some OnReplyExpired ->
  (t0 + ttl <= n + d)%nat ->
  effects_of (run config [EvElapse d; EvExpireReply q] s) =
    [CallHandler (HUser cb) service_unavailable].
Proof.
  intros (Hk & Httl & Hn & _) Hon Hd.
  rewrite effects_of_run_cons. cbn [step].
  change (effects_of (modify _ _)) with (@nil Effect). cbn [app].
  rewrite effects_of_run_cons. cbn [step].
  unfold expire_reply. rewrite effects_of_bind. cbn.
  unfold Cache_due. rewrite Hk. unfold Cache_is_expired. rewrite Httl, Hn.
  destruct (Nat.leb_spec (t0 + ttl) (n + d)); [|lia].
  rewrite Hon. reflexivity.
Qed.

(** C1, as the code has it.  After [sendQuery(iq, onreply)] on a session
    in order, whatever the session then reacts to (as long as the same
    function is not given to [sendQuery] again), [onreply] is called at
    most once, and only with the timeout error or with an inbound stanza
    whose id is the query's; the timeout error is an iq of type error that
    carries service-unavailable.  Take the first stanza with that id,
    arriving within the TTL.  When the part of the stanza listener that
    sees to publish events returns, as it does for every stanza that is
    not a message, the stanza calls [onreply], the cache entry being
    removed before.  When that part throws, the listener ends before it
    looks at the id: [onreply] is not called, its entry stays, and once
    the TTL has passed the expiry calls it with the timeout error, although
    a stanza with its id has arrived in time.  Without any such stanza the
    expiry after the TTL calls it with the timeout error. *)
Theorem sendQuery_onreply_at_most_once s iq cb q evs :
  session_ok config s ->
  not_held (HUser cb) s ->
  Forall (fun ev => forall iq' q', ev <> EvSendQuery iq' cb q') evs ->
  q <> "" ->
  let s1 := final_state (sendQuery config iq (HUser cb) q s) in
  let l := effects_of (run config evs s1) in
  let ttl := cache_ttl (s_replyHandlers s) in
  (calls (HUser cb) l <= 1)%nat /\
  (forall arg, CallHandler (HUser cb) arg ∈ l ->
     arg = service_unavailable \/
     (st_attrs arg !! "id" = Some q /\ EvStanza arg ∈ evs)) /\
  (st_name service_unavailable = "iq" /\
   st_attrs service_unavailable !! "type" = Some "error" /\
   st_error service_unavailable =
     Some {| error_type := "cancel"; error_condition := "service-unavailable" |}) /\
  (forall evs0 st,
     Forall (untouched q) evs0 ->
     (elapsed evs0 < ttl)%nat ->
     st_attrs st !! "id" = Some q ->
     let s2 := final_state (run config evs0 s1) in
     let r := step config (EvStanza st) s2 in
     (String.eqb (st_name st) "message" = false ->
      handle_event config st s2 = (s2, [], Returned tt)) /\
     match outcome_of (handle_event config st s2) with
     | Returned _ =>
         exists snap l',
           log_of r =
             log_of (handle_event config st s2) ++ (CallHandler (HUser cb) st, snap) :: l' /\
           cache_data (s_replyHandlers snap) !! q = None
     | Thrown e =>
         outcome_of r = Thrown e /\
         calls (HUser cb) (effects_of r) = 0%nat /\
         cache_data (s_replyHandlers (final_state r)) !! q = Some (HUser cb, s_now s) /\
         forall d, (ttl <= elapsed evs0 + d)%nat ->
           effects_of (run config [EvElapse d; EvExpireReply q] (final_state r)) =
             [CallHandler (HUser cb) service_unavailable]
     end) /\
  (forall d, (ttl <= d)%nat ->
     effects_of (run config [EvElapse d; EvExpireReply q] s1) =
       [CallHandler (HUser cb) service_unavailable]).
Proof.
  intros Hs Hn Hreg Hq. cbn zeta.
  pose proof (keeps_once_run config cb q evs Hreg _ []
                (once_inv_after_sendQuery config iq (HUser cb) q _ s Hn)) as [Hc Hg].
  rewrite app_nil_l in Hc, Hg.
  destruct (ok_listeners _ _ Hs) as (ls & Hl & _).
  pose proof (ok_onexpired _ _ Hs) as Hon.
  assert (Haw : awaiting (HUser cb) q (s_now s) (cache_ttl (s_replyHandlers s)) (s_now s)
                  (final_state (sendQuery config iq (HUser cb) q s))).
  { rewrite sendQuery_eq. cbn.
    split; [apply lookup_insert_eq | split; [done | split; [done | eauto]]]. }
  assert (Hs1 : session_ok config (final_state (sendQuery config iq (HUser cb) q s))).
  { by apply ok_step_sendQuery. }
  split; [|split; [|split; [|split]]].
  - destruct Hc as [[-> _]|[-> _]]; lia.
  - exact Hg.
  - auto.
  - intros evs0 st Hu He Hid. cbn zeta.
    split; [apply handle_event_not_message|].
    pose proof (awaiting_run config _ _ _ _ evs0 _ _ Hu Haw) as Haw2.
    pose proof (session_ok_run config evs0 _ Hs1) as Hs2.
    set (s2 := final_state (run config evs0
                 (final_state (sendQuery config iq (HUser cb) q s)))) in *.
    pose proof (first_stanza_with_id _ _ _ _ _ s2 st Haw2 ltac:(lia) Hid Hq) as H.
    cbn zeta in H. rewrite step_stanza.
    destruct (outcome_of (handle_event config st s2)) as [[]|e]; [exact H|].
    destruct H as (Ho & Hcalls & Haw3).
    split; [exact Ho | split; [apply Hcalls | split; [apply Haw3|]]].
    intros d Hd. apply (awaiting_timeout cb q _ _ _ _ d Haw3); [|lia].
    apply ok_onexpired with config. by apply ok_step_emit_stanza.
  - intros d. by apply timeout_delivered.
Qed.

End ReplyDelivery.


(** ** The statements at the sample session *)

Lemma sendQuery_onreply_at_most_once_witness :
  (calls (HUser 7)
     (effects_of
        (run sample_config
           [EvStanza sample_reply_ok; EvStanza sample_reply_ok;
            EvElapse 100; EvExpireReply "q1"]
           (final_state
              (sendQuery sample_config (PUser "ping") (HUser 7) "q1" sample_session))))
   <= 1)%nat /\
  (exists snap l',
     log_of (step sample_config (EvStanza sample_reply_ok)
               (final_state
                  (run sample_config [EvElapse 5]
                     (final_state
                        (sendQuery sample_config (PUser "ping") (HUser 7) "q1"
                           sample_session))))) =
       [] ++ (CallHandler (HUser 7) sample_reply_ok, snap) :: l' /\
     cache_data (s_replyHandlers snap) !! "q1" = None) /\
  effects_of
    (run sample_config [EvElapse 60; EvExpireReply "q1"]
       (final_state (sendQuery sample_config (PUser "ping") (HUser 7) "q1" sample_session))) =
  [CallHandler (HUser 7) service_unavailable].
Proof.
  destruct (sendQuery_onreply_at_most_once sample_config sample_session (PUser "ping") 7 "q1"
              [EvStanza sample_reply_ok; EvStanza sample_reply_ok;
               EvElapse 100; EvExpireReply "q1"])
    as (Hc & _ & _ & Hd & Ht).
  - apply session_ok_new.
  - intros k t. cbn. rewrite lookup_empty. discriminate.
  - repeat constructor; intros iq' q'; discriminate.
  - discriminate.
  - split; [exact Hc | split].
    + refine (proj2 (Hd [EvElapse 5] sample_reply_ok _ _ _)).
      * repeat constructor.
      * cbn. lia.
      * reflexivity.
    + apply Ht. cbn. lia.
Defined.

(** C1, as stated, fails.  The sample session has a subscribed entry with
    no item yet, and fan-out is configured.  A query is sent; the first
    stanza with its id is a message with a publish event without entries
    for that topic.  The listener throws before it looks at the id; after
    the TTL [onreply] gets the timeout error. *)
Lemma reply_lost_when_listener_throws :
  st_attrs (sample_message_with_id "q9") !! "id" = Some "q9" /\
  outcome_of
    (step sample_config (EvStanza (sample_message_with_id "q9"))
       (final_state
          (sendQuery sample_config (PUser "ping") (HUser 7) "q9" sample_subscribed))) =
    Thrown (TypeError "item is undefined") /\
  effects_of
    (run sample_config
       [EvStanza (sample_message_with_id "q9"); EvElapse 60; EvExpireReply "q9"]
       (final_state
          (sendQuery sample_config (PUser "ping") (HUser 7) "q9" sample_subscribed))) =
    [CallHandler (HUser 7) service_unavailable].
Proof. repeat split. Qed.

Lemma subscribe_twice_one_request_witness :
  effects_of
    (step sample_config (EvSubscribe sample_node 3 4 "q2")
       (final_state
          (run sample_config [EvSubscribe sample_node 1 2 "q1"; EvElapse 1]
             sample_session))) = [].
Proof.
  apply (subscribe_twice_one_request sample_config sample_session sample_node
           1 2 3 4 "q1" "q2" 1 2 sample_reply_ok []).
  - reflexivity.
  - constructor.
  - reflexivity.
  - reflexivity.
  - reflexivity.
  - discriminate.
  - vm_compute. lia.
Defined.

Lemma subscribe_success_reply_witness :
  exists d',
    s_userDatas
      (final_state
         (step sample_config (EvStanza sample_event1)
            (final_state
               (run sample_config [EvElapse 5; EvSubscribe sample_node 3 4 "q2"]
                  (final_state
                     (step sample_config (EvStanza sample_reply_ok) sample_subscribing))))))
      !! 0%nat = Some d' /\
    ud_items d' = Some [make_item (sample_entry "e1" 1350345600123)].
Proof.
  apply (subscribe_success_reply sample_config sample_reply_ok "q1" sample_node 1
           sample_subscribing sample_pending_sub sample_userData
           sample_event1 [sample_entry "e1" 1350345600123]
           [EvElapse 5; EvSubscribe sample_node 3 4 "q2"]).
  - unfold sample_subscribing. apply session_ok_run, session_ok_new.
  - reflexivity.
  - reflexivity.
  - discriminate.
  - reflexivity.
  - reflexivity.
  - reflexivity.
  - reflexivity.
  - split; reflexivity.
  - repeat constructor.
Defined.

(** C3, as stated, fails: after the reply of type result the entry is
    [subscribed] and its pending list still holds the caller. *)
Lemma pending_list_not_cleared :
  exists sub,
    entry_of sample_config sample_subscribed sample_node = Some sub /\
    sub_state sub = subscribed /\
    sub_pending sub = [{| onsub := 1; onerror := 2 |}] /\
    sub_pending sub <> [].
Proof.
  exists (as_subscribed sample_pending_sub). repeat split.
  discriminate.
Qed.

Lemma subscribe_failure_reply_witness :
  entry_of sample_config
    (final_state (emit_stanza sample_config sample_reply_error sample_subscribing))
    sample_node = None.
Proof.
  apply (subscribe_failure_reply sample_config sample_reply_error "q1" sample_node 1
           sample_subscribing sample_pending_sub [] 5 6 "q3").
  - reflexivity.
  - constructor.
  - reflexivity.
  - reflexivity.
  - discriminate.
  - discriminate.
  - reflexivity.
  - reflexivity.
  - reflexivity.
Defined.

Lemma presence_count_stays_one_witness :
  let r := run sample_config
             [EvSubscribe sample_node 1 2 "q1";
              EvSubscribe "/user/carol@example.org/posts" 3 4 "q2"] sample_session in
  size (s_subs_props (final_state r)) = 2%nat /\
  s_subsPresences (final_state r) !! channelDomain sample_config = Some 1 /\
  presences (effects_of r) = [OPresence "alice@example.org/http" "channels.example.org"].
Proof.
  apply (presence_count_stays_one sample_config sample_session
           [ {| call_node := sample_node; call_onsub := 1; call_onerror := 2;
                call_queryId := "q1" |};
             {| call_node := "/user/carol@example.org/posts"; call_onsub := 3;
                call_onerror := 4; call_queryId := "q2" |} ]).
  - discriminate.
  - cbn. apply NoDup_cons. split; [|apply NoDup_singleton].
    intros H. apply list_elem_of_singleton in H. discriminate.
  - repeat constructor.
  - reflexivity.
Defined.

Lemma fanout_prev_id_chain_witness :
  posts (effects_of
           (step sample_config (EvStanza sample_event2)
              (final_state
                 (run sample_config [EvElapse 5; EvStanza sample_reply_error]
                    (final_state
                       (step sample_config (EvStanza sample_event1) sample_subscribed)))))) =
  emission "e2_1350345700000" (JStr "e1_1350345600000")
    (feed_of sample_node (JStr "channels.example.org") [sample_entry "e2" 1350345700999]).
Proof.
  apply (fanout_prev_id_chain sample_config sample_subscribed sample_event1 sample_event2
           sample_node [sample_entry "e1" 1350345600123] [sample_entry "e2" 1350345700999]
           (make_item (sample_entry "e1" 1350345600123))
           (make_item (sample_entry "e2" 1350345700999))
           1 (as_subscribed sample_pending_sub) sample_userData
           [EvElapse 5; EvStanza sample_reply_error]).
  - reflexivity.
  - unfold sample_subscribed, sample_subscribing.
    do 2 apply session_ok_run. apply session_ok_new.
  - reflexivity.
  - reflexivity.
  - reflexivity.
  - reflexivity.
  - split; reflexivity.
  - split; reflexivity.
  - repeat constructor. cbn. discriminate.
  - reflexivity.
  - reflexivity.
Defined.

Lemma onStanza_handler_not_removed_witness :
  effects_of
    (run sample_config
       [EvOnStanza sample_stanza_handler; EvStanza sample_reply_ok;
        EvStanza sample_reply_error] sample_session) =
  [CallStanzaHandler 9 sample_reply_ok; CallStanzaHandler 9 sample_reply_error].
Proof.
  apply (onStanza_handler_not_removed sample_config sample_session sample_stanza_handler
           sample_reply_ok sample_reply_error).
  - reflexivity.
  - reflexivity.
  - reflexivity.
  - reflexivity.
  - reflexivity.
  - reflexivity.
Defined.

Lemma subscription_never_evicted_witness :
  state_at
    (final_state
       (run sample_config
          [EvElapse 1000; EvExpireSub (subkey_of sample_config sample_node);
           EvExpireReply "q1"; EvStanza sample_reply_error]
          sample_subscribed)) 1 = Some subscribed.
Proof.
  apply (subscription_never_evicted sample_config sample_subscribed sample_node 1).
  - unfold sample_subscribed, sample_subscribing.
    do 2 apply session_ok_run. apply session_ok_new.
  - reflexivity.
  - reflexivity.
Defined.

(** ** More on the session provider *)

Section MoreProviderFacts.
Variable config : Config.

Lemma provideSession_eq a next p :
  provideSession a next p =
  let p1 := set_p_req (set_req_session (Some a) (p_req p)) p in
  let id := session_id_at p a in
  if truthy id then
    let p2 := set_sessionCache (Cache_put (js_to_string id) a (p_now p) (sessionCache p)) p1 in
    match next JUndefined p2 with
    | (p3, l, u) => (p3, SetHeader "X-Session-Id" (js_to_string id) :: l, u)
    end
  else next JUndefined p1.
Proof.
  unfold provideSession. pm_unfold.
  change (session_id_at (set_p_req (set_req_session (Some a) (p_req p)) p) a)
    with (session_id_at p a).
  destruct (truthy (session_id_at p a)); cbn.
  - destruct (next JUndefined _) as [[p3 l] []]. reflexivity.
  - destruct (next JUndefined _) as [[p3 l] []]. reflexivity.
Qed.

Lemma createSession_online jid key next p :
  createSession config (Online jid) key next p =
  let sessionId := if truthy (req_user (p_req p)) then JStr key else JNull in
  let p1 :=
    {| anonymousSession := anonymousSession p; sessionCache := sessionCache p;
       p_sessions := <[p_next p := Session_new config sessionId jid (p_now p)]> (p_sessions p);
       p_next := S (p_next p); p_now := p_now p; p_req := p_req p |} in
  match provideSession (p_next p) next p1 with
  | (p2, l, u) => (p2, NewClient (xmppConnectionOptions config (p_req p)) :: l, u)
  end.
Proof.
  unfold createSession. pm_unfold.
  destruct (provideSession _ _ _) as [[p2 l] []]. reflexivity.
Qed.

Lemma serve_eq req conn key p :
  serve config req conn key p =
  let p0 := set_p_req req p in
  let next := fun err => ptell (Next err) in
  if truthy (req_session_id req) then
    match Cache_get (js_to_string (req_session_id req)) (p_now p) (sessionCache p) with
    | Some a => provideSession a next p0
    | None => if truthy (req_user req) then createSession config conn key next p0
              else (p0, [SendUnauthorized], tt)
    end
  else if truthy (req_user req) then createSession config conn key next p0
  else useAnonymousSession config conn key next p0.
Proof.
  unfold serve, provider, processSessionId. pm_unfold.
  destruct (truthy (req_session_id req)); cbn.
  - destruct (Cache_get _ _ _); cbn.
    + by destruct (provideSession _ _ _) as [[? ?] []].
    + destruct (truthy (req_user req)); cbn; [|reflexivity].
      by destruct (createSession _ _ _ _ _) as [[? ?] []].
  - destruct (truthy (req_user req)); cbn.
    + by destruct (createSession _ _ _ _ _) as [[? ?] []].
    + by destruct (useAnonymousSession _ _ _ _ _) as [[? ?] []].
Qed.

Lemma useAnonymousSession_eq conn key next p :
  useAnonymousSession config conn key next p =
  match anonymousSession p with
  | Some a => provideSession a next p
  | None =>
      createSession config conn key
        (fun err =>
           (if negb (truthy err)
            then pmodify (fun p => set_anonymousSession (req_session (p_req p)) p)
            else mret tt) ;; next err) p
  end.
Proof.
  unfold useAnonymousSession. unfold mbind at 1, PM_bind at 1. cbn [pget].
  destruct (anonymousSession p).
  - by destruct (provideSession _ _ _) as [[? ?] []].
  - by destruct (createSession _ _ _ _ _) as [[? ?] []].
Qed.

(** X2.  A request whose [X-Session-Id] names a session that the cache holds,
    not expired, is served with that session, whatever its credentials: no
    client is made, the entry under the session's id starts a new
    time-to-live, the header is set and the chain goes on. *)
Theorem known_session_id_reused req conn key p a id :
  truthy (req_session_id req) = true ->
  Cache_get (js_to_string (req_session_id req)) (p_now p) (sessionCache p) = Some a ->
  session_id_at p a = JStr id ->
  id <> "" ->
  let r := serve config req conn key p in
  req_session (p_req r.1.1) = Some a /\
  sessionCache r.1.1 = Cache_put id a (p_now p) (sessionCache p) /\
  (forall d, (d < cache_ttl (sessionCache p))%nat ->
             Cache_get id (p_now p + d) (sessionCache r.1.1) = Some a) /\
  p_sessions r.1.1 = p_sessions p /\
  anonymousSession r.1.1 = anonymousSession p /\
  r.1.2 = [SetHeader "X-Session-Id" id; Next JUndefined].
Proof.
  intros Hh Hget Hid Hne. cbn zeta. rewrite serve_eq. cbn zeta. rewrite Hh, Hget.
  rewrite provideSession_eq. cbn zeta.
  change (session_id_at (set_p_req req p) a) with (session_id_at p a). rewrite Hid.
  assert (Ht : truthy (JStr id) = true).
  { cbn. apply negb_true_iff, String.eqb_neq, Hne. }
  rewrite Ht. cbn. repeat split.
  intros d Hd. apply Cache_get_put. cbn. lia.
Qed.

(** X3.  A request whose [X-Session-Id] names no session of the cache (none was
    stored, or it has expired) and that has no credentials is answered as
    unauthorized: no client is made, the chain does not go on and the
    module state stays as it is. *)
Theorem unknown_session_id_unauthorized req conn key p :
  truthy (req_session_id req) = true ->
  Cache_get (js_to_string (req_session_id req)) (p_now p) (sessionCache p) = None ->
  truthy (req_user req) = false ->
  serve config req conn key p = (set_p_req req p, [SendUnauthorized], tt).
Proof.
  intros Hh Hget Hu. rewrite serve_eq. cbn zeta. by rewrite Hh, Hget, Hu.
Qed.

(** X4.  A request with credentials and without a usable session id, whose
    client comes online, gets a new session with the generated key as id:
    the session is cached under that key and the key goes out in
    [X-Session-Id].  A later request that sends this key back within the
    time-to-live is served with the same session, and no client is made. *)
Theorem credentials_create_cached_session req jid key p req' conn' key' d :
  truthy (req_user req) = true ->
  (truthy (req_session_id req) = false \/
   Cache_get (js_to_string (req_session_id req)) (p_now p) (sessionCache p) = None) ->
  key <> "" ->
  req_session_id req' = JStr key ->
  (d < cache_ttl (sessionCache p))%nat ->
  let a := p_next p in
  let r := serve config req (Online jid) key p in
  let r' := serve config req' conn' key' (set_p_now (p_now p + d) r.1.1) in
  p_sessions r.1.1 !! a = Some (Session_new config (JStr key) jid (p_now p)) /\
  req_session (p_req r.1.1) = Some a /\
  sessionCache r.1.1 = Cache_put key a (p_now p) (sessionCache p) /\
  anonymousSession r.1.1 = anonymousSession p /\
  r.1.2 = [NewClient {| opt_jid := req_user req; opt_password := req_password req;
                        opt_host := xmppHost config; opt_port := xmppPort config |};
           SetHeader "X-Session-Id" key; Next JUndefined] /\
  req_session (p_req r'.1.1) = Some a /\
  r'.1.2 = [SetHeader "X-Session-Id" key; Next JUndefined].
Proof.
  intros Hu Hh Hne Hreq' Hd. cbn zeta.
  assert (Ht : truthy (JStr key) = true).
  { cbn. apply negb_true_iff, String.eqb_neq, Hne. }
  assert (E : serve config req (Online jid) key p =
              createSession config (Online jid) key (fun err => ptell (Next err))
                (set_p_req req p)).
  { rewrite serve_eq. cbn zeta. rewrite Hu.
    destruct Hh as [-> | ->]; [reflexivity | by destruct (truthy (req_session_id req))]. }
  rewrite E, createSession_online. cbn zeta. cbn [p_req set_p_req]. rewrite Hu.
  rewrite provideSession_eq. cbn zeta.
  unfold session_id_at. cbn [p_sessions p_next set_p_req].
  rewrite lookup_insert_eq. cbn [s_id Session_new]. rewrite Ht.
  unfold xmppConnectionOptions. rewrite Hu. cbn.
  rewrite lookup_insert_eq.
  do 5 (split; [reflexivity|]).
  rewrite serve_eq. cbn zeta. rewrite Hreq', Ht. cbn [js_to_string].
  cbn [p_now sessionCache set_p_now set_sessionCache set_p_req].
  rewrite Cache_get_put by (cbn; lia).
  rewrite provideSession_eq. cbn zeta.
  unfold session_id_at. cbn [p_sessions set_p_req set_p_now set_sessionCache].
  rewrite lookup_insert_eq. cbn [s_id Session_new]. rewrite Ht. cbn. done.
Qed.

(** *** The module state over a sequence of requests *)

Lemma provider_ok_init now req : provider_ok (Provider_init config now req).
Proof.
  split; cbn.
  - intros a _. apply lookup_empty.
  - intros a s H. by rewrite lookup_empty in H.
  - intros a H. discriminate.
  - intros k a t H. by rewrite lookup_empty in H.
Qed.

Lemma provider_ok_frame p p' :
  provider_ok p ->
  p_sessions p' = p_sessions p -> p_next p' = p_next p ->
  anonymousSession p' = anonymousSession p -> sessionCache p' = sessionCache p ->
  provider_ok p'.
Proof.
  intros [H1 H2 H3 H4] E1 E2 E3 E4. split; rewrite ?E1, ?E2, ?E3, ?E4; assumption.
Qed.

Lemma provider_ok_put p k a t :
  provider_ok p -> k <> "" -> s_id <$> p_sessions p !! a = Some (JStr k) ->
  provider_ok (set_sessionCache (Cache_put k a t (sessionCache p)) p).
Proof.
  intros [H1 H2 H3 H4] Hk Ha. split; cbn; try assumption.
  intros k' a' t' H. apply lookup_insert_Some in H as [[<- [= <- <-]] | [_ H]]; [by split|].
  by apply (H4 k' a' t').
Qed.

Lemma provider_ok_new p s :
  provider_ok p ->
  (s_id s = JNull \/ exists k, s_id s = JStr k) ->
  provider_ok
    {| anonymousSession := anonymousSession p; sessionCache := sessionCache p;
       p_sessions := <[p_next p := s]> (p_sessions p);
       p_next := S (p_next p); p_now := p_now p; p_req := p_req p |}.
Proof.
  intros [H1 H2 H3 H4] Hs.
  assert (Hold : forall a x, p_sessions p !! a = Some x -> a <> p_next p).
  { intros a x Ha ->. rewrite H1 in Ha by lia. discriminate. }
  split; cbn.
  - intros a Ha. rewrite lookup_insert_ne by lia. apply H1. lia.
  - intros a x Ha. apply lookup_insert_Some in Ha as [[_ <-] | [_ Ha]]; [exact Hs|].
    by apply (H2 a x).
  - intros a Ha. specialize (H3 a Ha).
    destruct (p_sessions p !! a) as [x|] eqn:Hx; [|discriminate].
    rewrite lookup_insert_ne by (symmetry; by apply (Hold a x)). by rewrite Hx.
  - intros k a t Hk. destruct (H4 k a t Hk) as [Hne Hid]. split; [exact Hne|].
    destruct (p_sessions p !! a) as [x|] eqn:Hx; [|discriminate].
    rewrite lookup_insert_ne by (symmetry; by apply (Hold a x)). by rewrite Hx.
Qed.

(** [provideSession] with the chain as [next]. *)
Lemma provider_ok_provideSession a p :
  provider_ok p ->
  let r := provideSession a (fun err => ptell (Next err)) p in
  provider_ok r.1.1 /\ anonymousSession r.1.1 = anonymousSession p.
Proof.
  intros H. cbn zeta. rewrite provideSession_eq. cbn zeta.
  destruct (truthy (session_id_at p a)) eqn:Ht; cbn.
  - split; [|reflexivity].
    unfold session_id_at in *. destruct (p_sessions p !! a) as [s|] eqn:Hs; [|discriminate].
    destruct (pok_ids _ H a s Hs) as [E | [k E]]; rewrite E in Ht |- *; [discriminate|].
    cbn [js_to_string].
    apply (provider_ok_frame
             (set_sessionCache (Cache_put k a (p_now p) (sessionCache p)) p)); try done.
    apply provider_ok_put; [exact H | | by rewrite Hs, <- E].
    intros ->. discriminate.
  - split; [|reflexivity]. by apply (provider_ok_frame p).
Qed.

Lemma provider_ok_serve req conn key p :
  req_session req = None ->
  provider_ok p ->
  provider_ok (serve config req conn key p).1.1.
Proof.
  intros Hfresh H. rewrite serve_eq. cbn zeta.
  assert (H0 : provider_ok (set_p_req req p)) by (by apply (provider_ok_frame p)).
  assert (Hcreate : truthy (req_user req) = true ->
            provider_ok (createSession config conn key (fun err => ptell (Next err))
                           (set_p_req req p)).1.1).
  { intros Hu. destruct conn as [jid | err].
    - rewrite createSession_online. cbn zeta. cbn [p_req set_p_req]. rewrite Hu.
      match goal with |- context [provideSession ?a ?n ?q] =>
        pose proof (provider_ok_provideSession a q) as Hp;
        destruct (provideSession a n q) as [[p2 l] []] end.
      apply Hp. apply (provider_ok_new (set_p_req req p)); [exact H0 | right; eauto].
    - rewrite createSession_error. by destruct (is_authentication_failure err). }
  destruct (truthy (req_session_id req)).
  - destruct (Cache_get _ _ _) as [a|].
    + by apply provider_ok_provideSession.
    + destruct (truthy (req_user req)); [by apply Hcreate | exact H0].
  - destruct (truthy (req_user req)) eqn:Hu; [by apply Hcreate|].
    rewrite useAnonymousSession_eq. cbn [anonymousSession set_p_req].
    destruct (anonymousSession p) as [a|] eqn:Ha.
    + by apply provider_ok_provideSession.
    + destruct conn as [jid | err].
      * rewrite createSession_online. cbn zeta. cbn [p_req set_p_req]. rewrite Hu.
        rewrite provideSession_eq. cbn zeta.
        unfold session_id_at. cbn [p_sessions p_next set_p_req].
        rewrite lookup_insert_eq. pm_unfold.
        pose proof (provider_ok_new (set_p_req req p)
                      (Session_new config JNull jid (p_now p)) H0 (or_introl eq_refl))
          as [N1 N2 N3 N4].
        cbn in N1, N2, N3, N4.
        split; cbn; try assumption.
        intros a [= <-]. by rewrite lookup_insert_eq.
      * rewrite createSession_error.
        destruct (is_authentication_failure err); [exact H0|].
        pm_unfold. destruct (truthy err); cbn; [exact H0|].
        rewrite Hfresh. destruct H0 as [N1 N2 N3 N4].
        split; cbn; try assumption. intros a Hx. discriminate.
Qed.

Lemma provider_ok_serve_all rs : forall p,
  Forall (fun r => req_session (arr_req r) = None) rs ->
  provider_ok p ->
  provider_ok (serve_all config rs p).1.
Proof.
  induction rs as [|r rs IH]; intros p Hrs H; [exact H|].
  apply Forall_cons in Hrs as [Hr Hrs]. cbn [serve_all].
  pose proof (provider_ok_serve (arr_req r) (arr_conn r) (arr_key r)
                (set_p_now (p_now p + arr_elapsed r) p) Hr) as Hs.
  destruct (serve config _ _ _ _) as [[p1 l1] []].
  specialize (IH p1 Hrs). destruct (serve_all config rs p1) as [p2 l2].
  apply IH, Hs. by apply (provider_ok_frame p).
Qed.

(** X5.  Whatever requests the middleware has served since the module was
    loaded, every session of the cache is stored under its own id, which is
    not empty, and the anonymous session has the id [null] and is not in
    the cache. *)
Theorem session_cache_keys_are_ids rs now req0 :
  Forall (fun r => req_session (arr_req r) = None) rs ->
  let p := (serve_all config rs (Provider_init config now req0)).1 in
  (forall k a t, cache_data (sessionCache p) !! k = Some (a, t) ->
     k <> "" /\ s_id <$> p_sessions p !! a = Some (JStr k)) /\
  (forall a, anonymousSession p = Some a ->
     s_id <$> p_sessions p !! a = Some JNull /\
     forall k t, cache_data (sessionCache p) !! k <> Some (a, t)).
Proof.
  intros Hrs. cbn zeta.
  pose proof (provider_ok_serve_all rs _ Hrs (provider_ok_init now req0)) as H.
  split; [apply (pok_cache _ H)|].
  intros a Ha. pose proof (pok_anonymous _ H a Ha) as Hid. split; [exact Hid|].
  intros k t Hk. destruct (pok_cache _ H k a t Hk) as [_ Hid']. congruence.
Qed.

(** X19.  Whatever requests the middleware has served before, a request
    without session id and without credentials never gets an
    [X-Session-Id] header and never changes the session cache, whether the
    anonymous session is reused, created or fails to connect. *)
Theorem anonymous_request_gets_no_header rs now req0 req conn key :
  Forall (fun r => req_session (arr_req r) = None) rs ->
  anonymous_request req ->
  let p := (serve_all config rs (Provider_init config now req0)).1 in
  let r := serve config req conn key p in
  Forall (fun e => forall n v, e <> SetHeader n v) r.1.2 /\
  sessionCache r.1.1 = sessionCache p.
Proof.
  intros Hrs Hreq. cbn zeta.
  pose proof (provider_ok_serve_all rs _ Hrs (provider_ok_init now req0)) as H.
  set (p := (serve_all config rs (Provider_init config now req0)).1) in *.
  destruct (anonymousSession p) as [a|] eqn:Ha.
  - destruct Hreq as (H1 & H2 & _).
    rewrite serve_eq. cbn zeta. rewrite H1, H2, useAnonymousSession_eq.
    cbn [anonymousSession set_p_req]. rewrite Ha, provideSession_eq. cbn zeta.
    change (session_id_at (set_p_req req p) a) with (session_id_at p a).
    pose proof (pok_anonymous _ H a Ha) as Hid. unfold session_id_at.
    destruct (p_sessions p !! a) as [s|]; [|discriminate].
    injection Hid as ->. cbn. split; [|reflexivity].
    repeat constructor. discriminate.
  - destruct conn as [jid | err].
    + destruct (serve_anonymous_online config req jid key p Hreq Ha)
        as (_ & _ & Hc & _ & ->).
      split; [|exact Hc]. repeat constructor; discriminate.
    + destruct (serve_anonymous_error config req err key p Hreq Ha)
        as (_ & _ & Hc & ->).
      split; [|exact Hc].
      destruct (is_authentication_failure err); repeat constructor; discriminate.
Qed.

End MoreProviderFacts.

(** ** Channel names and node ids *)

Lemma replace_slashes_app s t :
  replace_slashes (s +:+ t) = replace_slashes s +:+ replace_slashes t.
Proof. induction s as [|c s IH]; simpl; [reflexivity | by rewrite IH]. Qed.

Lemma has_slash_replace_slashes s : has_slash (replace_slashes s) = false.
Proof.
  induction s as [|c s IH]; cbn; [reflexivity|].
  rewrite IH, orb_false_r. destruct (Ascii.eqb c "/") eqn:E; [reflexivity | exact E].
Qed.

Lemma replace_slashes_without s : has_slash s = false -> replace_slashes s = s.
Proof.
  induction s as [|c s IH]; cbn; [reflexivity|].
  intros H. apply orb_false_iff in H as [-> H]. by rewrite IH.
Qed.

Lemma length_replace_slashes s : String.length (replace_slashes s) = String.length s.
Proof. induction s as [|c s IH]; simpl; [reflexivity | by rewrite IH]. Qed.

(** X1.  [makeChannelName] gives a name of the same length without any slash,
    changes nothing in a string that has none, and so changes nothing when
    applied again; it does not tell a slash from a dot. *)
Theorem makeChannelName_no_slash s t :
  has_slash (makeChannelName s) = false /\
  String.length (makeChannelName s) = String.length s /\
  (has_slash s = false -> makeChannelName s = s) /\
  makeChannelName (makeChannelName s) = makeChannelName s /\
  makeChannelName (s +:+ "/" +:+ t) = makeChannelName (s +:+ "." +:+ t).
Proof.
  unfold makeChannelName. split; [apply has_slash_replace_slashes|].
  split; [apply length_replace_slashes|].
  split; [apply replace_slashes_without|].
  split; [apply replace_slashes_without, has_slash_replace_slashes|].
  by rewrite !replace_slashes_app.
Qed.

Lemma length_append_string (s t : string) :
  String.length (s +:+ t) = (String.length s + String.length t)%nat.
Proof. induction s as [|c s IH]; simpl; [reflexivity | by rewrite IH]. Qed.

Lemma clamp_index_of_nat n s :
  clamp_index (Z.of_nat n) s = Nat.min n (String.length s).
Proof. unfold clamp_index. lia. Qed.

Lemma substring_all s : String.substring 0 (String.length s) s = s.
Proof. induction s as [|c s IH]; simpl; [reflexivity | by rewrite IH]. Qed.

Lemma substring_prefix p s : String.substring 0 (String.length p) (p +:+ s) = p.
Proof.
  induction p as [|c p IH]; simpl; [by destruct s | by rewrite IH].
Qed.

Lemma substring_skip p s n :
  String.substring (String.length p) n (p +:+ s) = String.substring 0 n s.
Proof. induction p as [|c p IH]; simpl; [reflexivity | exact IH]. Qed.

Lemma substring_from_skip p s :
  substring_from (p +:+ s) (Z.of_nat (String.length p)) = s.
Proof.
  unfold substring_from. rewrite clamp_index_of_nat, length_append_string.
  replace (Nat.min _ _) with (String.length p) by lia.
  rewrite substring_skip.
  replace (String.length p + String.length s - String.length p)%nat
    with (String.length s) by lia.
  apply substring_all.
Qed.

Lemma index_cons s1 c s2 :
  String.index 0 s1 (String c s2) =
  if String.prefix s1 (String c s2) then Some 0%nat
  else match String.index 0 s1 s2 with Some n => Some (S n) | None => None end.
Proof. reflexivity. Qed.

Lemma prefix_slash c r : String.prefix "/" (String c r) = Ascii.eqb c "/".
Proof.
  change (String.prefix "/" (String c r))
    with (if ascii_dec "/" c then String.prefix "" r else false).
  destruct (ascii_dec "/" c) as [<-|Hc].
  - by destruct r.
  - symmetry. apply Ascii.eqb_neq. congruence.
Qed.

Lemma index_first_slash ch rest :
  has_slash ch = false ->
  String.index 0 "/" (ch +:+ String "/" rest) = Some (String.length ch).
Proof.
  induction ch as [|c ch IH]; intros H.
  - change ("" +:+ String "/" rest) with (String "/" rest).
    by rewrite index_cons, prefix_slash.
  - cbn [has_slash] in H. apply orb_false_iff in H as [Hc H].
    change (String c ch +:+ String "/" rest) with (String c (ch +:+ String "/" rest)).
    by rewrite index_cons, prefix_slash, Hc, (IH H).
Qed.

Lemma index_no_slash s : has_slash s = false -> String.index 0 "/" s = None.
Proof.
  induction s as [|c s IH]; intros H; [reflexivity|].
  cbn [has_slash] in H. apply orb_false_iff in H as [Hc H].
  by rewrite index_cons, prefix_slash, Hc, (IH H).
Qed.

Lemma append_slash ch node : (ch +:+ "/") +:+ node = ch +:+ String "/" node.
Proof.
  induction ch as [|c ch IH]; [reflexivity|].
  change (String c ((ch +:+ "/") +:+ node) = String c (ch +:+ String "/" node)).
  by rewrite IH.
Qed.

Lemma indexOf_user x : indexOf ("/user/" +:+ x) "/user/" = 0.
Proof. unfold indexOf. by destruct x. Qed.

Lemma substring_from_user x : substring_from ("/user/" +:+ x) (0 + 6) = x.
Proof. apply (substring_from_skip "/user/" x). Qed.

Lemma feed_of_eq nodeId from es can :
  substring_from nodeId (indexOf nodeId "/user/" + 6) = can ->
  feed_of nodeId from es =
    {| feed_channel := substring_between can 0 (indexOf can "/");
       feed_node := substring_from can (indexOf can "/" + 1);
       feed_from := from; feed_entries := es |}.
Proof. intros <-. reflexivity. Qed.

Lemma feed_of_channel_and_node ch node from es nodeId :
  substring_from nodeId (indexOf nodeId "/user/" + 6) = ch +:+ "/" +:+ node ->
  has_slash ch = false ->
  feed_of nodeId from es =
    {| feed_channel := ch; feed_node := node; feed_from := from; feed_entries := es |}.
Proof.
  intros E H. rewrite (feed_of_eq _ _ _ _ E).
  unfold indexOf. change (ch +:+ "/" +:+ node) with (ch +:+ String "/" node).
  rewrite (index_first_slash ch node H).
  f_equal.
  - unfold substring_between. rewrite clamp_index_of_nat, (clamp_index_of_nat 0).
    rewrite length_append_string.
    replace (Nat.min (String.length ch) _) with (String.length ch) by lia.
    cbn [Nat.min Nat.max]. rewrite Nat.sub_0_r. apply substring_prefix.
  - replace (Z.of_nat (String.length ch) + 1) with
      (Z.of_nat (String.length (ch +:+ "/"))) by (rewrite length_append_string; cbn; lia).
    rewrite <- append_slash. apply substring_from_skip.
Qed.

(** The channel and the node of a node id [/user/<channel>/<node>]. *)
Lemma feed_of_user_node ch node from es :
  has_slash ch = false ->
  feed_of ("/user/" +:+ ch +:+ "/" +:+ node) from es =
    {| feed_channel := ch; feed_node := node; feed_from := from; feed_entries := es |}.
Proof.
  apply feed_of_channel_and_node. by rewrite indexOf_user, substring_from_user.
Qed.

(** A node id [/user/<rest>] without a further slash: the channel is
    empty and the node is all of [rest]. *)
Lemma feed_of_without_node rest from es :
  has_slash rest = false ->
  feed_of ("/user/" +:+ rest) from es =
    {| feed_channel := ""; feed_node := rest; feed_from := from; feed_entries := es |}.
Proof.
  intros H.
  rewrite (feed_of_eq _ _ _ rest) by (by rewrite indexOf_user, substring_from_user).
  unfold indexOf. rewrite (index_no_slash rest H).
  f_equal.
  - unfold substring_between. rewrite (clamp_index_of_nat 0).
    replace (clamp_index (-1) rest) with 0%nat by (unfold clamp_index; lia).
    cbn. by destruct rest.
  - change (-1 + 1) with (Z.of_nat (String.length "")).
    apply (substring_from_skip "" rest).
Qed.

(** A node id without [/user/]: its first five characters are passed
    over. *)
Lemma feed_of_without_user pre ch node from es :
  String.index 0 "/user/" (pre +:+ ch +:+ "/" +:+ node) = None ->
  String.length pre = 5%nat ->
  has_slash ch = false ->
  feed_of (pre +:+ ch +:+ "/" +:+ node) from es =
    {| feed_channel := ch; feed_node := node; feed_from := from; feed_entries := es |}.
Proof.
  intros Hi Hpre. apply feed_of_channel_and_node.
  unfold indexOf. rewrite Hi.
  change (-1 + 6) with (Z.of_nat 5). rewrite <- Hpre. apply substring_from_skip.
Qed.

(** ** More on the session *)

Section MoreSessionFacts.
Variable config : Config.

(** *** What a computation leaves alone *)

Section Frames.
Context {B : Type} (proj : Session -> B) (ok : Effect -> bool).

Lemma frames_ret {A} (a : A) : frames proj ok (mret a).
Proof. intros s. split; [reflexivity | constructor]. Qed.

Lemma frames_throw {A} e : frames proj ok (@throw A e).
Proof. intros s. split; [reflexivity | constructor]. Qed.

Lemma frames_get : frames proj ok get_session.
Proof. intros s. split; [reflexivity | constructor]. Qed.

Lemma frames_read_sub a : frames proj ok (read_sub a).
Proof.
  intros s. unfold read_sub. destruct (s_subObjs s !! a); (split; [reflexivity | constructor]).
Qed.

Lemma frames_read_userData u : frames proj ok (read_userData u).
Proof.
  intros s. unfold read_userData.
  destruct (s_userDatas s !! u); (split; [reflexivity | constructor]).
Qed.

Lemma frames_modify f : (forall s, proj (f s) = proj s) -> frames proj ok (modify f).
Proof. intros H s. split; [apply H | constructor]. Qed.

Lemma frames_tell e : ok e = true -> frames proj ok (tell e).
Proof. intros H s. split; [reflexivity | by repeat constructor]. Qed.

Lemma frames_bind {A C} (m : M A) (f : A -> M C) :
  frames proj ok m -> (forall a, frames proj ok (f a)) -> frames proj ok (m ≫= f).
Proof.
  intros Hm Hf s. destruct (Hm s) as [E1 F1].
  rewrite final_state_bind, effects_of_bind.
  destruct (outcome_of (m s)) as [a|e].
  - destruct (Hf a (final_state (m s))) as [E2 F2].
    split; [congruence | by apply Forall_app].
  - split; [exact E1 | by rewrite app_nil_r].
Qed.

Lemma frames_for_each {A} (f : A -> M unit) xs :
  (forall x, frames proj ok (f x)) -> frames proj ok (for_each f xs).
Proof.
  intros Hf. induction xs as [|x xs IH]; cbn [for_each].
  - apply frames_ret.
  - apply frames_bind; [apply Hf | intros _; exact IH].
Qed.

Lemma frames_settle m : frames proj ok m -> frames proj ok (settle m).
Proof.
  intros H s. rewrite final_state_settle, effects_of_settle. apply H.
Qed.

End Frames.

Section FramesOfSession.
Context {B : Type} (proj : Session -> B) (ok : Effect -> bool).
Hypothesis proj_userDatas : forall uds s, proj (set_userDatas uds s) = proj s.
Hypothesis proj_replyHandlers : forall c s, proj (set_replyHandlers c s) = proj s.
Hypothesis proj_subObjs : forall h s, proj (set_subObjs h s) = proj s.
Hypothesis proj_subs_props : forall h s, proj (set_subs_props h s) = proj s.
Hypothesis proj_subs : forall h s, proj (set_subs h s) = proj s.
Hypothesis ok_CallHandler : forall h st, ok (CallHandler h st) = true.
Hypothesis ok_CallOnSub : forall c u, ok (CallOnSub c u) = true.
Hypothesis ok_CallOnError : forall c m, ok (CallOnError c m) = true.
Hypothesis ok_CallStanzaHandler : forall h st, ok (CallStanzaHandler h st) = true.
Hypothesis ok_HttpPost :
  truthy (fanoutRealm config) = true -> forall r, ok (HttpPost r) = true.

Lemma frames_push_item u e : frames proj ok (push_item u e).
Proof.
  unfold push_item, write_userData.
  apply frames_bind; [apply frames_read_userData | intros d].
  destruct (ud_items d); [|apply frames_throw].
  apply frames_modify. intros s. apply proj_userDatas.
Qed.

Lemma frames_subscribe_onreply a K reply : frames proj ok (subscribe_onreply a K reply).
Proof.
  unfold subscribe_onreply, write_sub.
  destruct (decide _).
  - apply frames_bind; [apply frames_read_sub | intros sub].
    apply frames_bind; [apply frames_modify; intros s; apply proj_subObjs | intros _].
    apply frames_for_each. intros p. apply frames_tell, ok_CallOnSub.
  - apply frames_bind; [apply frames_read_sub | intros sub].
    apply frames_bind; [apply frames_modify; intros s; apply proj_subs_props | intros _].
    apply frames_for_each. intros p. apply frames_tell, ok_CallOnError.
Qed.

Lemma frames_call_handler h reply : frames proj ok (call_handler h reply).
Proof.
  unfold call_handler.
  apply frames_bind; [apply frames_tell, ok_CallHandler | intros _].
  destruct h; [apply frames_ret | apply frames_subscribe_onreply].
Qed.

Lemma frames_handle_reply st : frames proj ok (handle_reply st).
Proof.
  unfold handle_reply.
  destruct (st_attrs st !! "id") as [id|]; [|apply frames_ret].
  destruct (truthy (JStr id)); [|apply frames_ret].
  apply frames_bind; [apply frames_get | intros s].
  destruct (Cache_get _ _ _); [|apply frames_ret].
  apply frames_bind; [apply frames_modify; intros s'; apply proj_replyHandlers | intros _].
  apply frames_call_handler.
Qed.

Lemma frames_onStanza_callback sh st : frames proj ok (onStanza_callback sh st).
Proof.
  unfold onStanza_callback.
  apply frames_bind; [apply frames_tell, ok_CallStanzaHandler | intros _].
  destruct (sh_done sh st); [apply frames_throw | apply frames_ret].
Qed.

Lemma frames_expire_reply k : frames proj ok (expire_reply k).
Proof.
  unfold expire_reply.
  apply frames_bind; [apply frames_get | intros s].
  destruct (Cache_due _ _ _); [|apply frames_ret].
  apply frames_bind.
  - destruct (cache_onexpired _) as [[|]|]; try apply frames_ret.
    apply frames_call_handler.
  - intros _. apply frames_modify. intros s'. apply proj_replyHandlers.
Qed.

Lemma frames_expire_sub k : frames proj ok (expire_sub k).
Proof.
  unfold expire_sub.
  apply frames_bind; [apply frames_get | intros s].
  destruct (Cache_due _ _ _); [|apply frames_ret].
  apply frames_modify. intros s'. apply proj_subs.
Qed.

Lemma frames_write_userData u d : frames proj ok (write_userData u d).
Proof. apply frames_modify. intros s. apply proj_userDatas. Qed.

Lemma frames_handle_event st : frames proj ok (handle_event config st).
Proof.
  unfold handle_event.
  destruct (String.eqb _ _); [|apply frames_ret].
  destruct (st_items st) as [items|]; [|apply frames_ret].
  apply frames_bind; [apply frames_get | intros s].
  destruct (s_subs_props s !! _) as [a|]; [|apply frames_ret].
  apply frames_bind; [apply frames_read_sub | intros sub].
  apply frames_bind; [apply frames_read_userData | intros d].
  apply frames_bind.
  { destruct (ud_items d); [apply frames_ret | apply frames_write_userData]. }
  intros _. apply frames_bind.
  { apply frames_for_each. intros e. apply frames_push_item. }
  intros _. case_eq (truthy (fanoutRealm config)); intros Hrealm; [|apply frames_ret].
  unfold fanout_latest.
  apply frames_bind; [apply frames_read_userData | intros d'].
  destruct (ud_items d') as [its|]; [|apply frames_throw].
  destruct (last its) as [item|]; [|apply frames_throw].
  apply frames_bind; [apply frames_write_userData | intros _].
  apply frames_bind; [apply frames_get | intros s'].
  apply frames_bind; [|intros _]; apply frames_tell, ok_HttpPost, Hrealm.
Qed.

Lemma frames_emit_stanza st : frames proj ok (emit_stanza config st).
Proof.
  unfold emit_stanza.
  apply frames_bind; [apply frames_get | intros s].
  apply frames_for_each. intros [|sh]; cbn [run_listener].
  - unfold stanza_listener. apply frames_bind; [apply frames_handle_event | intros _].
    apply frames_handle_reply.
  - apply frames_onStanza_callback.
Qed.

End FramesOfSession.

(** *** Fan-out switched off *)

Lemma frames_run {B} (proj : Session -> B) ok evs :
  (forall ev, frames proj ok (step config ev)) -> frames proj ok (run config evs).
Proof.
  intros H. unfold run. apply frames_for_each. intros ev. apply frames_settle, H.
Qed.

(** X13.  Without a fan-out realm in the configuration the session never posts
    anything, whatever it reacts to. *)
Theorem fanout_disabled_never_posts evs s :
  truthy (fanoutRealm config) = false ->
  posts (effects_of (run config evs s)) = [] /\
  post_paths (effects_of (run config evs s)) = [].
Proof.
  intros Hrealm.
  assert (F : Forall (fun e => negb (is_post e) = true) (effects_of (run config evs s))).
  { apply (frames_run (fun _ => tt) (fun e => negb (is_post e))).
    intros ev. destruct ev as [st|iq cb q|n c1 c2 q|sh|d|k|k]; cbn [step].
    - apply frames_emit_stanza; try done. rewrite Hrealm. discriminate.
    - unfold sendQuery.
      apply frames_bind; [by apply frames_modify | intros _].
      apply frames_bind; [apply frames_get | intros s1]. by apply frames_tell.
    - unfold subscribe, write_sub, alloc_userData, alloc_sub, sendQuery.
      apply frames_bind; [apply frames_get | intros s1].
      destruct (s_subs_props s1 !! _) as [a|].
      + apply frames_bind; [apply frames_read_sub | intros sub].
        destruct (sub_state sub); cbv iota.
        { by apply frames_modify. }
        { by apply frames_tell. }
      + apply frames_bind; [intros s2; split; [reflexivity | constructor] | intros u].
        apply frames_bind; [intros s2; split; [reflexivity | constructor] | intros a].
        apply frames_bind; [by apply frames_modify | intros _].
        apply frames_bind; [apply frames_get | intros s2].
        apply frames_bind.
        * destruct (s_subsPresences s2 !! _) as [refs|];
            [destruct (negb _); [apply frames_ret|]|];
            (apply frames_bind; [by apply frames_modify | intros _; by apply frames_tell]).
        * intros _. apply frames_bind; [by apply frames_modify | intros _].
          apply frames_bind; [apply frames_get | intros s3]. by apply frames_tell.
    - by apply frames_modify.
    - by apply frames_modify.
    - by apply frames_expire_reply.
    - by apply frames_expire_sub. }
  assert (G : Forall (fun e => is_post e = false) (effects_of (run config evs s))).
  { eapply Forall_impl; [exact F|]. intros e He. by apply negb_true_iff. }
  split; [by apply posts_none|].
  clear F. induction G as [|e l He _ IH]; [reflexivity|].
  unfold post_paths in *. cbn. rewrite IH. by destruct e.
Qed.

Lemma classic_subscribe ev :
  (exists n c1 c2 q, ev = EvSubscribe n c1 c2 q) \/
  (forall n c1 c2 q, ev <> EvSubscribe n c1 c2 q).
Proof. destruct ev; eauto 6; by right. Qed.

(** *** The presence to the channel domain *)

Lemma has_presence_same s s' :
  s_subsPresences s' = s_subsPresences s ->
  has_presence config s' = has_presence config s.
Proof. unfold has_presence. by intros ->. Qed.

Lemma presences_none l :
  Forall (fun e => negb (is_presence e) = true) l -> presences l = [].
Proof.
  induction 1 as [|e l He _ IH]; [reflexivity|].
  unfold presences in *. cbn. rewrite IH.
  destruct e as [[]| | | | |]; try reflexivity. discriminate.
Qed.

Lemma frames_presence_step ev :
  (forall n c1 c2 q, ev <> EvSubscribe n c1 c2 q) ->
  frames s_subsPresences (fun e => negb (is_presence e)) (step config ev).
Proof.
  intros Hev. destruct ev as [st|iq cb q|n c1 c2 q|sh|d|k|k]; cbn [step].
  - by apply frames_emit_stanza.
  - unfold sendQuery.
    apply frames_bind; [by apply frames_modify | intros _].
    apply frames_bind; [apply frames_get | intros s1]. by apply frames_tell.
  - by destruct (Hev n c1 c2 q).
  - by apply frames_modify.
  - by apply frames_modify.
  - by apply frames_expire_reply.
  - by apply frames_expire_sub.
Qed.

Lemma subscribe_dangling nodeId c1 c2 q s a :
  s_subs_props s !! subkey_of config nodeId = Some a ->
  s_subObjs s !! a = None ->
  subscribe config nodeId c1 c2 q s = (s, [], Thrown (TypeError "sub is undefined")).
Proof.
  intros Hp Ha. unfold subscribe, subkey_of in *.
  unfold mbind at 1, M_bind at 1. cbn [get_session]. rewrite Hp.
  unfold mbind, M_bind, read_sub. by rewrite Ha.
Qed.

(** What one call of [subscribe] does about the presence. *)
Lemma subscribe_presence nodeId c1 c2 q s :
  let r := subscribe config nodeId c1 c2 q s in
  (s_subsPresences (final_state r) = s_subsPresences s /\ presences (effects_of r) = []) \/
  (has_presence config s = false /\ has_presence config (final_state r) = true /\
   presences (effects_of r) = [OPresence (s_jid s) (channelDomain config)]).
Proof.
  cbn zeta. destruct (s_subs_props s !! subkey_of config nodeId) as [a|] eqn:Hp.
  - left. destruct (s_subObjs s !! a) as [sub|] eqn:Ha.
    + destruct (sub_state sub) eqn:Hst.
      * by rewrite (subscribe_subscribing config nodeId c1 c2 q s a sub Hp Ha Hst).
      * by rewrite (subscribe_subscribed config nodeId c1 c2 q s a sub Hp Ha Hst).
    + by rewrite (subscribe_dangling nodeId c1 c2 q s a Hp Ha).
  - destruct (after_subscribe_absent config nodeId c1 c2 q s Hp)
      as (_ & _ & _ & _ & _ & _ & _ & _ & _ & E).
    pose proof (has_presence_after_subscribe config nodeId c1 c2 q s Hp) as Hafter.
    rewrite (subscribe_absent config nodeId c1 c2 q s Hp) in *.
    destruct (has_presence config s); [left | right]; by cbn.
Qed.

(** X14.  Whatever a session reacts to, it sends at most one presence; when a
    presence count is recorded already it sends none, and does not change
    what is recorded. *)
Theorem at_most_one_presence evs s :
  (length (presences (effects_of (run config evs s))) <= 1)%nat /\
  (has_presence config s = true ->
   presences (effects_of (run config evs s)) = [] /\
   s_subsPresences (final_state (run config evs s)) = s_subsPresences s).
Proof.
  split.
  - pose (Ψ := fun (s' : Session) (l : list Effect) =>
        (has_presence config s' = false -> presences l = []) /\
        (length (presences l) <= 1)%nat).
    assert (K : keeps Ψ (run config evs)).
    { unfold run. apply keeps_for_each. intros ev. apply keeps_settle.
      intros s' l0 [H1 H2]. unfold Ψ. rewrite presences_app.
      destruct (classic_subscribe ev) as [(n & c1 & c2 & q & ->) | Hev].
      - cbn [step].
        destruct (subscribe_presence n c1 c2 q s') as [[E1 E2] | (Hf & Ht & E2)];
          rewrite E2.
        + rewrite app_nil_r, (has_presence_same _ _ E1). by split.
        + rewrite Ht, (H1 Hf). split; [discriminate | cbn; lia].
      - destruct (frames_presence_step ev Hev s') as [E F].
        rewrite (presences_none _ F), app_nil_r, (has_presence_same _ _ E). by split. }
    assert (H0 : Ψ s []) by (split; [reflexivity | cbn; lia]).
    exact (proj2 (K s [] H0)).
  - intros Hp.
    pose (Ψ := fun (s' : Session) (l : list Effect) =>
        s_subsPresences s' = s_subsPresences s /\ presences l = []).
    assert (K : keeps Ψ (run config evs)).
    { unfold run. apply keeps_for_each. intros ev. apply keeps_settle.
      intros s' l0 [H1 H2]. unfold Ψ. rewrite presences_app, H2.
      destruct (classic_subscribe ev) as [(n & c1 & c2 & q & ->) | Hev].
      - cbn [step].
        destruct (subscribe_presence n c1 c2 q s') as [[E1 E2] | (Hf & _)].
        + rewrite E1, E2. by split.
        + rewrite (has_presence_same _ _ H1), Hp in Hf. discriminate.
      - destruct (frames_presence_step ev Hev s') as [E F].
        rewrite (presences_none _ F), E. by split. }
    assert (H0 : Ψ s []) by (by split).
    destruct (K s [] H0) as [H1 H2]. by split.
Qed.

(** *** Late subscribers and early items *)

(** X6.  Once an entry is [subscribed], every later [subscribe] for its topic,
    whatever the session has reacted to in between, calls [onsub] at once
    with the [userData] object of the entry: it sends nothing, stores
    nothing and never calls [onerror]. *)
Theorem late_subscribe_served_at_once s nodeId a sub evs c e q :
  session_ok config s ->
  s_subs_props s !! subkey_of config nodeId = Some a ->
  s_subObjs s !! a = Some sub ->
  sub_state sub = subscribed ->
  let s' := final_state (run config evs s) in
  step config (EvSubscribe nodeId c e q) s' =
    (s', [(CallOnSub c (sub_userData sub), s')], Returned tt).
Proof.
  intros Hs Hp Ha Hst. cbn zeta.
  destruct (ok_step_run config evs s Hs) as [_ P].
  destruct (P _ _ Hp) as [Hp' Ha'].
  { unfold state_at. by rewrite Ha, <- Hst. }
  rewrite Ha in Ha'. cbn [step].
  exact (subscribe_subscribed config nodeId c e q _ a sub Hp' Ha' Hst).
Qed.

Lemma emit_publish_event_state st nodeId es s a sub d ls :
  s_listeners s = LMain :: ls ->
  Forall (fun l => l <> LMain) ls ->
  is_publish_event st nodeId es ->
  s_subs_props s !! subkey_of config nodeId = Some a ->
  s_subObjs s !! a = Some sub ->
  s_userDatas s !! sub_userData sub = Some d ->
  no_pending_reply s st ->
  exists uds d',
    final_state (emit_stanza config st s) = set_userDatas uds s /\
    uds !! sub_userData sub = Some d' /\
    ud_items d' = Some (items_of (initialised st d) ++ map make_item es).
Proof.
  intros Hl Hls Hev Hp Ha Hu Hnone.
  destruct (emit_stanza_ok config st s ls Hl Hls) as (Ef & _).
  destruct (handle_event_publish config st nodeId es s a sub d Hev Hp Ha Hu)
    as (uds & l & o & E & _ & H).
  assert (exists d', uds !! sub_userData sub = Some d' /\
                     ud_items d' = Some (items_of (initialised st d) ++ map make_item es))
    as (d' & Hd' & Hitems).
  { cbn in H. destruct (truthy (fanoutRealm config)); [destruct (last _)|];
      destruct H as (-> & _); eauto. }
  exists uds, d'. split; [|by split].
  rewrite Ef. unfold stanza_listener. rewrite final_state_bind, E.
  cbn [outcome_of final_state fst snd].
  destruct o as [[]|e]; [|reflexivity].
  by rewrite handle_reply_none.
Qed.

(** X7.  Items that arrive for a topic while its entry is still [subscribing]
    are kept: when the reply of type result comes, [onsub] gets a
    [userData] object that holds them already. *)
Theorem items_before_reply_are_kept s nodeId c1 e1 q st es reply :
  session_ok config s ->
  s_subs_props s !! subkey_of config nodeId = None ->
  (0 < cache_ttl (s_replyHandlers s))%nat ->
  is_publish_event st nodeId es ->
  st_attrs st !! "id" = None ->
  String.eqb (st_name reply) "message" = false ->
  st_attrs reply !! "id" = Some q ->
  q <> "" ->
  st_attrs reply !! "type" = Some "result" ->
  let u := s_next s in
  let r := run config [EvSubscribe nodeId c1 e1 q; EvStanza st] s in
  let r' := step config (EvStanza reply) (final_state r) in
  exists snap d,
    (CallOnSub c1 u, snap) ∈ log_of r' /\
    s_userDatas snap !! u = Some d /\
    ud_items d = Some (map make_item es).
Proof.
  intros Hs Hp Httl Hev Hnoid Hname Hid Hq Hr. cbn zeta.
  rewrite !final_state_run_cons, final_state_run_nil, step_subscribe, !step_stanza.
  destruct (after_subscribe_absent config nodeId c1 e1 q s Hp)
    as (P1 & O1 & U1 & R1 & L1 & N1 & _).
  destruct (ok_step_subscribe config nodeId c1 e1 q s Hs) as [Hs1 _].
  set (s1 := final_state (subscribe config nodeId c1 e1 q s)) in *.
  set (sub0 := {| sub_state := subscribing;
                  sub_pending := [{| onsub := c1; onerror := e1 |}];
                  sub_userData := s_next s |}) in *.
  destruct (ok_listeners _ _ Hs1) as (ls & Hl & Hls).
  destruct (emit_publish_event_state st nodeId es s1 (S (s_next s)) sub0
              {| ud_items := None; ud_from := JUndefined; ud_prevId := JUndefined;
                 ud_lastPublishedId := JUndefined |} ls Hl Hls Hev)
    as (uds & d' & -> & Hd' & Hitems).
  { rewrite P1. apply lookup_insert_eq. }
  { rewrite O1. apply lookup_insert_eq. }
  { rewrite U1. apply lookup_insert_eq. }
  { unfold no_pending_reply. by rewrite Hnoid. }
  destruct (emit_subscribe_reply config reply q (S (s_next s)) (subkey_of config nodeId)
              (set_userDatas uds s1) sub0 ls) as (_ & l & El & _); try done.
  { cbn. rewrite R1, N1. apply Cache_get_put. lia. }
  { cbn. rewrite O1. apply lookup_insert_eq. }
  rewrite El. unfold after_subscribe_reply.
  destruct (decide (st_attrs reply !! "type" = Some "result")) as [_|Hn];
    [|contradiction].
  eexists _, d'. split; [|split; [|exact Hitems]].
  - apply elem_of_cons. right. apply elem_of_app. left. cbn. apply elem_of_cons. by left.
  - exact Hd'.
Qed.

(** X8.  A publish event for a topic without entry is dropped: nothing is
    stored or posted, and apart from the observers of [onStanza] nothing
    is called. *)
Theorem publish_without_entry_ignored s st items ls :
  s_listeners s = LMain :: ls ->
  Forall (fun l => l <> LMain) ls ->
  st_items st = Some items ->
  s_subs_props s !! subkey_of config (items_node items) = None ->
  no_pending_reply s st ->
  let r := step config (EvStanza st) s in
  final_state r = s /\
  Forall (fun e => is_stanza_handler_call e = true) (effects_of r).
Proof.
  intros Hl Hls Hi Hp Hnone. cbn zeta. rewrite step_stanza.
  destruct (emit_stanza_ok config st s ls Hl Hls) as (Ef & l & El & F).
  assert (E : stanza_listener config st s = (s, [], Returned tt)).
  { unfold stanza_listener, mbind, M_bind.
    by rewrite (handle_event_no_entry config st items s Hi Hp), handle_reply_none. }
  rewrite Ef, effects_of_log, El, E. split; [reflexivity|].
  cbn. by apply Forall_fmap.
Qed.

(** *** Publish events without entries *)

Lemma bind_thrown {A C} (m : M A) (f : A -> M C) s s' l e :
  m s = (s', l, Thrown e) -> (m ≫= f) s = (s', l, Thrown e).
Proof. intros H. unfold mbind, M_bind. by rewrite H. Qed.

(** X9.  With fan-out configured, a publish event without entries for a topic
    whose [userData] object holds no item makes the stanza listener throw:
    nothing is posted, a reply handler that waits for the id of the stanza
    is not called and stays, and no observer of [onStanza] sees the
    stanza.  The [userData] object is left with an empty item list. *)
Theorem publish_without_items_throws s st nodeId a sub d ls :
  truthy (fanoutRealm config) = true ->
  s_listeners s = LMain :: ls ->
  is_publish_event st nodeId [] ->
  s_subs_props s !! subkey_of config nodeId = Some a ->
  s_subObjs s !! a = Some sub ->
  s_userDatas s !! sub_userData sub = Some d ->
  items_of d = [] ->
  let r := step config (EvStanza st) s in
  outcome_of r = Thrown (TypeError "item is undefined") /\
  effects_of r = [] /\
  s_replyHandlers (final_state r) = s_replyHandlers s /\
  exists d', s_userDatas (final_state r) !! sub_userData sub = Some d' /\
             ud_items d' = Some [].
Proof.
  intros Hrealm Hl Hev Hp Ha Hu Hits. cbn zeta. rewrite step_stanza.
  destruct (handle_event_publish config st nodeId [] s a sub d Hev Hp Ha Hu)
    as (uds & l & o & E & _ & H).
  assert (Hnil : items_of (initialised st d) = []).
  { unfold initialised. destruct (ud_items d) eqn:Ed; [exact Hits | reflexivity]. }
  cbn zeta in H. rewrite Hrealm, Hnil in H. cbn in H. destruct H as (Hd & -> & ->).
  assert (Eemit : emit_stanza config st s =
                  (set_userDatas uds s, [], Thrown (TypeError "item is undefined"))).
  { unfold emit_stanza. unfold mbind at 1, M_bind at 1. cbn [get_session]. rewrite Hl.
    cbn [for_each run_listener].
    rewrite (bind_thrown (stanza_listener config st) _ s (set_userDatas uds s) []
               (TypeError "item is undefined")); [reflexivity|].
    unfold stanza_listener. by apply bind_thrown. }
  rewrite Eemit. do 3 (split; [reflexivity|]).
  eexists. split; [exact Hd | reflexivity].
Qed.

(** X10.  With fan-out configured, a publish event without entries for a topic
    that has been published before posts the latest item once more: the
    emission has the id of the one before, and that same id as its
    [prev-id]. *)
Theorem publish_without_entries_repeats_id s st1 st2 nodeId es1 item a sub d evs :
  truthy (fanoutRealm config) = true ->
  session_ok config s ->
  s_subs_props s !! subkey_of config nodeId = Some a ->
  s_subObjs s !! a = Some sub ->
  sub_state sub = subscribed ->
  s_userDatas s !! sub_userData sub = Some d ->
  is_publish_event st1 nodeId es1 ->
  is_publish_event st2 nodeId [] ->
  Forall (quiet nodeId) evs ->
  let d0 := initialised st1 d in
  last (items_of d0 ++ map make_item es1) = Some item ->
  let s1 := final_state (step config (EvStanza st1) s) in
  let s2 := final_state (run config evs s1) in
  posts (effects_of (step config (EvStanza st1) s)) =
    emission (fanout_id item) (ud_lastPublishedId d0) (feed_of nodeId (ud_from d0) es1) /\
  posts (effects_of (step config (EvStanza st2) s2)) =
    emission (fanout_id item) (JStr (fanout_id item)) (feed_of nodeId (ud_from d0) []) /\
  Forall (fun i => fo_prev_id i = fo_id i) (posts (effects_of (step config (EvStanza st2) s2))).
Proof.
  intros Hrealm Hs Hp Ha Hst Hu Hev1 Hev2 Hq d0 Hlast. cbn zeta.
  rewrite !step_stanza.
  destruct (emit_publish_event_intact config st1 nodeId es1 s a sub d item Hrealm Hst)
    as [H1 P1]; try done.
  pose proof (intact_run config nodeId a sub Hst evs _ _ Hq H1) as H2.
  destruct (emit_publish_event_intact config st2 nodeId [] _ a sub _ item Hrealm Hst H2 Hev2)
    as [_ P2].
  { cbn. unfold items_of at 1. cbn. fold d0. by rewrite app_nil_r. }
  assert (P2' : posts (effects_of (emit_stanza config st2
                        (final_state (run config evs (final_state (emit_stanza config st1 s)))))) =
                emission (fanout_id item) (JStr (fanout_id item))
                  (feed_of nodeId (ud_from d0) [])) by exact P2.
  split; [exact P1 | split; [exact P2'|]].
  rewrite P2'. unfold emission, prev_id_of. rewrite fanout_id_truthy.
  by repeat constructor.
Qed.

(** *** Where the fan-out posts go *)

Lemma has_slash_app s t : has_slash (s +:+ t) = has_slash s || has_slash t.
Proof.
  induction s as [|c s IH]; [reflexivity|].
  change (has_slash (String c (s +:+ t)) = has_slash (String c s) || has_slash t).
  cbn [has_slash]. by rewrite IH, orb_assoc.
Qed.

Lemma post_paths_app l1 l2 : post_paths (l1 ++ l2) = post_paths l1 ++ post_paths l2.
Proof. apply omap_app. Qed.

Lemma post_paths_none l :
  Forall (fun e => negb (is_post e) = true) l -> post_paths l = [].
Proof.
  induction 1 as [|e l He _ IH]; [reflexivity|].
  unfold post_paths in *. cbn. rewrite IH. by destruct e.
Qed.

Lemma handle_event_publish_paths st nodeId es s a sub d item :
  truthy (fanoutRealm config) = true ->
  is_publish_event st nodeId es ->
  s_subs_props s !! subkey_of config nodeId = Some a ->
  s_subObjs s !! a = Some sub ->
  s_userDatas s !! sub_userData sub = Some d ->
  last (items_of (initialised st d) ++ map make_item es) = Some item ->
  let ch := makeChannelName (s_jid s +:+ "_" +:+ nodeId) in
  outcome_of (handle_event config st s) = Returned tt /\
  post_paths (effects_of (handle_event config st s)) =
    [ "/realm/" +:+ js_to_string (fanoutRealm config) +:+ "/publish/" +:+
        (ch +:+ "-atom") +:+ "/";
      "/realm/" +:+ js_to_string (fanoutRealm config) +:+ "/publish/" +:+
        (ch +:+ "-json") +:+ "/" ].
Proof.
  intros Hrealm [Hname Hitems] Hp Ha Hu Hlast. cbn zeta.
  assert (exists r, handle_event config st s = r /\
            outcome_of r = Returned tt /\
            post_paths (effects_of r) =
              [ "/realm/" +:+ js_to_string (fanoutRealm config) +:+ "/publish/" +:+
                  (makeChannelName (s_jid s +:+ "_" +:+ nodeId) +:+ "-atom") +:+ "/";
                "/realm/" +:+ js_to_string (fanoutRealm config) +:+ "/publish/" +:+
                  (makeChannelName (s_jid s +:+ "_" +:+ nodeId) +:+ "-json") +:+ "/" ])
    as (r & <- & H); [|exact H].
  assert (exists uds0,
    (match ud_items d with
     | Some _ => mret ()
     | None => write_userData (sub_userData sub)
                 {| ud_items := Some []; ud_from := stanza_attr st "from";
                    ud_prevId := JNull; ud_lastPublishedId := JNull |}
     end) s = (set_userDatas uds0 s, [], Returned tt) /\
    uds0 !! sub_userData sub = Some (initialised st d))
    as (uds0 & E0 & H0).
  { unfold initialised. destruct (ud_items d).
    - exists (s_userDatas s). split; [by destruct s | exact Hu].
    - eexists. split; [reflexivity | apply lookup_insert_eq]. }
  destruct (for_each_push_item (sub_userData sub) es (set_userDatas uds0 s)
              (initialised st d) (items_of (initialised st d)) H0
              (initialised_items st d)) as (uds1 & E1 & H1 & _).
  eexists. split.
  - unfold handle_event. rewrite Hname, Hitems, String.eqb_refl.
    cbn [items_entries items_node].
    unfold subkey_of in Hp.
    unfold mbind at 1, M_bind at 1. cbn [get_session]. rewrite Hp.
    unfold mbind at 1, M_bind at 1. unfold read_sub. rewrite Ha.
    unfold mbind at 1, M_bind at 1. unfold read_userData at 1. rewrite Hu.
    unfold mbind at 1, M_bind at 1. rewrite E0.
    unfold mbind at 1, M_bind at 1. rewrite E1.
    cbn [set_userDatas s_id s_jid s_replyHandlers
      s_subs s_subs_props s_subsPresences s_subObjs s_userDatas s_next s_listeners s_now].
    rewrite Hrealm.
    unfold fanout_latest. unfold mbind at 1, M_bind at 1.
    unfold read_userData.
    change (s_userDatas (set_userDatas uds1 (set_userDatas uds0 s))) with uds1.
    rewrite H1. cbn [with_items ud_items]. rewrite Hlast.
    reflexivity.
  - split; reflexivity.
Qed.

(** X11.  With fan-out configured, a publish event that brings or finds an item
    is posted twice, to [/realm/<realm>/publish/<channel>-atom/] and to
    [.../<channel>-json/], where the channel is the session's jid, an
    underscore and the node id with every slash turned into a dot: neither
    channel holds a slash. *)
Theorem fanout_post_paths s st nodeId es a sub d ls item :
  truthy (fanoutRealm config) = true ->
  s_listeners s = LMain :: ls ->
  Forall (fun l => l <> LMain) ls ->
  is_publish_event st nodeId es ->
  s_subs_props s !! subkey_of config nodeId = Some a ->
  s_subObjs s !! a = Some sub ->
  s_userDatas s !! sub_userData sub = Some d ->
  last (items_of (initialised st d) ++ map make_item es) = Some item ->
  let ch := makeChannelName (s_jid s +:+ "_" +:+ nodeId) in
  post_paths (effects_of (step config (EvStanza st) s)) =
    [ "/realm/" +:+ js_to_string (fanoutRealm config) +:+ "/publish/" +:+
        (ch +:+ "-atom") +:+ "/";
      "/realm/" +:+ js_to_string (fanoutRealm config) +:+ "/publish/" +:+
        (ch +:+ "-json") +:+ "/" ] /\
  has_slash (ch +:+ "-atom") = false /\
  has_slash (ch +:+ "-json") = false.
Proof.
  intros Hrealm Hl Hls Hev Hp Ha Hu Hlast. cbn zeta. rewrite step_stanza.
  split; [|by rewrite !has_slash_app, has_slash_replace_slashes].
  destruct (handle_event_publish_paths st nodeId es s a sub d item
              Hrealm Hev Hp Ha Hu Hlast) as [Ho Hpaths].
  destruct (emit_stanza_ok config st s ls Hl Hls) as (_ & l & El & F).
  rewrite effects_of_log, El, fmap_app, post_paths_app.
  rewrite (post_paths_none (l.*1)).
  2:{ apply Forall_fmap. eapply Forall_impl; [exact F|]. intros [e x] He. cbn in *.
      by destruct e. }
  rewrite app_nil_r, <- effects_of_log. unfold stanza_listener.
  rewrite effects_of_bind, Ho, post_paths_app, Hpaths.
  rewrite (post_paths_none (effects_of (handle_reply st _))); [reflexivity|].
  by apply (frames_handle_reply (fun _ => tt)).
Qed.

(** X12.  The feed of the fan-out posts names the channel and the node that the
    listener cuts out of the node id.  For [/user/<channel>/<node>] these
    are [<channel>] and [<node>].  For [/user/<rest>] without a further
    slash the channel is empty and the node is [<rest>].  A node id without
    [/user/] that begins with five ASCII characters is read from its sixth
    character on. *)
Theorem fanout_feed_channel_and_node s st nodeId es a sub d ls item :
  truthy (fanoutRealm config) = true ->
  s_listeners s = LMain :: ls ->
  Forall (fun l => l <> LMain) ls ->
  is_publish_event st nodeId es ->
  s_subs_props s !! subkey_of config nodeId = Some a ->
  s_subObjs s !! a = Some sub ->
  s_userDatas s !! sub_userData sub = Some d ->
  last (items_of (initialised st d) ++ map make_item es) = Some item ->
  let d0 := initialised st d in
  let posted ch node :=
    posts (effects_of (step config (EvStanza st) s)) =
      emission (fanout_id item) (ud_lastPublishedId d0)
        {| feed_channel := ch; feed_node := node;
           feed_from := ud_from d0; feed_entries := es |} in
  (forall ch node, nodeId = "/user/" +:+ ch +:+ "/" +:+ node -> has_slash ch = false ->
                   posted ch node) /\
  (forall rest, nodeId = "/user/" +:+ rest -> has_slash rest = false -> posted "" rest) /\
  (forall pre ch node,
     nodeId = pre +:+ ch +:+ "/" +:+ node -> String.index 0 "/user/" nodeId = None ->
     String.length pre = 5%nat -> ascii_only pre = true -> has_slash ch = false ->
     posted ch node).
Proof.
  intros Hrealm Hl Hls Hev Hp Ha Hu Hlast. cbn zeta. rewrite step_stanza.
  destruct (emit_publish_event config st nodeId es s a sub d ls item
              Hrealm Hl Hls Hev Hp Ha Hu Hlast) as (_ & _ & _ & _ & ->).
  split; [|split].
  - intros ch node -> H. by rewrite feed_of_user_node.
  - intros rest -> H. by rewrite feed_of_without_node.
  - intros pre ch node -> Hi Hpre _ H. by rewrite feed_of_without_user.
Qed.

(** *** Observers *)

Lemma observers_notified st hs s :
  for_each (run_listener config st) (map LOnStanza hs) s =
    (s, map (fun h => (CallStanzaHandler (sh_id h) st, s)) (notified st hs),
     if forallb (fun h => negb (sh_done h st)) hs then Returned tt
     else Thrown (TypeError "this._connection.removeListener(callback)")).
Proof.
  induction hs as [|h hs IH]; [reflexivity|].
  cbn [map for_each run_listener notified forallb].
  unfold mbind at 1, M_bind at 1.
  unfold onStanza_callback, mbind, M_bind. cbn [tell].
  destruct (sh_done h st); cbn; [reflexivity|].
  fold (@mbind M _ unit unit). rewrite IH. reflexivity.
Qed.

Lemma run_onStanza hs : forall s,
  run config (map EvOnStanza hs) s =
    (set_listeners (s_listeners s ++ map LOnStanza hs) s, [], Returned tt).
Proof.
  induction hs as [|h hs IH]; intros s.
  - cbn. rewrite app_nil_r. by destruct s.
  - unfold run in *. cbn [map for_each]. unfold mbind, M_bind.
    cbn [settle step onStanza modify]. rewrite IH. cbn.
    by rewrite <- app_assoc.
Qed.

Lemma notified_all st hs :
  Forall (fun h => sh_done h st = false) hs -> notified st hs = hs.
Proof.
  induction 1 as [|h r Hh _ IH]; [reflexivity|]. cbn [notified]. by rewrite Hh, IH.
Qed.

(** X15.  The observers registered with [onStanza] are called for a stanza after
    the stanza listener of the session, in the order of their
    registration, as long as they return a falsy value; the first that
    returns a truthy one ends the emit, so that the observers registered
    after it do not see this stanza.  All of them stay registered. *)
Theorem observers_called_in_order s hs st :
  s_listeners s = [LMain] ->
  let s1 := final_state (run config (map EvOnStanza hs) s) in
  outcome_of (stanza_listener config st s1) = Returned tt ->
  effects_of (step config (EvStanza st) s1) =
    effects_of (stanza_listener config st s1) ++
    map (fun h => CallStanzaHandler (sh_id h) st) (notified st hs) /\
  s_listeners (final_state (step config (EvStanza st) s1)) = LMain :: map LOnStanza hs /\
  (Forall (fun h => sh_done h st = false) hs -> notified st hs = hs).
Proof.
  intros Hl. cbn zeta. rewrite run_onStanza, Hl. cbn [final_state fst app].
  set (s1 := set_listeners (LMain :: map LOnStanza hs) s). intros Ho.
  rewrite step_stanza. split; [|split].
  - unfold emit_stanza. rewrite effects_of_bind. cbn [get_session outcome_of snd final_state fst].
    change (effects_of (get_session s1)) with (@nil Effect). cbn [app].
    change (s_listeners s1) with (LMain :: map LOnStanza hs).
    cbn [for_each run_listener]. rewrite effects_of_bind, Ho.
    f_equal. rewrite observers_notified. unfold effects_of. cbn.
    by rewrite <- list_fmap_compose.
  - destruct (frames_emit_stanza s_listeners (fun _ => true)
                (fun _ _ => eq_refl) (fun _ _ => eq_refl) (fun _ _ => eq_refl)
                (fun _ _ => eq_refl) (fun _ _ => eq_refl) (fun _ _ => eq_refl)
                (fun _ _ => eq_refl) (fun _ _ => eq_refl) (fun _ _ => eq_refl)
                st s1) as [E _].
    exact E.
  - apply notified_all.
Qed.

(** *** A subscribe query that gets no reply *)

Lemma service_unavailable_type : st_attrs service_unavailable !! "type" <> Some "result".
Proof. unfold service_unavailable. cbn. rewrite lookup_singleton_eq. discriminate. Qed.

(** X16.  When the subscribe query of an entry has outlived the time-to-live,
    its expiry handles the synthesized error like a failed reply: every
    pending [onerror] is called with ['failed'], the entry and the reply
    handler are gone, and a further [subscribe] for the topic sends a new
    query. *)
Theorem subscribe_query_timeout s q a nodeId sub :
  cache_onexpired (s_replyHandlers s) = Some OnReplyExpired ->
  Cache_due q (s_now s) (s_replyHandlers s) = Some (HSubscribe a (subkey_of config nodeId)) ->
  s_subObjs s !! a = Some sub ->
  let r := step config (EvExpireReply q) s in
  effects_of r =
    CallHandler (HSubscribe a (subkey_of config nodeId)) service_unavailable ::
    map (fun p => CallOnError (onerror p) "failed") (sub_pending sub) /\
  entry_of config (final_state r) nodeId = None /\
  cache_data (s_replyHandlers (final_state r)) !! q = None /\
  (forall c e q2,
     sends (effects_of (subscribe config nodeId c e q2 (final_state r))) =
       (if has_presence config s then [] else [OPresence (s_jid s) (channelDomain config)]) ++
       [OIq (PSubscribe nodeId (s_jid s) true) (s_jid s) (channelDomain config) q2]).
Proof.
  intros Hon Hdue Ha. cbn zeta. cbn [step].
  assert (E : expire_reply q s =
    (set_replyHandlers (Cache_remove q (s_replyHandlers s))
       (set_subs_props (delete (subkey_of config nodeId) (s_subs_props s)) s),
     (CallHandler (HSubscribe a (subkey_of config nodeId)) service_unavailable, s) ::
     map (fun p => (CallOnError (onerror p) "failed",
                    set_subs_props (delete (subkey_of config nodeId) (s_subs_props s)) s))
       (sub_pending sub),
     Returned tt)).
  { unfold expire_reply. unfold mbind at 1, M_bind at 1. cbn [get_session].
    rewrite Hdue, Hon. unfold mbind, M_bind.
    rewrite (call_subscribe_handler_failure a _ service_unavailable s sub
               service_unavailable_type Ha).
    cbn. by rewrite app_nil_r. }
  rewrite E. cbn [final_state effects_of fst snd].
  assert (Hgone : s_subs_props
            (set_replyHandlers (Cache_remove q (s_replyHandlers s))
               (set_subs_props (delete (subkey_of config nodeId) (s_subs_props s)) s))
            !! subkey_of config nodeId = None).
  { cbn. apply lookup_delete_eq. }
  split; [|split; [|split]].
  - cbn. f_equal. by rewrite <- list_fmap_compose.
  - unfold entry_of. by rewrite Hgone.
  - cbn. apply lookup_delete_eq.
  - intros c e q2. rewrite (subscribe_absent config nodeId c e q2 _ Hgone).
    unfold effects_of. cbn.
    change (has_presence config (set_replyHandlers _ (set_subs_props _ s)))
      with (has_presence config s).
    by destruct (has_presence config s).
Qed.

(** *** Sessions as the constructor makes them *)

(** X18.  Whatever a session has reacted to since its construction: its stanza
    listener is the first listener and is there once; every entry refers
    to a subscription object whose [userData] object exists; two topics
    never share a subscription object or a [userData] object; and a
    waiting subscribe handler belongs to an entry that is [subscribing],
    one handler an entry at most. *)
Theorem reachable_session_in_order id jid now evs :
  let s := final_state (run config evs (Session_new config id jid now)) in
  (exists ls, s_listeners s = LMain :: ls /\ Forall (fun l => l <> LMain) ls) /\
  (forall n a, s_subs_props s !! subkey_of config n = Some a ->
     exists sub, entry_of config s n = Some sub /\
                 is_Some (s_userDatas s !! sub_userData sub)) /\
  (forall n1 n2 sub1 sub2,
     entry_of config s n1 = Some sub1 -> entry_of config s n2 = Some sub2 ->
     sub_userData sub1 = sub_userData sub2 -> n1 = n2) /\
  (forall k a K t,
     cache_data (s_replyHandlers s) !! k = Some (HSubscribe a K, t) ->
     s_subs_props s !! K = Some a /\ state_at s a = Some subscribing) /\
  (forall k1 k2 a K1 K2 t1 t2,
     cache_data (s_replyHandlers s) !! k1 = Some (HSubscribe a K1, t1) ->
     cache_data (s_replyHandlers s) !! k2 = Some (HSubscribe a K2, t2) ->
     k1 = k2).
Proof.
  cbn zeta.
  pose proof (session_ok_run config evs _ (session_ok_new config id jid now)) as H.
  split; [apply (ok_listeners _ _ H)|].
  split; [|split; [|split; [apply (ok_handlers _ _ H) | apply (ok_unique _ _ H)]]].
  - intros n a Hp. destruct (ok_props _ _ H _ _ Hp) as (sub & Ha & Hu).
    exists sub. split; [|exact Hu]. unfold entry_of. rewrite Hp. exact Ha.
  - intros n1 n2 sub1 sub2 H1 H2 Hu. unfold entry_of in H1, H2.
    destruct (s_subs_props _ !! subkey_of config n1) as [a1|] eqn:Hp1; [|discriminate].
    destruct (s_subs_props _ !! subkey_of config n2) as [a2|] eqn:Hp2; [|discriminate].
    cbn in H1, H2.
    assert (a1 = a2) as <- by (by apply (ok_userData _ _ H a1 a2 sub1 sub2)).
    apply (subkey_of_inj config). by apply (ok_inj _ _ H _ _ a1).
Qed.

(** *** A second reply *)

(** X17.  When the reply to a subscribe query has been handled, a further stanza
    with the same id finds no handler: it changes nothing and calls nobody
    but the observers of [onStanza].  A late error cannot undo a
    subscription, nor a late result revive a failed one. *)
Theorem subscribe_reply_handled_once reply q a nodeId s sub ls st2 :
  s_listeners s = LMain :: ls ->
  Forall (fun l => l <> LMain) ls ->
  String.eqb (st_name reply) "message" = false ->
  st_attrs reply !! "id" = Some q ->
  q <> "" ->
  Cache_get q (s_now s) (s_replyHandlers s) = Some (HSubscribe a (subkey_of config nodeId)) ->
  s_subObjs s !! a = Some sub ->
  String.eqb (st_name st2) "message" = false ->
  st_attrs st2 !! "id" = Some q ->
  let s' := final_state (step config (EvStanza reply) s) in
  let r := step config (EvStanza st2) s' in
  final_state r = s' /\
  Forall (fun e => is_stanza_handler_call e = true) (effects_of r).
Proof.
  intros Hl Hls Hname Hid Hq Hget Ha Hname2 Hid2. cbn zeta. rewrite !step_stanza.
  destruct (emit_subscribe_reply config reply q a _ s sub ls Hl Hls Hname Hid Hq Hget Ha)
    as (-> & _).
  set (s' := after_subscribe_reply reply q a (subkey_of config nodeId) sub s).
  assert (Hl' : s_listeners s' = LMain :: ls).
  { unfold s', after_subscribe_reply. by destruct (decide _). }
  assert (Hnone : no_pending_reply s' st2).
  { unfold no_pending_reply. rewrite Hid2.
    assert (cache_data (s_replyHandlers s') !! q = None) as Hd.
    { unfold s', after_subscribe_reply. destruct (decide _); cbn; apply lookup_delete_eq. }
    unfold Cache_get. by rewrite Hd. }
  destruct (emit_stanza_ok config st2 s' ls Hl' Hls) as (Ef & l & El & F).
  rewrite Ef, effects_of_log, El, (stanza_listener_idle config st2 s' Hname2 Hnone).
  split; [reflexivity|]. cbn. by apply Forall_fmap.
Qed.

End MoreSessionFacts.

(** ** The further statements at the sample data *)

Lemma known_session_id_reused_witness :
  (serve sample_config (session_id_request "k1") (ConnError JNull) "k2"
     sample_provider_with_session).1.2 =
  [SetHeader "X-Session-Id" "k1"; Next JUndefined].
Proof.
  apply (known_session_id_reused sample_config (session_id_request "k1") (ConnError JNull)
           "k2" sample_provider_with_session 0%nat "k1").
  - reflexivity.
  - reflexivity.
  - reflexivity.
  - discriminate.
Defined.

Lemma unknown_session_id_unauthorized_witness :
  serve sample_config (session_id_request "k9") (Online "x") "k2"
    sample_provider_with_session =
  (set_p_req (session_id_request "k9") sample_provider_with_session,
   [SendUnauthorized], tt).
Proof.
  apply (unknown_session_id_unauthorized sample_config (session_id_request "k9")
           (Online "x") "k2" sample_provider_with_session).
  - reflexivity.
  - reflexivity.
  - reflexivity.
Defined.

Lemma credentials_create_cached_session_witness :
  (serve sample_config (session_id_request "k1") (ConnError JNull) "k2"
     (set_p_now (0 + 599)
        (serve sample_config credential_request (Online "alice@example.org/http") "k1"
           sample_provider).1.1)).1.2 =
  [SetHeader "X-Session-Id" "k1"; Next JUndefined].
Proof.
  apply (credentials_create_cached_session sample_config credential_request
           "alice@example.org/http" "k1" sample_provider
           (session_id_request "k1") (ConnError JNull) "k2" 599).
  - reflexivity.
  - left. reflexivity.
  - discriminate.
  - reflexivity.
  - cbn. lia.
Defined.

Lemma session_cache_keys_are_ids_witness :
  let p := (serve_all sample_config
              [ {| arr_elapsed := 0; arr_req := credential_request;
                   arr_conn := Online "alice@example.org/http"; arr_key := "k1" |};
                {| arr_elapsed := 5; arr_req := sample_request;
                   arr_conn := Online "@example.org/anon"; arr_key := "k2" |} ]
              (Provider_init sample_config 0 sample_request)).1 in
  (forall k a t, cache_data (sessionCache p) !! k = Some (a, t) ->
     k <> "" /\ s_id <$> p_sessions p !! a = Some (JStr k)) /\
  (forall a, anonymousSession p = Some a ->
     s_id <$> p_sessions p !! a = Some JNull /\
     forall k t, cache_data (sessionCache p) !! k <> Some (a, t)).
Proof.
  apply (session_cache_keys_are_ids sample_config).
  repeat constructor.
Defined.

Lemma fanout_disabled_never_posts_witness :
  posts (effects_of
           (run sample_config_no_fanout
              [EvSubscribe sample_node 1 2 "q1"; EvStanza sample_reply_ok;
               EvStanza sample_event1]
              (Session_new sample_config_no_fanout (JStr "sid1") "alice@example.org/http" 0)))
  = [].
Proof.
  apply (fanout_disabled_never_posts sample_config_no_fanout). reflexivity.
Defined.

Lemma late_subscribe_served_at_once_witness :
  effects_of
    (step sample_config (EvSubscribe sample_node 3 4 "q2")
       (final_state (run sample_config [EvStanza sample_event1; EvElapse 5]
                       sample_subscribed))) =
  [CallOnSub 3 0].
Proof.
  rewrite (late_subscribe_served_at_once sample_config sample_subscribed sample_node 1
             (as_subscribed sample_pending_sub) [EvStanza sample_event1; EvElapse 5]
             3 4 "q2").
  - reflexivity.
  - unfold sample_subscribed, sample_subscribing.
    do 2 apply session_ok_run. apply session_ok_new.
  - reflexivity.
  - reflexivity.
  - reflexivity.
Defined.

Lemma items_before_reply_are_kept_witness :
  exists snap d,
    (CallOnSub 1 0, snap) ∈
      log_of (step sample_config (EvStanza sample_reply_ok)
                (final_state
                   (run sample_config
                      [EvSubscribe sample_node 1 2 "q1"; EvStanza sample_event1]
                      sample_session))) /\
    s_userDatas snap !! 0%nat = Some d /\
    ud_items d = Some (map make_item [sample_entry "e1" 1350345600123]).
Proof.
  apply (items_before_reply_are_kept sample_config sample_session sample_node 1 2 "q1"
           sample_event1 [sample_entry "e1" 1350345600123] sample_reply_ok).
  - apply session_ok_new.
  - reflexivity.
  - cbn. lia.
  - split; reflexivity.
  - reflexivity.
  - reflexivity.
  - reflexivity.
  - discriminate.
  - reflexivity.
Defined.

Lemma publish_without_entry_ignored_witness :
  final_state (step sample_config (EvStanza sample_event1) sample_session) = sample_session.
Proof.
  apply (publish_without_entry_ignored sample_config sample_session sample_event1
           {| items_node := sample_node;
              items_entries := [sample_entry "e1" 1350345600123] |} []).
  - reflexivity.
  - constructor.
  - reflexivity.
  - reflexivity.
  - exact I.
Defined.

Lemma publish_without_items_throws_witness :
  outcome_of (step sample_config (EvStanza sample_event_empty) sample_subscribed) =
  Thrown (TypeError "item is undefined").
Proof.
  apply (publish_without_items_throws sample_config sample_subscribed sample_event_empty
           sample_node 1 (as_subscribed sample_pending_sub) sample_userData []).
  - reflexivity.
  - reflexivity.
  - split; reflexivity.
  - reflexivity.
  - reflexivity.
  - reflexivity.
  - reflexivity.
Defined.

Lemma publish_without_entries_repeats_id_witness :
  posts (effects_of
           (step sample_config (EvStanza sample_event_empty)
              (final_state
                 (run sample_config [EvElapse 5]
                    (final_state
                       (step sample_config (EvStanza sample_event1) sample_subscribed)))))) =
  emission "e1_1350345600000" (JStr "e1_1350345600000")
    (feed_of sample_node (JStr "channels.example.org") []).
Proof.
  apply (publish_without_entries_repeats_id sample_config sample_subscribed sample_event1
           sample_event_empty sample_node [sample_entry "e1" 1350345600123]
           (make_item (sample_entry "e1" 1350345600123))
           1 (as_subscribed sample_pending_sub) sample_userData [EvElapse 5]).
  - reflexivity.
  - unfold sample_subscribed, sample_subscribing.
    do 2 apply session_ok_run. apply session_ok_new.
  - reflexivity.
  - reflexivity.
  - reflexivity.
  - reflexivity.
  - split; reflexivity.
  - split; reflexivity.
  - repeat constructor.
  - reflexivity.
Defined.

Lemma fanout_post_paths_witness :
  post_paths (effects_of (step sample_config (EvStanza sample_event1) sample_subscribed)) =
  [ "/realm/realm1/publish/alice@example.org.http_.user.bob@example.org.posts-atom/";
    "/realm/realm1/publish/alice@example.org.http_.user.bob@example.org.posts-json/" ].
Proof.
  apply (fanout_post_paths sample_config sample_subscribed sample_event1 sample_node
           [sample_entry "e1" 1350345600123] 1 (as_subscribed sample_pending_sub)
           sample_userData [] (make_item (sample_entry "e1" 1350345600123))).
  - reflexivity.
  - reflexivity.
  - constructor.
  - split; reflexivity.
  - reflexivity.
  - reflexivity.
  - reflexivity.
  - reflexivity.
Defined.

Lemma fanout_feed_channel_and_node_witness :
  posts (effects_of (step sample_config (EvStanza sample_event1) sample_subscribed)) =
  emission "e1_1350345600000" JNull
    {| feed_channel := "bob@example.org"; feed_node := "posts";
       feed_from := JStr "channels.example.org";
       feed_entries := [sample_entry "e1" 1350345600123] |}.
Proof.
  refine (proj1 (fanout_feed_channel_and_node sample_config sample_subscribed sample_event1
                   sample_node [sample_entry "e1" 1350345600123] 1
                   (as_subscribed sample_pending_sub) sample_userData []
                   (make_item (sample_entry "e1" 1350345600123)) _ _ _ _ _ _ _ _)
            "bob@example.org" "posts" _ _).
  - reflexivity.
  - reflexivity.
  - constructor.
  - split; reflexivity.
  - reflexivity.
  - reflexivity.
  - reflexivity.
  - reflexivity.
  - reflexivity.
  - reflexivity.
Defined.

Lemma observers_called_in_order_witness :
  effects_of
    (step sample_config (EvStanza sample_reply_error)
       (final_state
          (run sample_config
             (map EvOnStanza [sample_observer 8; sample_stanza_handler; sample_observer 7])
             sample_session))) =
  [CallStanzaHandler 8 sample_reply_error; CallStanzaHandler 9 sample_reply_error].
Proof.
  apply (observers_called_in_order sample_config sample_session
           [sample_observer 8; sample_stanza_handler; sample_observer 7]
           sample_reply_error).
  - reflexivity.
  - reflexivity.
Defined.

Lemma subscribe_query_timeout_witness :
  effects_of
    (step sample_config (EvExpireReply "q1")
       (final_state (run sample_config [EvElapse 60] sample_subscribing))) =
  [CallHandler (HSubscribe 1 (subkey_of sample_config sample_node)) service_unavailable;
   CallOnError 2 "failed"].
Proof.
  apply (subscribe_query_timeout sample_config
           (final_state (run sample_config [EvElapse 60] sample_subscribing))
           "q1" 1 sample_node sample_pending_sub).
  - reflexivity.
  - reflexivity.
  - reflexivity.
Defined.

Lemma subscribe_reply_handled_once_witness :
  final_state
    (step sample_config (EvStanza sample_reply_error)
       (final_state (step sample_config (EvStanza sample_reply_ok) sample_subscribing))) =
  final_state (step sample_config (EvStanza sample_reply_ok) sample_subscribing).
Proof.
  apply (subscribe_reply_handled_once sample_config sample_reply_ok "q1" 1 sample_node
           sample_subscribing sample_pending_sub [] sample_reply_error).
  - reflexivity.
  - constructor.
  - reflexivity.
  - reflexivity.
  - discriminate.
  - reflexivity.
  - reflexivity.
  - reflexivity.
  - reflexivity.
Defined.

Lemma anonymous_request_gets_no_header_witness :
  sessionCache
    (serve sample_config sample_request (Online "@example.org/anon") "k3"
       (serve_all sample_config
          [ {| arr_elapsed := 0; arr_req := credential_request;
               arr_conn := Online "alice@example.org/http"; arr_key := "k1" |} ]
          (Provider_init sample_config 0 sample_request)).1).1.1 =
  sessionCache
    (serve_all sample_config
       [ {| arr_elapsed := 0; arr_req := credential_request;
            arr_conn := Online "alice@example.org/http"; arr_key := "k1" |} ]
       (Provider_init sample_config 0 sample_request)).1.
Proof.
  apply (anonymous_request_gets_no_header sample_config
           [ {| arr_elapsed := 0; arr_req := credential_request;
                arr_conn := Online "alice@example.org/http"; arr_key := "k1" |} ]
           0%nat sample_request sample_request (Online "@example.org/anon") "k3").
  - repeat constructor.
  - repeat split.
Defined.
